(** * yOS WebOS boot sequence: a shallow embedding and its properties

    The development follows the four JavaScript classes of the boot core:
    - [BootLoader]         (src/boot/loader.js): the three-stage pipeline;
    - [KernelInitializer]  (kernel initialisation): the integrity report;
    - [Stage2KernelLoader] (kernel loader): module loading and symbols;
    - [Stage3Init]         (init system): runlevels and services.

    Conventions of the embedding.
    - A method becomes a function from the object's fields (a record) to
      its completion and the updated fields.  [await] is sequencing: every
      [delay] only waits and is dropped.
    - [throw]/[try]/[catch] become the [completion] type.
    - [Date.now()] and [Math.random()] are inputs: each reading is an
      argument of the function that performs it.
    - A JavaScript object used as a dictionary is a finite map over its
      OWN properties: an insertion-ordered association list ([JsObj.obj])
      where the order of the keys is observable, a [gmap] where only
      lookups and the number of keys are.  A lookup [o[k]] that is only
      tested for truthiness also sees the members every object inherits
      from [Object.prototype]; see [Js.inherited]. *)

From Stdlib Require Import ZArith List String HexString DecimalString.
From Stdlib Require QArith.QArith_base.
From stdpp Require Import base option strings list gmap.

Open Scope string_scope.

(* ===================================================================== *)
(** * JavaScript prelude                                                  *)
(* ===================================================================== *)

Module Js.

#[local] Set Warnings "-register-all".

(** Plain data, as far as the boot code builds and inspects it. *)
Inductive value : Type :=
| Undefined
| Null
| NaN
| Bool (b : bool)
| Num (n : Z)
| Str (s : string)
| Arr (items : list value)
| Obj (fields : list (string * value)).

(** [if (v)], [!v], [a && b], [a || b] *)
Definition truthy (v : value) : bool :=
  match v with
  | Undefined | Null | NaN => false
  | Bool b => b
  | Num n => negb (n =? 0)%Z
  | Str s => negb (String.eqb s "")
  | Arr _ | Obj _ => true
  end.

(** [new Error(message)]; [name] tells an [Error] from the [TypeError]
    the engine raises itself. *)
Record error : Type := Error_ { name : string; message : string }.

Definition Error (msg : string) : error :=
  {| name := "Error"; message := msg |}.
Definition TypeError (msg : string) : error :=
  {| name := "TypeError"; message := msg |}.

(** The outcome of a call: a value, or a raised exception. *)
Inductive completion (A : Type) : Type :=
| Return (a : A)
| Throw (e : error).
Arguments Return {A} a.
Arguments Throw {A} e.

Definition succeeded {A} (c : completion A) : bool :=
  match c with Return _ => true | Throw _ => false end.

(** The property names every object literal inherits from
    [Object.prototype].  Each of them reads as a truthy value (a function,
    or the prototype itself) on an object without an own property of that
    name. *)
Definition object_prototype_names : list string :=
  [ "constructor"; "__defineGetter__"; "__defineSetter__";
    "hasOwnProperty"; "__lookupGetter__"; "__lookupSetter__";
    "isPrototypeOf"; "propertyIsEnumerable"; "toString"; "valueOf";
    "__proto__"; "toLocaleString" ].

Definition inherited (k : string) : bool :=
  bool_decide (k ∈ object_prototype_names).

(** [`${n}`] for an integer [n] *)
Definition num_to_string (n : Z) : string :=
  NilZero.string_of_int (Z.to_int n).

(** [n.toString(16)] for a natural number [n]: the digits of
    [HexString.of_N] after its ["0x"] *)
Definition toString16 (n : N) : string :=
  match HexString.of_N n with
  | String _ (String _ digits) => digits
  | s => s
  end.

(** [s.toUpperCase()] on ASCII letters *)
Definition upper_ascii (c : Ascii.ascii) : Ascii.ascii :=
  let n := Ascii.nat_of_ascii c in
  if ((97 <=? n) && (n <=? 122))%nat then Ascii.ascii_of_nat (n - 32) else c.

Fixpoint toUpperCase (s : string) : string :=
  match s with
  | EmptyString => EmptyString
  | String c s' => String (upper_ascii c) (toUpperCase s')
  end.

(** [v.k] on a value that is not [null] or [undefined] *)
Definition prop (v : value) (k : string) : value :=
  match v with
  | Obj fields =>
      match List.find (fun kv => String.eqb (fst kv) k) fields with
      | Some kv => snd kv
      | None => Undefined
      end
  | _ => Undefined
  end.

(** [a && a.k], as a condition *)
Definition has_truthy_prop (v : value) (k : string) : bool :=
  truthy v && truthy (prop v k).

End Js.

(** An ordinary name: one that no object inherits a member for. *)
Definition ordinary (k : string) : Prop := Js.inherited k = false.

(** ** Objects whose key order is observable *)

Module JsObj.

Definition obj (A : Type) : Type := list (string * A).

(** own property lookup *)
Fixpoint get {A} (o : obj A) (k : string) : option A :=
  match o with
  | [] => None
  | (k', v) :: o' => if String.eqb k' k then Some v else get o' k
  end.

(** [o[k] = v] on an own data property: an existing key keeps its place,
    a new key goes last. *)
Fixpoint set {A} (o : obj A) (k : string) (v : A) : obj A :=
  match o with
  | [] => [(k, v)]
  | (k', v') :: o' =>
      if String.eqb k' k then (k', v) :: o' else (k', v') :: set o' k v
  end.

(** [Object.keys(o)]: insertion order (no key of the boot code is an
    array index, which an engine would list first) *)
Definition keys {A} (o : obj A) : list string := map fst o.

(** [Object.values(o)] *)
Definition values {A} (o : obj A) : list A := map snd o.

(** [{ ...a, ...b }] *)
Definition spread {A} (a b : obj A) : obj A :=
  fold_left (fun acc kv => set acc (fst kv) (snd kv)) b a.

(** [o[k] = v] in general: assigning to ["__proto__"] creates no own
    property (it replaces the prototype; what the object inherits after
    that is not tracked here). *)
Definition assign {A} (o : obj A) (k : string) (v : A) : obj A :=
  if String.eqb k "__proto__" then o else set o k v.

(** [!!o[k]] where every own value is an object *)
Definition has {A} (o : obj A) (k : string) : bool :=
  match get o k with
  | Some _ => true
  | None => Js.inherited k
  end.

End JsObj.

(* ===================================================================== *)
(** * BootLoader (src/boot/loader.js)                                     *)
(* ===================================================================== *)

Module BootLoader.

Import Js.

(** [this.bootStatus] *)
Record BootStatus : Type := {
  initialized : bool;
  errors : list string;
  warnings : list string;
  startTime : option Z;          (* [null] is [None] *)
  endTime : option Z
}.

(** the fields of a [BootLoader] *)
Record t : Type := {
  stages : list string;
  currentStage : nat;
  bootStatus : BootStatus;
  kernelModules : JsObj.obj value;
  systemServices : JsObj.obj value
}.

(** [constructor()] *)
Definition new : t := {|
  stages := ["stage1-bios"; "stage2-kernel-loader"; "stage3-init"];
  currentStage := 0;
  bootStatus := {| initialized := false; errors := []; warnings := [];
                   startTime := None; endTime := None |};
  kernelModules := [];
  systemServices := []
|}.

(** What [start] reads of the object a stage's [execute()] resolves to:
    [result.success], the text [`${result.error}`], and
    [result.kernelModules], [result.services] ([None] when absent). *)
Record StageResult : Type := {
  success : bool;
  error : string;
  res_kernelModules : option (JsObj.obj value);
  res_services : option (JsObj.obj value)
}.

(** What [start] returns. *)
Inductive BootResult : Type :=
| BootOk (bootTime : QArith_base.Q) (modules services : list string)
| BootFailed (error : string) (stage : nat) (stageName : option string).

Definition boot_success (r : BootResult) : bool :=
  match r with BootOk _ _ _ => true | BootFailed _ _ _ => false end.

(** [getBootStatus()] *)
Record StatusReport : Type := {
  st_initialized : bool;
  st_errors : list string;
  st_warnings : list string;
  st_startTime : option Z;
  st_endTime : option Z;
  st_currentStage : nat;
  st_totalStages : nat;
  st_kernelModules : nat;
  st_systemServices : nat
}.

Definition getBootStatus (bl : t) : StatusReport := {|
  st_initialized := initialized (bootStatus bl);
  st_errors := errors (bootStatus bl);
  st_warnings := warnings (bootStatus bl);
  st_startTime := startTime (bootStatus bl);
  st_endTime := endTime (bootStatus bl);
  st_currentStage := currentStage bl;
  st_totalStages := length (stages bl);
  st_kernelModules := length (JsObj.keys (kernelModules bl));
  st_systemServices := length (JsObj.keys (systemServices bl))
|}.

(** field updates *)
Definition with_currentStage (n : nat) (bl : t) : t :=
  {| stages := stages bl; currentStage := n; bootStatus := bootStatus bl;
     kernelModules := kernelModules bl;
     systemServices := systemServices bl |}.

Definition with_bootStatus (s : BootStatus) (bl : t) : t :=
  {| stages := stages bl; currentStage := currentStage bl; bootStatus := s;
     kernelModules := kernelModules bl;
     systemServices := systemServices bl |}.

Definition with_tables (km ss : JsObj.obj value) (bl : t) : t :=
  {| stages := stages bl; currentStage := currentStage bl;
     bootStatus := bootStatus bl;
     kernelModules := km; systemServices := ss |}.

Definition set_startTime (now : Z) (s : BootStatus) : BootStatus :=
  {| initialized := initialized s; errors := errors s;
     warnings := warnings s; startTime := Some now; endTime := endTime s |}.

Definition set_initialized (b : bool) (s : BootStatus) : BootStatus :=
  {| initialized := b; errors := errors s; warnings := warnings s;
     startTime := startTime s; endTime := endTime s |}.

Definition set_endTime (now : Z) (s : BootStatus) : BootStatus :=
  {| initialized := initialized s; errors := errors s;
     warnings := warnings s; startTime := startTime s;
     endTime := Some now |}.

Definition push_error (msg : string) (s : BootStatus) : BootStatus :=
  {| initialized := initialized s; errors := errors s ++ [msg];
     warnings := warnings s; startTime := startTime s;
     endTime := endTime s |}.

Section Pipeline.

(** The stage actions are collaborators of the loader.  [W] is whatever
    they keep between calls (a test double's counters, say); an action
    sees the loader as it stands when it is called. *)
Context {W : Type}.

Definition Stage : Type := t -> W -> completion StageResult * W.

(** What [loadStage] hands back: an entry of its table, or the member
    [stages[stageName]] finds on [Object.prototype]. *)
Inductive StageRef : Type :=
| OwnStage (s : Stage)
| InheritedMember.

(** [loadStage(stageName)].  The method builds its table of stage objects
    in place ([builtin_stages] below); here the table is the argument
    [tbl], so that a run over other stages can be stated. *)
Definition loadStage (tbl : JsObj.obj Stage) (stageName : string)
  : completion StageRef :=
  match JsObj.get tbl stageName with
  | Some s => Return (OwnStage s)
  | None =>
      if inherited stageName then Return InheritedMember
      else Throw (Error ("Etapa de boot no encontrada: " +:+ stageName))
  end.

(** [stage.execute()] *)
Definition execute (stage : StageRef) (bl : t) (w : W)
  : completion StageResult * W :=
  match stage with
  | OwnStage s => s bl w
  | InheritedMember =>
      (Throw (TypeError "stage.execute is not a function"), w)
  end.

(** The body of the [for] loop of [start], from index [i] on;
    [rest] is [this.stages.slice(i)]. *)
Fixpoint run_stages (tbl : JsObj.obj Stage) (i : nat) (rest : list string)
    (bl : t) (w : W) : completion unit * t * W :=
  match rest with
  | [] => (Return tt, bl, w)
  | stageName :: rest' =>
      let bl := with_currentStage (i + 1) bl in
      match loadStage tbl stageName with
      | Throw e => (Throw e, bl, w)
      | Return stage =>
          match execute stage bl w with
          | (Throw e, w) => (Throw e, bl, w)
          | (Return result, w) =>
              if negb (success result) then
                (Throw (Error ("Fallo en etapa " +:+ stageName +:+ ": "
                               +:+ error result)), bl, w)
              else
                let km := JsObj.spread (kernelModules bl)
                            (default [] (res_kernelModules result)) in
                let ss := JsObj.spread (systemServices bl)
                            (default [] (res_services result)) in
                run_stages tbl (i + 1) rest' (with_tables km ss bl) w
          end
      end
  end.

(** [this.stages[this.currentStage - 1]] *)
Definition current_stage_name (bl : t) : option string :=
  match currentStage bl with
  | 0 => None
  | S i => stages bl !! i
  end.

(** [start()].  [t0] is the reading of [Date.now()] on entry, [t1] the
    reading taken once all stages are through. *)
Definition start (tbl : JsObj.obj Stage) (t0 t1 : Z) (bl : t) (w : W)
  : BootResult * t * W :=
  let bl := with_bootStatus (set_startTime t0 (bootStatus bl)) bl in
  match run_stages tbl 0 (stages bl) bl w with
  | (Return _, bl, w) =>
      (* mountVirtualFilesystem and initializeSystemServices only wait
         and log *)
      let bl := with_bootStatus
                  (set_endTime t1 (set_initialized true (bootStatus bl)))
                  bl in
      (BootOk (QArith_base.Qmake (t1 - t0) 1000)
              (JsObj.keys (kernelModules bl))
              (JsObj.keys (systemServices bl)), bl, w)
  | (Throw e, bl, w) =>
      let bl := with_bootStatus (push_error (message e) (bootStatus bl))
                  bl in
      (BootFailed (message e) (currentStage bl) (current_stage_name bl),
       bl, w)
  end.

(** The assignments of [reboot()] under "Limpiar estado". *)
Definition clear_state (bl : t) : t :=
  {| stages := stages bl;
     currentStage := 0;
     bootStatus := set_initialized false (bootStatus bl);
     kernelModules := [];
     systemServices := [] |}.

(** [reboot()] *)
Definition reboot (tbl : JsObj.obj Stage) (t0 t1 : Z) (bl : t) (w : W)
  : BootResult * t * W :=
  start tbl t0 t1 (clear_state bl) w.

End Pipeline.

(** The table inside [loadStage]: three stages that always succeed. *)
Definition builtin_stages {W} : JsObj.obj (@Stage W) :=
  [ ("stage1-bios",
     fun _ w => (Return {| success := true; error := "undefined";
                           res_kernelModules := None;
                           res_services := None |}, w));
    ("stage2-kernel-loader",
     fun _ w => (Return {| success := true; error := "undefined";
                           res_kernelModules := Some
                             [ ("scheduler", Obj [("status", Str "loaded")]);
                               ("memory-manager",
                                  Obj [("status", Str "loaded")]);
                               ("process-manager",
                                  Obj [("status", Str "loaded")]) ];
                           res_services := None |}, w));
    ("stage3-init",
     fun _ w => (Return {| success := true; error := "undefined";
                           res_kernelModules := None;
                           res_services := Some
                             [ ("auth", Obj [("status", Str "running")]);
                               ("vfs", Obj [("status", Str "running")]);
                               ("network",
                                  Obj [("status", Str "running")]) ] |},
                 w)) ].

End BootLoader.

(* ===================================================================== *)
(** * KernelInitializer: the integrity report                             *)
(* ===================================================================== *)

(** The three arrays every status check of the boot code fills. *)
Module Findings.

Record t : Type := {
  checks : list string;
  issues : list string;
  warnings : list string
}.

Definition empty : t := {| checks := []; issues := []; warnings := [] |}.

(** [checks.push(s)], [issues.push(s)], [warnings.push(s)] *)
Definition check (s : string) (f : t) : t :=
  {| checks := checks f ++ [s]; issues := issues f;
     warnings := warnings f |}.
Definition issue (s : string) (f : t) : t :=
  {| checks := checks f; issues := issues f ++ [s];
     warnings := warnings f |}.
Definition warning (s : string) (f : t) : t :=
  {| checks := checks f; issues := issues f;
     warnings := warnings f ++ [s] |}.

(** [for (const x of xs) { if (present(x)) checks.push(ok(x));
    else issues.push(bad(x)); }] *)
Definition require {A} (xs : list A) (present : A -> bool)
    (ok bad : A -> string) (f : t) : t :=
  fold_left (fun f x => if present x then check (ok x) f
                        else issue (bad x) f) xs f.

(** the same loop with [warnings.push] in the else branch *)
Definition advise {A} (xs : list A) (present : A -> bool)
    (ok bad : A -> string) (f : t) : t :=
  fold_left (fun f x => if present x then check (ok x) f
                        else warning (bad x) f) xs f.

(** [issues.length === 0] *)
Definition no_issues (f : t) : bool :=
  match issues f with [] => true | _ => false end.

End Findings.

Module KernelInitializer.

Import Js.

(** The fields [verifyKernelIntegrity] reads.  The three tables are read
    under fixed, ordinary names only. *)
Record t : Type := {
  kernelModules : gmap string value;
  systemTables : gmap string value;
  deviceTree : value;
  interruptHandlers : gmap Z value;      (* keyed by vector number *)
  kernelHeap : value;
  bootParams : value
}.

(** [constructor()] *)
Definition new : t := {|
  kernelModules := ∅;
  systemTables := ∅;
  deviceTree := Obj [];
  interruptHandlers := ∅;
  kernelHeap := Null;
  bootParams := Obj []
|}.

Record IntegrityReport : Type := {
  healthy : bool;
  checks : list string;
  issues : list string;
  warnings : list string;
  tables : nat;
  interrupts : nat;
  modules : nat;
  timestamp : Z
}.

(** [!!m[k]] *)
Definition present {K} `{Countable K} (m : gmap K value) (k : K) : bool :=
  truthy (default Undefined (m !! k)).

(** The classification part of [verifyKernelIntegrity]. *)
Definition integrity_findings (k : t) : Findings.t :=
  let f := Findings.empty in
  let f := Findings.require ["gdt"; "idt"; "tss"; "pml4"]
             (present (systemTables k))
             (fun table => toUpperCase table +:+ ": OK")
             (fun table => "Tabla " +:+ table +:+ " no inicializada") f in
  let f := Findings.require [0; 8; 13; 14; 32]%Z
             (present (interruptHandlers k))
             (fun vector => "Interrupt " +:+ num_to_string vector +:+ ": OK")
             (fun vector => "Manejador de interrupción "
                            +:+ num_to_string vector +:+ " faltante") f in
  let f := Findings.require ["scheduler"; "memory"; "time"; "ipc"]
             (present (kernelModules k))
             (fun module => "Módulo " +:+ module +:+ ": OK")
             (fun module => "Módulo " +:+ module +:+ " no inicializado") f in
  let f := if truthy (kernelHeap k)
           then Findings.check "Heap del kernel: OK" f
           else Findings.issue "Heap del kernel no inicializado" f in
  let f := if has_truthy_prop (deviceTree k) "root"
           then Findings.check "Árbol de dispositivos: OK" f
           else Findings.warning "Árbol de dispositivos incompleto" f in
  let f := if has_truthy_prop (bootParams k) "kernelVersion"
           then Findings.check "Parámetros de boot: OK" f
           else Findings.warning "Parámetros de boot no configurados" f in
  f.

(** [verifyKernelIntegrity()]; [now] is the reading of [Date.now()] for
    [timestamp].  The method assigns no field: the fields it is given are
    the fields it leaves. *)
Definition verifyKernelIntegrity (now : Z) (k : t) : IntegrityReport * t :=
  let f := integrity_findings k in
  ({| healthy := Findings.no_issues f;
      checks := Findings.checks f;
      issues := Findings.issues f;
      warnings := Findings.warnings f;
      tables := size (systemTables k);
      interrupts := size (interruptHandlers k);
      modules := size (kernelModules k);
      timestamp := now |}, k).

End KernelInitializer.

(* ===================================================================== *)
(** * Stage2KernelLoader: kernel modules and symbols                      *)
(* ===================================================================== *)

Module Stage2KernelLoader.

Import Js.

(** an entry of [essentialModules] *)
Record ModuleDefinition : Type := {
  name : string;
  path : string;
  priority : Z;
  dependencies : list string;
  exports : list string
}.

(** an entry of [moduleTemplates]; [initialize] is what calling
    [initialize()] returns, [api] the names of the functions of [api] *)
Record ModuleTemplate : Type := {
  tpl_name : string;
  version : string;
  type_ : string;
  initialize : option value;
  api : list string
}.

(** What [moduleTemplates[name]] finds: an entry of the table, or a
    member of [Object.prototype]. *)
Inductive TemplateRef : Type :=
| OwnTemplate (tpl : ModuleTemplate)
| InheritedMember.

(** [{ ...template, dependencies, initialized }] and later [state];
    [template] is [None] when the spread copied nothing (an inherited
    member has no enumerable property of its own). *)
Record ModuleInstance : Type := {
  template : option ModuleTemplate;
  inst_dependencies : list string;
  initialized : bool;
  state : option value
}.

(** an entry of [this.symbols] *)
Record Symbol : Type := {
  sym_module : string;
  address : string;
  sym_type : option string
}.

(** the fields the loading path uses *)
Record t : Type := {
  kernelBase : N;
  modules : JsObj.obj ModuleInstance;
  symbols : gmap string Symbol
}.

(** [constructor()] *)
Definition new : t :=
  {| kernelBase := 0x100000; modules := []; symbols := ∅ |}.

Definition with_modules (m : JsObj.obj ModuleInstance) (k : t) : t :=
  {| kernelBase := kernelBase k; modules := m; symbols := symbols k |}.

Definition with_symbols (s : gmap string Symbol) (k : t) : t :=
  {| kernelBase := kernelBase k; modules := modules k; symbols := s |}.

(** The list inside [loadEssentialModules]. *)
Definition essentialModules : list ModuleDefinition :=
  [ {| name := "scheduler"; path := "kernel/core/scheduler.js";
       priority := 1; dependencies := [];
       exports := ["schedule"; "createProcess"; "terminateProcess";
                   "yield"; "sleep"] |};
    {| name := "memory-manager"; path := "kernel/core/memory-manager.js";
       priority := 1; dependencies := [];
       exports := ["kmalloc"; "kfree"; "mapMemory"; "unmapMemory";
                   "getPhysicalAddress"] |};
    {| name := "process-manager"; path := "kernel/core/process-manager.js";
       priority := 1; dependencies := ["scheduler"; "memory-manager"];
       exports := ["createProcess"; "terminateProcess"; "getProcessById";
                   "getAllProcesses"; "sendSignal"] |};
    {| name := "ipc-system"; path := "kernel/core/ipc-system.js";
       priority := 2; dependencies := ["process-manager"];
       exports := ["createMessageQueue"; "sendMessage"; "receiveMessage";
                   "createSharedMemory"; "destroySharedMemory"] |};
    {| name := "syscalls"; path := "kernel/core/syscalls.js";
       priority := 0;            (* "Muy alta prioridad" *)
       dependencies := ["process-manager"; "memory-manager"];
       exports := [] |} ].

(** The table inside [loadModule]. *)
Definition moduleTemplates : JsObj.obj ModuleTemplate :=
  [ ("scheduler",
     {| tpl_name := "scheduler"; version := "1.0.0"; type_ := "kernel";
        initialize := Some (Obj [("status", Str "initialized");
                                 ("queue", Arr []);
                                 ("currentProcess", Null)]);
        api := ["schedule"; "createProcess"; "terminateProcess"; "yield";
                "sleep"] |});
    ("memory-manager",
     {| tpl_name := "memory-manager"; version := "1.0.0";
        type_ := "kernel";
        initialize := Some (Obj [("status", Str "initialized");
                                 ("allocated", Num 0);
                                 ("free", Num (1024 * 1024 * 1024));
                                 ("regions", Arr [])]);
        api := ["kmalloc"; "kfree"; "mapMemory"; "unmapMemory";
                "getPhysicalAddress"] |});
    ("process-manager",
     {| tpl_name := "process-manager"; version := "1.0.0";
        type_ := "kernel";
        initialize := Some (Obj [("status", Str "initialized");
                                 ("processes", Obj []);
                                 ("nextPid", Num 1)]);
        api := ["createProcess"; "terminateProcess"; "getProcessById";
                "getAllProcesses"; "sendSignal"] |});
    ("ipc-system",
     {| tpl_name := "ipc-system"; version := "1.0.0"; type_ := "kernel";
        initialize := Some (Obj [("status", Str "initialized");
                                 ("queues", Obj []);
                                 ("sharedMemories", Obj [])]);
        api := ["createMessageQueue"; "sendMessage"; "receiveMessage";
                "createSharedMemory"; "destroySharedMemory"] |});
    ("syscalls",
     {| tpl_name := "syscalls"; version := "1.0.0"; type_ := "kernel";
        initialize := Some (Obj [("status", Str "initialized");
                                 ("table", Obj []);
                                 ("count", Num 0)]);
        api := [] |}) ].

(** [moduleTemplates[name]], [None] for [undefined] *)
Definition lookup_template (name : string) : option TemplateRef :=
  match JsObj.get moduleTemplates name with
  | Some tpl => Some (OwnTemplate tpl)
  | None => if inherited name then Some InheritedMember else None
  end.

(** the three errors of the loading path *)
Definition TemplateNotFound (name : string) : error :=
  Error ("Template no encontrado para módulo: " +:+ name).
Definition UnsatisfiedDependency (dep name : string) : error :=
  Error ("Dependencia no satisfecha: " +:+ dep +:+ " para " +:+ name).
Definition EssentialModuleFailed (name : string) : error :=
  Error ("No se pudo cargar módulo esencial: " +:+ name).

(** the module instance of [loadModule], once the checks are through *)
Definition instantiate (tpl : TemplateRef) (moduleDef : ModuleDefinition)
  : ModuleInstance :=
  match tpl with
  | OwnTemplate tpl =>
      match initialize tpl with
      | Some initResult =>
          {| template := Some tpl;
             inst_dependencies := dependencies moduleDef;
             initialized := true; state := Some initResult |}
      | None =>
          {| template := Some tpl;
             inst_dependencies := dependencies moduleDef;
             initialized := false; state := None |}
      end
  | InheritedMember =>
      {| template := None; inst_dependencies := dependencies moduleDef;
         initialized := false; state := None |}
  end.

(** [loadModule(moduleDef)].  It assigns no field of [this]. *)
Definition loadModule (moduleDef : ModuleDefinition) (k : t)
  : completion ModuleInstance * t :=
  match lookup_template (name moduleDef) with
  | None => (Throw (TemplateNotFound (name moduleDef)), k)
  | Some tpl =>
      match List.find (fun dep => negb (JsObj.has (modules k) dep))
                      (dependencies moduleDef) with
      | Some dep => (Throw (UnsatisfiedDependency dep (name moduleDef)), k)
      | None => (Return (instantiate tpl moduleDef), k)
      end
  end.

(** [essentialModules.sort((a, b) => a.priority - b.priority)]: a stable
    sort, lower priority value first. *)
Fixpoint insert_by_priority (d : ModuleDefinition)
    (l : list ModuleDefinition) : list ModuleDefinition :=
  match l with
  | [] => [d]
  | x :: l' =>
      if (priority d <=? priority x)%Z then d :: x :: l'
      else x :: insert_by_priority d l'
  end.

Definition sort_by_priority (l : list ModuleDefinition)
  : list ModuleDefinition :=
  foldr insert_by_priority [] l.

(** [symbols[k] = v]; see [JsObj.assign] for ["__proto__"] *)
Definition sym_assign (s : gmap string Symbol) (k : string) (v : Symbol)
  : gmap string Symbol :=
  if String.eqb k "__proto__" then s else <[k := v]> s.

(** The inner loop "Registrar símbolos exportados". *)
Definition registerExports (moduleDef : ModuleDefinition) (k : t) : t :=
  fold_left
    (fun k exportName =>
       with_symbols
         (sym_assign (symbols k) exportName
            {| sym_module := name moduleDef;
               address := "kernel+0x" +:+
                          toString16 (kernelBase k
                                      + N.of_nat (size (symbols k)) * 8);
               sym_type := None |})
         k)
    (exports moduleDef) k.

(** The loop "Cargar cada módulo" over the sorted definitions. *)
Fixpoint load_each (defs : list ModuleDefinition) (k : t)
  : completion unit * t :=
  match defs with
  | [] => (Return tt, k)
  | moduleDef :: rest =>
      match loadModule moduleDef k with
      | (Return module, k) =>
          let k := with_modules
                     (JsObj.assign (modules k) (name moduleDef) module) k in
          let k := registerExports moduleDef k in
          load_each rest k
      | (Throw _, k) =>
          (Throw (EssentialModuleFailed (name moduleDef)), k)
      end
  end.

(** [loadEssentialModules()] with its list as an argument *)
Definition loadEssentialModulesFrom (defs : list ModuleDefinition) (k : t)
  : completion (JsObj.obj ModuleInstance) * t :=
  match load_each (sort_by_priority defs) k with
  | (Return _, k) => (Return (modules k), k)
  | (Throw e, k) => (Throw e, k)
  end.

(** [loadEssentialModules()] *)
Definition loadEssentialModules (k : t)
  : completion (JsObj.obj ModuleInstance) * t :=
  loadEssentialModulesFrom essentialModules k.

(** First half of [resolveSymbols]: every dependency of every loaded
    module is looked up again. *)
Definition DependencyNotFound (depName moduleName : string) : error :=
  Error ("Dependencia no encontrada: " +:+ depName +:+ " para "
         +:+ moduleName).

Fixpoint check_dependencies (entries : list (string * ModuleInstance))
    (k : t) : completion unit :=
  match entries with
  | [] => Return tt
  | (moduleName, module) :: rest =>
      match List.find (fun depName => negb (JsObj.has (modules k) depName))
                      (inst_dependencies module) with
      | Some depName => Throw (DependencyNotFound depName moduleName)
      | None => check_dependencies rest k
      end
  end.

(** [module.api], [None] for [undefined] *)
Definition instance_api (module : ModuleInstance) : option (list string) :=
  api <$> template module.

(** Second half: [globalSymbols], filled module by module.  [rnd i] is
    the text of the [i]-th random address; the counter is the number of
    readings taken so far. *)
Definition global_symbols_of (rnd : nat -> string) (moduleName : string)
    (funcs : list string) (acc : gmap string Symbol * nat)
  : gmap string Symbol * nat :=
  fold_left
    (fun acc funcName =>
       (sym_assign (fst acc) funcName
          {| sym_module := moduleName; address := rnd (snd acc);
             sym_type := Some "function" |},
        S (snd acc)))
    funcs acc.

Definition global_symbols (rnd : nat -> string)
    (entries : list (string * ModuleInstance)) : gmap string Symbol :=
  fst (fold_left
         (fun acc entry =>
            match instance_api (snd entry) with
            | Some funcs => global_symbols_of rnd (fst entry) funcs acc
            | None => acc
            end)
         entries (∅, 0)).

(** [resolveSymbols()] *)
Definition resolveSymbols (rnd : nat -> string) (k : t)
  : completion (gmap string Symbol) * t :=
  match check_dependencies (modules k) k with
  | Throw e => (Throw e, k)
  | Return _ =>
      let globalSymbols := global_symbols rnd (modules k) in
      let k := with_symbols (globalSymbols ∪ symbols k) k in
      (Return (symbols k), k)
  end.

End Stage2KernelLoader.

(* ===================================================================== *)
(** * Stage3Init: runlevels and services                                  *)
(* ===================================================================== *)

Module Stage3Init.

Import Js.

(** an entry of [serviceTemplates]; [start] is what awaiting [start()]
    yields and [has_stop] tells whether the entry has a [stop] *)
Record ServiceTemplate : Type := {
  name : string;
  description : string;
  type_ : string;
  runlevels : list Z;
  start : option value;
  has_stop : bool
}.

(** [{ ...template, startedAt, runlevel }] and later [process], [status] *)
Record ServiceInfo : Type := {
  template : ServiceTemplate;
  startedAt : Z;
  runlevel : Z;
  process : option value;
  status : option string
}.

(** an entry of [this.daemons] *)
Record Daemon : Type := {
  daemon_name : string;
  pid : value;
  since : Z
}.

(** What [this.services] holds: the instances [enterRunlevel] stores, and
    the objects [startSystemServices] builds (name, status, startedAt,
    pid). *)
Inductive Service : Type :=
| Instance (info : ServiceInfo)
| SystemService (name status : string) (startedAt pid : Z).

(** [s.status], [None] for [undefined] *)
Definition service_status (s : Service) : option string :=
  match s with
  | Instance info => status info
  | SystemService _ st _ _ => Some st
  end.

(** [s.status === 'running'] *)
Definition is_running (s : Service) : bool :=
  match service_status s with
  | Some st => String.eqb st "running"
  | None => false
  end.

(** The fields of a [Stage3Init] the methods below use.  [serviceTable]
    is assigned by [initInitSystem] and [startTime] by nobody: both are
    [undefined] ([None]) on a new object. *)
Record t : Type := {
  current_runlevel : Z;                       (* [this.runlevel] *)
  services : JsObj.obj Service;
  daemons : list Daemon;
  userSessions : list value;
  serviceTable : option (gmap Z (list string));
  startTime : option Z
}.

(** [constructor()] *)
Definition new : t := {|
  current_runlevel := 0; services := []; daemons := [];
  userSessions := []; serviceTable := None; startTime := None
|}.

(** The table [initInitSystem] assigns to [this.serviceTable]. *)
Definition default_serviceTable : gmap Z (list string) :=
  <[1%Z := ["emergency-shell"; "basic-network"; "minimal-fs"]]>
  (<[2%Z := ["cron"; "syslog"; "dbus"; "network-manager"]]>
  (<[3%Z := ["ssh"; "web-server"; "database"; "print-spooler"]]>
  (<[5%Z := ["display-manager"; "desktop-environment"; "window-manager"]]>
   ∅))).

Definition with_services (s : JsObj.obj Service) (k : t) : t :=
  {| current_runlevel := current_runlevel k; services := s;
     daemons := daemons k; userSessions := userSessions k;
     serviceTable := serviceTable k; startTime := startTime k |}.

Definition with_daemons (d : list Daemon) (k : t) : t :=
  {| current_runlevel := current_runlevel k; services := services k;
     daemons := d; userSessions := userSessions k;
     serviceTable := serviceTable k; startTime := startTime k |}.

Definition with_serviceTable (tbl : gmap Z (list string)) (k : t) : t :=
  {| current_runlevel := current_runlevel k; services := services k;
     daemons := daemons k; userSessions := userSessions k;
     serviceTable := Some tbl; startTime := startTime k |}.

(** The table inside [startService]. *)
Definition serviceTemplates : JsObj.obj ServiceTemplate :=
  [ ("emergency-shell",
     {| name := "emergency-shell"; description := "Shell de emergencia";
        type_ := "daemon"; runlevels := [1%Z];
        start := Some (Obj [("pid", Num 1001); ("status", Str "running");
                            ("port", Null)]);
        has_stop := true |});
    ("basic-network",
     {| name := "basic-network";
        description := "Configuración básica de red";
        type_ := "service"; runlevels := [1; 2; 3; 5]%Z;
        start := Some (Obj [("pid", Num 1002); ("status", Str "running");
                            ("interfaces", Arr [Str "lo"; Str "eth0"]);
                            ("addresses", Arr [Str "127.0.0.1"])]);
        has_stop := false |});
    ("minimal-fs",
     {| name := "minimal-fs"; description := "Filesystem mínimo";
        type_ := "service"; runlevels := [1; 2; 3; 5]%Z;
        start := Some (Obj [("pid", Num 1003); ("status", Str "running");
                            ("mounts", Arr [Str "/"; Str "/proc";
                                            Str "/sys"])]);
        has_stop := false |});
    ("cron",
     {| name := "cron"; description := "Programador de tareas";
        type_ := "daemon"; runlevels := [2; 3; 5]%Z;
        start := Some (Obj [("pid", Num 1004); ("status", Str "running");
                            ("jobs", Num 0)]);
        has_stop := false |});
    ("syslog",
     {| name := "syslog"; description := "Sistema de logging";
        type_ := "daemon"; runlevels := [2; 3; 5]%Z;
        start := Some (Obj [("pid", Num 1005); ("status", Str "running");
                            ("facility", Str "local0")]);
        has_stop := false |});
    ("dbus",
     {| name := "dbus"; description := "Bus de mensajes del sistema";
        type_ := "daemon"; runlevels := [2; 3; 5]%Z;
        start := Some (Obj [("pid", Num 1006); ("status", Str "running");
                            ("sockets", Num 2)]);
        has_stop := false |});
    ("network-manager",
     {| name := "network-manager"; description := "Gestor de red";
        type_ := "daemon"; runlevels := [2; 3; 5]%Z;
        start := Some (Obj [("pid", Num 1007); ("status", Str "running");
                            ("connections", Num 1)]);
        has_stop := false |});
    ("display-manager",
     {| name := "display-manager";
        description := "Gestor de display gráfico";
        type_ := "daemon"; runlevels := [5%Z];
        start := Some (Obj [("pid", Num 1008); ("status", Str "running");
                            ("display", Str ":0")]);
        has_stop := false |});
    ("desktop-environment",
     {| name := "desktop-environment";
        description := "Entorno de escritorio";
        type_ := "service"; runlevels := [5%Z];
        start := Some (Obj [("pid", Num 1009); ("status", Str "running");
                            ("session", Str "yOS-gnome")]);
        has_stop := false |});
    ("window-manager",
     {| name := "window-manager"; description := "Gestor de ventanas";
        type_ := "daemon"; runlevels := [5%Z];
        start := Some (Obj [("pid", Num 1010); ("status", Str "running");
                            ("windows", Num 0)]);
        has_stop := false |}) ].

(** the errors of [startService] *)
Definition ServiceNotFound (serviceName : string) : error :=
  Error ("Servicio no encontrado: " +:+ serviceName).
Definition RunlevelMismatch (serviceName : string) (runlevel : Z) : error :=
  Error ("Servicio " +:+ serviceName +:+ " no disponible en runlevel "
         +:+ num_to_string runlevel).
(** what reading [.runlevels.includes] off an inherited member raises *)
Definition NoRunlevels : error :=
  TypeError "Cannot read properties of undefined (reading 'includes')".

(** [template.runlevels.includes(runlevel)] *)
Definition includes (l : list Z) (x : Z) : bool :=
  List.existsb (Z.eqb x) l.

(** [startService(serviceName, runlevel)]; [now] is the reading of
    [Date.now()] for [startedAt]. *)
Definition startService (now : Z) (serviceName : string) (runlevel : Z)
    (k : t) : completion ServiceInfo * t :=
  match JsObj.get serviceTemplates serviceName with
  | None =>
      if inherited serviceName then (Throw NoRunlevels, k)
      else (Throw (ServiceNotFound serviceName), k)
  | Some template =>
      if negb (includes (runlevels template) runlevel) then
        (Throw (RunlevelMismatch serviceName runlevel), k)
      else
        let serviceInfo :=
          {| template := template; startedAt := now; runlevel := runlevel;
             process := None; status := None |} in
        match start template with
        | Some startResult =>
            let serviceInfo :=
              {| template := template; startedAt := now;
                 runlevel := runlevel; process := Some startResult;
                 status := Some "running" |} in
            let k :=
              if String.eqb (type_ template) "daemon" then
                with_daemons
                  (daemons k ++
                     [ {| daemon_name := serviceName;
                          pid := prop startResult "pid";
                          since := startedAt serviceInfo |} ]) k
              else k in
            (Return serviceInfo, k)
        | None => (Return serviceInfo, k)
        end
  end.

(** a call of [console.error] with its two arguments *)
Definition ConsoleLine : Type := (string * string)%type.

(** The loop of [enterRunlevel] from the [i]-th service on; [clock i] is
    the reading of [Date.now()] while the [i]-th service of the batch is
    started.  The third component is what the loop writes with
    [console.error]. *)
Fixpoint start_each (clock : nat -> Z) (runlevel : Z) (i : nat)
    (names : list string) (k : t) : t * list ConsoleLine :=
  match names with
  | [] => (k, [])
  | serviceName :: rest =>
      match startService (clock i) serviceName runlevel k with
      | (Return service, k) =>
          let k := with_services
                     (JsObj.set (services k) serviceName (Instance service))
                     k in
          start_each clock runlevel (S i) rest k
      | (Throw e, k) =>
          let '(k, lines) := start_each clock runlevel (S i) rest k in
          (k, ("      ❌ Error iniciando " +:+ serviceName +:+ ":",
               message e) :: lines)
      end
  end.

(** what reading [this.serviceTable[runlevel]] raises before
    [initInitSystem] has run *)
Definition NoServiceTable (runlevel : Z) : error :=
  TypeError ("Cannot read properties of undefined (reading '"
             +:+ num_to_string runlevel +:+ "')").

(** [enterRunlevel(runlevel)] *)
Definition enterRunlevel (clock : nat -> Z) (runlevel : Z) (k : t)
  : completion unit * t * list ConsoleLine :=
  match serviceTable k with
  | None => (Throw (NoServiceTable runlevel), k, [])
  | Some tbl =>
      let names := default [] (tbl !! runlevel) in
      let '(k, lines) := start_each clock runlevel 0 names k in
      (Return tt, k, lines)
  end.

(** [checkSystemResources()] *)
Definition memory_free : Z := 3 * 1024 * 1024 * 1024.
Definition cpu_load : Z := 15.

Record SystemStatus : Type := {
  ready : bool;
  checks : list string;
  issues : list string;
  warnings : list string;
  st_runlevel : Z;
  servicesRunning : nat;
  uptime : value;
  timestamp : Z
}.

(** [service && service.status === 'running'] for [this.services[name]] *)
Definition service_running (k : t) (serviceName : string) : bool :=
  match JsObj.get (services k) serviceName with
  | Some service => is_running service
  | None => false
  end.

(** The classification part of [checkSystemStatus]. *)
Definition status_findings (k : t) : Findings.t :=
  let f := Findings.empty in
  let f := Findings.require ["basic-network"; "syslog"; "display-manager"]
             (service_running k)
             (fun serviceName => serviceName +:+ ": OK")
             (fun serviceName => serviceName +:+ " no está ejecutándose")
             f in
  let f := fold_left (fun f mount => Findings.check (mount +:+ ": montado") f)
             ["/"; "/proc"; "/dev"] f in
  let f := if (0 <? length (userSessions k))%nat
           then Findings.check
                  ("Sesiones de usuario: "
                   +:+ num_to_string (Z.of_nat (length (userSessions k)))) f
           else Findings.warning "No hay sesiones de usuario activas" f in
  let f := if (current_runlevel k =? 5)%Z then
             if JsObj.has (services k) "display-manager"
                && JsObj.has (services k) "window-manager"
             then Findings.check "Entorno gráfico: OK" f
             else Findings.issue "Entorno gráfico incompleto" f
           else f in
  let f := Findings.check
             ("Memoria: " +:+ num_to_string memory_free +:+ " libre") f in
  let f := Findings.check
             ("CPU: " +:+ num_to_string cpu_load +:+ "% carga") f in
  let f := if (memory_free <? 100 * 1024 * 1024)%Z
           then Findings.warning "Memoria baja" f else f in
  f.

(** [Date.now() - this.startTime] *)
Definition uptime_at (now : Z) (k : t) : value :=
  match startTime k with
  | Some t0 => Num (now - t0)
  | None => NaN
  end.

(** [checkSystemStatus()]; [now1] and [now2] are the two readings of
    [Date.now()], for [uptime] and for [timestamp].  The method assigns
    no field. *)
Definition checkSystemStatus (now1 now2 : Z) (k : t) : SystemStatus * t :=
  let f := status_findings k in
  ({| ready := Findings.no_issues f;
      checks := Findings.checks f;
      issues := Findings.issues f;
      warnings := Findings.warnings f;
      st_runlevel := current_runlevel k;
      servicesRunning :=
        length (List.filter is_running (JsObj.values (services k)));
      uptime := uptime_at now1 k;
      timestamp := now2 |}, k).

End Stage3Init.

(* ===================================================================== *)
(** * Scenarios and notions used in the statements *)
(* ===================================================================== *)

(** ** Collaborators that observe a run of the BootLoader *)

Module Probe.

Import Js BootLoader.

(** A stage action that resolves to [r] and counts its invocation by
    appending its name to the list of calls. *)
Definition counted (stageName : string) (r : StageResult)
  : @Stage (list string) :=
  fun _ calls => (Return r, (calls ++ [stageName])%list).

(** [observe s] behaves as [s] and also records the loader it is invoked
    on, as a stage action calling [getBootStatus()] would see it. *)
Definition observe {W} (s : @Stage W) : @Stage (W * list t) :=
  fun bl w => let '(r, w') := s bl (fst w) in (r, (w', (snd w ++ [bl])%list)).

Definition observed {W} (tbl : JsObj.obj (@Stage W))
  : JsObj.obj (@Stage (W * list t)) :=
  map (fun entry => (fst entry, observe (snd entry))) tbl.

(** results for test stages *)
Definition ok : StageResult :=
  {| success := true; error := "undefined";
     res_kernelModules := None; res_services := None |}.
Definition failing (msg : string) : StageResult :=
  {| success := false; error := msg;
     res_kernelModules := None; res_services := None |}.

(** A loader that has just completed a run on the built-in stages,
    started at time 1000 and finished at time 1500. *)
Definition completed_loader : t :=
  (start (@builtin_stages unit) 1000 1500 new tt).1.2.

End Probe.

(** ** A kernel that went through its initialisation *)

Module StatusSpec.

Import Js.

(** the state of a [KernelInitializer] after [initialize()] went through
    its first nine steps, as far as the check reads it *)
Definition initialized_kernel : KernelInitializer.t := {|
  KernelInitializer.kernelModules :=
    list_to_map [("synchronization", Obj []); ("lists", Obj []);
                 ("resource", Obj []); ("time", Obj []);
                 ("memory", Obj []); ("scheduler", Obj []);
                 ("ipc", Obj [])];
  KernelInitializer.systemTables :=
    list_to_map [("gdt", Obj []); ("idt", Obj []); ("tss", Obj []);
                 ("pml4", Obj []); ("syscall", Obj []);
                 ("modules", Obj []); ("symbols", Obj [])];
  KernelInitializer.deviceTree := Obj [("root", Obj [])];
  KernelInitializer.interruptHandlers :=
    list_to_map [(0, Obj []); (8, Obj []); (13, Obj []); (14, Obj []);
                 (32, Obj [])]%Z;
  KernelInitializer.kernelHeap := Obj [];
  KernelInitializer.bootParams := Obj [("kernelVersion", Str "1.0.0")]
|}.

End StatusSpec.

(** ** Dependencies among module definitions *)

Module Stage2Spec.

Import Js Stage2KernelLoader.

(** [a] depends on [b], both being modules of the set [defs]. *)
Definition depends_on (defs : list ModuleDefinition) (a b : string) : Prop :=
  exists m, m ∈ defs /\ name m = a /\ b ∈ dependencies m
            /\ b ∈ name <$> defs.

(** The set has a dependency cycle; a module depending on itself is a
    cycle of length 1. *)
Definition cyclic (defs : list ModuleDefinition) : Prop :=
  exists a, tc (depends_on defs) a a.

(** [order] places every dependency before its dependents. *)
Definition dependencies_first (order : list ModuleDefinition) : Prop :=
  forall i m d,
    order !! i = Some m -> d ∈ dependencies m ->
    exists j, j < i /\ name <$> order !! j = Some d.

(** the text of an error names [needle] *)
Definition mentions (e : error) (needle : string) : bool :=
  match String.index 0 needle (message e) with
  | Some _ => true
  | None => false
  end.

(** the entries of the built-in list *)
Definition entry (n : string) : ModuleDefinition :=
  default {| name := n; path := ""; priority := 0; dependencies := [];
             exports := [] |}
          (List.find (fun d => String.eqb (name d) n) essentialModules).

(** two built-in modules made to depend on each other *)
Definition mutual_cycle : list ModuleDefinition :=
  [ {| name := "scheduler"; path := "kernel/core/scheduler.js";
       priority := 1; dependencies := ["process-manager"];
       exports := [] |};
    {| name := "process-manager"; path := "kernel/core/process-manager.js";
       priority := 1; dependencies := ["scheduler"]; exports := [] |} ].

(** a definition the loader has no template for *)
Definition network_stack : ModuleDefinition :=
  {| name := "network-stack"; path := "kernel/net/stack.js"; priority := 3;
     dependencies := ["scheduler"]; exports := [] |}.

(** [b] comes strictly before [a] in the list of names *)
Definition before (names : list string) (a b : string) : Prop :=
  exists i j, j < i /\ names !! i = Some a /\ names !! j = Some b.

(** the entry of [e] is one written for the module [n] *)
Definition owned_by (n e : string) (s : gmap string Symbol) : Prop :=
  exists a, s !! e = Some {| sym_module := n; address := a;
                             sym_type := None |}.

(** the loader once "scheduler" and "memory-manager" are loaded *)
Definition two_loaded : t :=
  (load_each [entry "scheduler"; entry "memory-manager"] new).2.

End Stage2Spec.

(** ** The checks of a service start *)

Module Stage3Spec.

Import Js Stage3Init.

(** The error [startService] raises for a name at a runlevel, if any:
    the outcome of its two checks. *)
Definition start_error (serviceName : string) (runlevel : Z)
  : option error :=
  match JsObj.get serviceTemplates serviceName with
  | None => Some (if inherited serviceName then NoRunlevels
                  else ServiceNotFound serviceName)
  | Some template =>
      if includes (runlevels template) runlevel then None
      else Some (RunlevelMismatch serviceName runlevel)
  end.

(** the line [enterRunlevel] writes for a service that failed with [e] *)
Definition error_line (serviceName : string) (e : error) : ConsoleLine :=
  ("      ❌ Error iniciando " +:+ serviceName +:+ ":", message e).

(** the instance a successful start stores for [template] at [runlevel] *)
Definition running_instance (template : ServiceTemplate) (runlevel : Z)
    (s : option Service) : Prop :=
  exists info,
    s = Some (Instance info)
    /\ Stage3Init.template info = template
    /\ Stage3Init.runlevel info = runlevel
    /\ status info = Some "running"
    /\ process info = start template.

(** a loader whose table asks, at runlevel 3, for a service made for
    runlevels 2, 3 and 5 and for a service made for runlevel 5 *)
Definition mixed_batch : t :=
  with_serviceTable {[ 3%Z := ["cron"; "display-manager"] ]} new.

End Stage3Spec.

(** ** A brand-new loader over the same stages *)

Module BootSpec.

Import Js BootLoader.

(** the loader [new BootLoader()] would be, with the stage list of [bl] *)
Definition cold_loader (bl : t) : t :=
  {| stages := stages bl; currentStage := 0; bootStatus := bootStatus new;
     kernelModules := []; systemServices := [] |}.

(** The stage actions of the table do not look at the loader (the
    built-in ones do not). *)
Definition loader_independent {W} (tbl : JsObj.obj (@Stage W)) : Prop :=
  forall stageName s b1 b2 w,
    JsObj.get tbl stageName = Some s -> s b1 w = s b2 w.

End BootSpec.

(* ===================================================================== *)
(** * Stage3Init: the whole stage *)
(* ===================================================================== *)

Module Stage3Boot.

Import Js Stage3Init.

(** The fields of a [Stage3Init]: those of [Stage3Init.t] and the two the
    rest of [execute()] assigns.  ([runlevels] and [initDirs], which
    [initInitSystem] assigns, are only printed.) *)
Record t : Type := {
  core : Stage3Init.t;
  systemReady : bool;
  startupScripts : list string
}.

(** [constructor()] *)
Definition new : t :=
  {| core := Stage3Init.new; systemReady := false; startupScripts := [] |}.

Definition with_core (c : Stage3Init.t) (k : t) : t :=
  {| core := c; systemReady := systemReady k;
     startupScripts := startupScripts k |}.

(** The readings [execute()] takes from its environment:
    [service_clock rl i] is [Date.now()] while the [i]-th service of
    runlevel [rl] is started, [system_clock i] and [system_pid i] are
    [Date.now()] and [Math.floor(Math.random() * 9000) + 2000] for the
    [i]-th system service, [login_time] is [Date.now()] at login, and
    [uptime_now], [stamp_now] are the two readings of
    [checkSystemStatus]. *)
Record Readings : Type := {
  service_clock : Z -> nat -> Z;
  system_clock : nat -> Z;
  system_pid : nat -> Z;
  login_time : Z;
  uptime_now : Z;
  stamp_now : Z
}.

(** [initInitSystem()] *)
Definition initInitSystem (c : Stage3Init.t) : Stage3Init.t :=
  with_serviceTable default_serviceTable c.

(** The loop of [executeRunlevels] over the runlevels still to enter.
    Its log line reads [this.runlevels[rl]]; [runlevels] is assigned
    where [serviceTable] is, by [initInitSystem], so that on an object
    without the table the log line raises what the read of the table
    raises here, the [TypeError] for reading [rl] off [undefined]. *)
Fixpoint enter_each (clock : Z -> nat -> Z) (levels : list Z)
    (c : Stage3Init.t) : completion unit * Stage3Init.t * list ConsoleLine :=
  match levels with
  | [] => (Return tt, c, [])
  | rl :: rest =>
      let c := {| current_runlevel := rl; services := services c;
                  daemons := daemons c; userSessions := userSessions c;
                  serviceTable := serviceTable c;
                  startTime := startTime c |} in
      match enterRunlevel (clock rl) rl c with
      | (Return _, c, lines) =>
          let '(r, c, lines') := enter_each clock rest c in
          (r, c, (lines ++ lines')%list)
      | (Throw e, c, lines) => (Throw e, c, lines)
      end
  end.

(** [executeRunlevels()]: runlevels 1 to 5 *)
Definition executeRunlevels (clock : Z -> nat -> Z) (c : Stage3Init.t)
  : completion unit * Stage3Init.t * list ConsoleLine :=
  enter_each clock [1; 2; 3; 4; 5]%Z c.

(** The loop of [startSystemServices]; nothing in its [try] throws. *)
Fixpoint start_system_each (clock pids : nat -> Z) (i : nat)
    (names : list string) (c : Stage3Init.t) : Stage3Init.t :=
  match names with
  | [] => c
  | serviceName :: rest =>
      let service := SystemService serviceName "running" (clock i) (pids i) in
      start_system_each clock pids (S i) rest
        (with_services (JsObj.set (services c) serviceName service) c)
  end.

(** [startSystemServices()] *)
Definition startSystemServices (clock pids : nat -> Z) (c : Stage3Init.t)
  : Stage3Init.t :=
  start_system_each clock pids 0
    ["udev"; "random"; "sysctl"; "hostname"; "modules"] c.

(** [runStartupScripts()]: [executeStartupScript] never throws *)
Definition runStartupScripts (k : t) : t :=
  {| core := core k; systemReady := systemReady k;
     startupScripts := ["/etc/rc.local"; "/etc/profile"; "/etc/bash.bashrc";
                        "/etc/environment"] |}.

(** [startUserSessions()]; [now] is the reading for [loginTime] *)
Definition startUserSessions (now : Z) (c : Stage3Init.t) : Stage3Init.t :=
  let session :=
    Obj [ ("user", Str "yos-user"); ("loginTime", Num now);
          ("tty", Str "tty1"); ("display", Str ":0");
          ("environment",
             Obj [ ("PATH", Str "/usr/bin:/bin:/usr/local/bin");
                   ("HOME", Str "/home/yos-user"); ("USER", Str "yos-user");
                   ("SHELL", Str "/bin/bash"); ("LANG", Str "en_US.UTF-8");
                   ("DISPLAY", Str ":0") ]);
          ("processes", Arr []) ] in
  {| current_runlevel := current_runlevel c; services := services c;
     daemons := daemons c;
     userSessions := (userSessions c ++ [session])%list;
     serviceTable := serviceTable c; startTime := startTime c |}.

(** [launchGraphicalEnvironment()]: outside runlevel 5 it returns at once;
    in runlevel 5 no component fails to start and [systemReady] is set. *)
Definition launchGraphicalEnvironment (k : t) : t :=
  if negb (current_runlevel (core k) =? 5)%Z then k
  else {| core := core k; systemReady := true;
          startupScripts := startupScripts k |}.

(** What [execute()] returns. *)
Inductive ExecResult : Type :=
| Success (runlevel : Z) (services daemons userSessions : nat)
          (systemStatus : SystemStatus)
| Failure (error : string) (stage : string).

(** [issues.join(', ')] *)
Definition join (l : list string) : string := String.concat ", " l.

(** [execute()], in a browser ([navigator] and [window] are there).
    [loadDriversAndModules], [configureNetwork] and [mountFilesystems]
    assign no field and do not throw. *)
Definition execute (r : Readings) (k : t)
  : ExecResult * t * list ConsoleLine :=
  let c := initInitSystem (core k) in
  match executeRunlevels (service_clock r) c with
  | (Throw e, c, lines) =>
      (Failure (message e) "stage3-init", with_core c k, lines)
  | (Return _, c, lines) =>
      let c := startSystemServices (system_clock r) (system_pid r) c in
      let k := runStartupScripts (with_core c k) in
      let k := with_core (startUserSessions (login_time r) (core k)) k in
      let k := launchGraphicalEnvironment k in
      let '(systemStatus, c) :=
        checkSystemStatus (uptime_now r) (stamp_now r) (core k) in
      let k := with_core c k in
      if negb (ready systemStatus) then
        (Failure ("Sistema no listo: " +:+ join (issues systemStatus))
                 "stage3-init", k, lines)
      else
        let k := {| core := core k; systemReady := true;
                    startupScripts := startupScripts k |} in
        (Success (current_runlevel (core k))
                 (length (JsObj.keys (services (core k))))
                 (length (daemons (core k)))
                 (length (userSessions (core k)))
                 systemStatus, k, lines)
  end.

End Stage3Boot.

(** ** What the service tables of the init system satisfy *)

Module Stage3Invariant.

Import Js Stage3Init.

(** A stored instance belongs to the template of its name and was started
    at a runlevel that template declares. *)
Definition instance_ok (serviceName : string) (s : Service) : Prop :=
  match s with
  | Instance info =>
      JsObj.get serviceTemplates serviceName = Some (template info)
      /\ includes (runlevels (template info)) (runlevel info) = true
      /\ status info = Some "running"
  | SystemService _ _ _ _ => True
  end.

Definition services_ok (k : t) : Prop :=
  NoDup (JsObj.keys (services k))
  /\ forall serviceName s,
       JsObj.get (services k) serviceName = Some s ->
       instance_ok serviceName s.

(** The entry [startService] pushes on [this.daemons] for a service, at
    the reading [now], if it pushes one. *)
Definition daemon_for (now : Z) (runlevel : Z) (serviceName : string)
  : option Daemon :=
  match JsObj.get serviceTemplates serviceName with
  | Some template =>
      if includes (runlevels template) runlevel
         && String.eqb (type_ template) "daemon"
      then (fun startResult =>
              {| daemon_name := serviceName; pid := prop startResult "pid";
                 since := now |}) <$> start template
      else None
  | None => None
  end.

End Stage3Invariant.

(* ===================================================================== *)
(** * Stage2KernelLoader: the whole stage *)
(* ===================================================================== *)

Module Stage2Boot.

Import Js Stage2KernelLoader.

(** an entry of [this.memoryMap] *)
Record Region : Type := {
  start : N;
  end_ : N;
  region_type : string;
  permissions : string
}.

(** The fields of a [Stage2KernelLoader]: those of the loading path and
    [memoryMap]. *)
Record t : Type := {
  loader : Stage2KernelLoader.t;
  memoryMap : JsObj.obj Region
}.

(** [constructor()] *)
Definition new : t := {| loader := Stage2KernelLoader.new; memoryMap := [] |}.

Definition with_loader (l : Stage2KernelLoader.t) (k : t) : t :=
  {| loader := l; memoryMap := memoryMap k |}.

(** [setupKernelAddressSpace()] *)
Definition setupKernelAddressSpace (k : t) : t :=
  let base := kernelBase (loader k) in
  {| loader := loader k;
     memoryMap :=
       [ ("kernel",
          {| start := base; end_ := base + 0x3FFFFFF;
             region_type := "kernel_code";
             permissions := "read-execute" |});
         ("kernel_data",
          {| start := base + 0x4000000; end_ := base + 0x7FFFFFF;
             region_type := "kernel_data";
             permissions := "read-write" |});
         ("heap",
          {| start := base + 0x8000000; end_ := base + 0xFFFFFFF;
             region_type := "kernel_heap";
             permissions := "read-write" |});
         ("modules",
          {| start := base + 0x10000000; end_ := base + 0x1FFFFFFF;
             region_type := "kernel_modules";
             permissions := "read-execute" |});
         ("stack",
          {| start := base + 0x20000000; end_ := base + 0x2000FFFF;
             region_type := "kernel_stack";
             permissions := "read-write" |}) ] |}.

(** [`${v}`]: the text of a value in a template literal *)
Fixpoint to_text (v : value) : string :=
  match v with
  | Undefined => "undefined"
  | Null => "null"
  | NaN => "NaN"
  | Bool b => if b then "true" else "false"
  | Num n => num_to_string n
  | Str s => s
  | Arr items =>
      String.concat ","
        (map (fun item => match item with
                          | Undefined | Null => ""
                          | _ => to_text item
                          end) items)
  | Obj _ => "[object Object]"
  end.

(** What calling a missing member raises. *)
Definition NotAFunction (expr : string) : error :=
  TypeError (expr +:+ " is not a function").

(** [initProcessManagement()]: the module it asks for is
    [process_manager], with an underscore.  The functions named
    [createProcess] in the templates return an object, so that the call
    and the reading of [.pid] go through when the member is there. *)
Definition initProcessManagement (k : Stage2KernelLoader.t)
  : completion unit :=
  match JsObj.get (modules k) "process_manager" with
  | Some module =>
      match instance_api module with
      | Some funcs =>
          if bool_decide ("createProcess" ∈ funcs) then Return tt
          else Throw (NotAFunction
                        "this.modules.process_manager.api.createProcess")
      | None => Return tt
      end
  | None => Return tt
  end.

(** [initMemoryManagement()]: likewise for [memory_manager] and
    [kmalloc] *)
Definition initMemoryManagement (k : Stage2KernelLoader.t)
  : completion unit :=
  match JsObj.get (modules k) "memory_manager" with
  | Some module =>
      match instance_api module with
      | Some funcs =>
          if bool_decide ("kmalloc" ∈ funcs) then Return tt
          else Throw (NotAFunction "this.modules.memory_manager.api.kmalloc")
      | None => Return tt
      end
  | None => Return tt
  end.

(** [initializeKernelSubsystems()]: the six subsystems in order; the
    last four ([initFilesystem], [initNetwork], [initInterrupts],
    [initSystemClock]) return an object and assign nothing.  An error of
    a subsystem is thrown on. *)
Definition initializeKernelSubsystems (k : Stage2KernelLoader.t)
  : completion unit :=
  match initProcessManagement k with
  | Throw e => Throw e
  | Return _ => initMemoryManagement k
  end.

(** The table inside [setupSystemCallTable]. *)
Definition syscall_names : list string :=
  [ "exit"; "fork"; "read"; "write"; "open"; "close"; "waitpid"; "creat";
    "link"; "unlink"; "execve"; "chdir"; "time"; "mknod"; "chmod";
    "lchown"; "break"; "stat"; "lseek"; "getpid"; "mount" ].

Definition syscallTable : list value :=
  imap (fun number n =>
          Obj [ ("number", Num (Z.of_nat number));
                ("name", Str ("sys_" +:+ n));
                ("handler", Str (n +:+ "_handler")) ])
       syscall_names.

(** [v.k = x] in strict code, on a value that is not [null] or
    [undefined].  An object takes the property; a primitive raises.  (An
    array would take it as well; [value] has no arrays with named
    properties, and no [initialize] of the templates returns an array.) *)
Definition CannotCreateProperty (k kind text : string) : error :=
  TypeError ("Cannot create property '" +:+ k +:+ "' on " +:+ kind +:+ " '"
             +:+ text +:+ "'").

Definition set_prop (v : value) (k : string) (x : value)
  : completion value :=
  match v with
  | Obj fields => Return (Obj (JsObj.set fields k x))
  | Num n => Throw (CannotCreateProperty k "number" (num_to_string n))
  | Str s => Throw (CannotCreateProperty k "string" s)
  | Bool b => Throw (CannotCreateProperty k "boolean" (to_text (Bool b)))
  | _ => Return v
  end.

Definition with_state (st : value) (m : ModuleInstance) : ModuleInstance :=
  {| template := template m; inst_dependencies := inst_dependencies m;
     initialized := initialized m; state := Some st |}.

(** [setupSystemCallTable()] *)
Definition setupSystemCallTable (k : Stage2KernelLoader.t)
  : completion (list value) * Stage2KernelLoader.t :=
  match JsObj.get (modules k) "syscalls" with
  | Some module =>
      match state module with
      | Some st =>
          if truthy st then
            match set_prop st "table" (Arr syscallTable) with
            | Throw e => (Throw e, k)
            | Return st =>
                match set_prop st "count"
                        (Num (Z.of_nat (length syscallTable))) with
                | Throw e => (Throw e, k)
                | Return st =>
                    (Return syscallTable,
                     with_modules
                       (JsObj.set (modules k) "syscalls"
                                  (with_state st module)) k)
                end
            end
          else (Return syscallTable, k)
      | None => (Return syscallTable, k)
      end
  | None => (Return syscallTable, k)
  end.

Record KernelStatus : Type := {
  healthy : bool;
  checks : list string;
  issues : list string;
  warnings : list string;
  modulesLoaded : nat;
  symbolsResolved : nat;
  timestamp : Z
}.

(** [this.modules[moduleName] && this.modules[moduleName].initialized] *)
Definition module_initialized (k : Stage2KernelLoader.t)
    (moduleName : string) : bool :=
  match JsObj.get (modules k) moduleName with
  | Some module => initialized module
  | None => false
  end.

(** [this.symbols[symbol]], as a condition *)
Definition symbol_present (k : Stage2KernelLoader.t) (symbol : string)
  : bool :=
  bool_decide (is_Some (symbols k !! symbol)).

(** what reading a property off [undefined] or [null] raises *)
Definition CannotRead (what k : string) : error :=
  TypeError ("Cannot read properties of " +:+ what +:+ " (reading '" +:+ k
             +:+ "')").

(** [this.modules.syscalls.state.table] once [this.modules.syscalls] is
    there, and [this.modules.syscalls.state.count] *)
Definition syscalls_state_table (module : ModuleInstance)
  : completion value :=
  match state module with
  | None | Some Undefined => Throw (CannotRead "undefined" "table")
  | Some Null => Throw (CannotRead "null" "table")
  | Some st => Return (prop st "table")
  end.

Definition syscalls_state_count (module : ModuleInstance) : value :=
  match state module with
  | Some st => prop st "count"
  | None => Undefined
  end.

(** The first three groups of checks of [verifyKernelStatus]. *)
Definition status_findings (k : t) : Findings.t :=
  let f := Findings.empty in
  let f := Findings.require
             ["scheduler"; "memory-manager"; "process-manager"; "syscalls"]
             (module_initialized (loader k))
             (fun moduleName => moduleName +:+ ": OK")
             (fun moduleName => "Módulo " +:+ moduleName
                                +:+ " no inicializado")
             f in
  let f := Findings.advise
             ["schedule"; "kmalloc"; "createProcess"; "sendMessage"]
             (symbol_present (loader k))
             (fun symbol => "Símbolo " +:+ symbol +:+ ": OK")
             (fun symbol => "Símbolo " +:+ symbol +:+ " no encontrado")
             f in
  if JsObj.has (memoryMap k) "kernel"
  then Findings.check "Memoria del kernel: OK" f
  else Findings.issue "Memoria del kernel no configurada" f.

(** [verifyKernelStatus()]; [now] is the reading of [Date.now()].  The
    method assigns no field. *)
Definition verifyKernelStatus (now : Z) (k : t) : completion KernelStatus :=
  let f := status_findings k in
  let report f :=
    {| healthy := Findings.no_issues f;
       checks := Findings.checks f;
       issues := Findings.issues f;
       warnings := Findings.warnings f;
       modulesLoaded := length (JsObj.keys (modules (loader k)));
       symbolsResolved := size (symbols (loader k));
       timestamp := now |} in
  match JsObj.get (modules (loader k)) "syscalls" with
  | None => Return (report (Findings.issue "Tabla de syscalls no configurada"
                                           f))
  | Some module =>
      match syscalls_state_table module with
      | Throw e => Throw e
      | Return table =>
          if truthy table then
            Return (report
                      (Findings.check
                         ("Syscalls: "
                          +:+ to_text (syscalls_state_count module)
                          +:+ " configuradas") f))
          else
            Return (report
                      (Findings.issue "Tabla de syscalls no configurada" f))
      end
  end.

(** What [execute()] returns. *)
Inductive ExecResult : Type :=
| Success (modules : JsObj.obj ModuleInstance) (symbols : nat)
          (memoryMap : JsObj.obj Region) (kernelStatus : KernelStatus)
| Failure (error : string) (stage : string).

Definition failed (e : error) (k : t) : ExecResult * t :=
  (Failure (message e) "stage2-kernel-loader", k).

(** [execute()]; [rnd] gives the random addresses of [resolveSymbols],
    [now] is the reading of [verifyKernelStatus]. *)
Definition execute (rnd : nat -> string) (now : Z) (k : t)
  : ExecResult * t :=
  let k := setupKernelAddressSpace k in
  match loadEssentialModules (loader k) with
  | (Throw e, l) => failed e (with_loader l k)
  | (Return _, l) =>
      match resolveSymbols rnd l with
      | (Throw e, l) => failed e (with_loader l k)
      | (Return _, l) =>
          match initializeKernelSubsystems l with
          | Throw e => failed e (with_loader l k)
          | Return _ =>
              match setupSystemCallTable l with
              | (Throw e, l) => failed e (with_loader l k)
              | (Return _, l) =>
                  let k := with_loader l k in
                  match verifyKernelStatus now k with
                  | Throw e => failed e k
                  | Return kernelStatus =>
                      if negb (healthy kernelStatus) then
                        failed (Error ("Kernel no saludable: "
                                       +:+ String.concat ", "
                                             (issues kernelStatus))) k
                      else
                        (Success (modules l) (size (symbols l))
                                 (memoryMap k) kernelStatus, k)
                  end
              end
          end
      end
  end.

End Stage2Boot.

(** ** What the loaded modules satisfy *)

Module Stage2Invariant.

Import Js Stage2KernelLoader.

(** Every dependency a stored module lists reads as loaded. *)
Definition deps_closed (k : t) : Prop :=
  forall moduleName module dep,
    (moduleName, module) ∈ modules k ->
    dep ∈ inst_dependencies module ->
    JsObj.has (modules k) dep = true.

(** [module] is what [loadModule] builds for a definition of [defs] named
    [moduleName]. *)
Definition built_from (defs : list ModuleDefinition) (moduleName : string)
    (module : ModuleInstance) : Prop :=
  exists moduleDef tpl,
    moduleDef ∈ defs /\ name moduleDef = moduleName
    /\ lookup_template moduleName = Some tpl
    /\ module = instantiate tpl moduleDef.


End Stage2Invariant.

(** ** The verdict of the status check *)

Module Stage2Verdict.

Import Js Stage2KernelLoader Stage2Boot.



(** The state [execute()] needs to find for its loading to go through:
    the two dependencies of "syscalls" read as loaded, the stored modules
    have their dependencies, and nothing is stored under the two names
    with an underscore. *)
Definition preloaded (k : Stage2KernelLoader.t) : Prop :=
  JsObj.has (modules k) "process-manager" = true
  /\ JsObj.has (modules k) "memory-manager" = true
  /\ Stage2Invariant.deps_closed k
  /\ JsObj.get (modules k) "process_manager" = None
  /\ JsObj.get (modules k) "memory_manager" = None.

(** a loader on which the first three built-in definitions were loaded
    in the order they are written in *)
Definition three_loaded : Stage2Boot.t :=
  {| loader :=
       (load_each [ Stage2Spec.entry "scheduler";
                    Stage2Spec.entry "memory-manager";
                    Stage2Spec.entry "process-manager" ]
                  Stage2KernelLoader.new).2;
     memoryMap := [] |}.

End Stage2Verdict.

(* ===================================================================== *)
(** * Stage1BIOS: the emulated BIOS *)
(* ===================================================================== *)

Module Stage1BIOS.

Import Js.

(** What the stage reads off [navigator]. *)
Record Navigator : Type := {
  vendor : string;
  userAgent : string;
  hardwareConcurrency : value;
  maxTouchPoints : value;
  deviceMemory : value;
  connection : value;
  mediaDevices : value
}.

(** [a || b] *)
Definition or_else (a b : value) : value := if truthy a then a else b.

(** [this.memory] after [initializeMemory]; [regions] is kept as data *)
Record Memory : Type := {
  total : Z;
  available : Z;
  used : Z;
  page_size : Z;
  pages_total : Z;
  pages_free : Z;
  regions : list value
}.

(** [this.cpuInfo] after [configureCPU]; [registers] and [interrupts]
    are kept as data *)
Record CpuInfo : Type := {
  architecture : string;
  cpu_vendor : string;
  model : string;
  frequency : string;
  features : list string;
  registers : value;
  mode : string;
  interrupts : value
}.

(** The fields of a [Stage1BIOS].  [memory] and [cpuInfo] are [None] for
    the empty object of the constructor. *)
Record t : Type := {
  hardware : value;
  memory : option Memory;
  cpuInfo : option CpuInfo;
  devices : list value
}.

(** [constructor()] *)
Definition new : t :=
  {| hardware := Obj []; memory := None; cpuInfo := None; devices := [] |}.

(** [detectHardware()] *)
Definition detectHardware (nav : Navigator) (k : t) : t :=
  {| hardware :=
       Obj [ ("platform", Str "Web Browser");
             ("vendor", or_else (Str (vendor nav)) (Str "Unknown"));
             ("userAgent", Str (userAgent nav));
             ("cores", or_else (hardwareConcurrency nav) (Num 4));
             ("maxTouchPoints", or_else (maxTouchPoints nav) (Num 0));
             ("deviceMemory", or_else (deviceMemory nav) (Num 4));
             ("connection",
                if truthy (connection nav) then
                  Obj [ ("effectiveType",
                           prop (connection nav) "effectiveType");
                        ("downlink", prop (connection nav) "downlink");
                        ("rtt", prop (connection nav) "rtt") ]
                else Null) ];
     memory := memory k; cpuInfo := cpuInfo k; devices := devices k |}.

Definition region (start end_ : Z) (type_ : string) (protected : bool)
  : value :=
  Obj [ ("start", Num start); ("end", Num end_); ("type", Str type_);
        ("size", Str "1GB"); ("protected", Bool protected) ].

(** [initializeMemory()]: 4 GB, of which [Math.floor(total * 0.8)] is
    available *)
Definition initializeMemory (k : t) : t :=
  let totalMemory := (4 * 1024 * 1024 * 1024)%Z in
  let availableMemory := (totalMemory * 8 / 10)%Z in
  {| hardware := hardware k;
     memory :=
       Some {| total := totalMemory; available := availableMemory;
               used := 0; page_size := 4096;
               pages_total := availableMemory / 4096;
               pages_free := availableMemory / 4096;
               regions :=
                 [ region 0x00000000 0x3FFFFFFF "kernel" true;
                   region 0x40000000 0x7FFFFFFF "user" false;
                   region 0x80000000 0xBFFFFFFF "device" true;
                   region 0xC0000000 0xFFFFFFFF "reserved" true ] |};
     cpuInfo := cpuInfo k; devices := devices k |}.

(** [configureCPU()] *)
Definition configureCPU (k : t) : t :=
  {| hardware := hardware k; memory := memory k;
     cpuInfo :=
       Some {| architecture := "x86_64"; cpu_vendor := "yOS Virtual CPU";
               model := "vCPU-1.0"; frequency := "2.4 GHz";
               features := [ "MMU"; "FPU"; "SSE"; "SSE2"; "SSE3";
                             "Virtualization"; "HyperThreading" ];
               registers := Obj [ ("general", Num 16); ("floating", Num 8);
                                  ("control", Num 8); ("segment", Num 6) ];
               mode := "protected";
               interrupts := Obj [ ("total", Num 256);
                                   ("available", Num 224);
                                   ("reserved", Num 32) ] |};
     devices := devices k |}.

Definition device (id type_ name manufacturer status : string)
    (more : list (string * value)) : value :=
  Obj ([ ("id", Str id); ("type", Str type_); ("name", Str name);
         ("manufacturer", Str manufacturer) ] ++ more
       ++ [ ("status", Str status) ]).

(** [scanDevices()] *)
Definition scanDevices (nav : Navigator) (k : t) : t :=
  let virtual :=
    [ device "dev-001" "display" "Virtual Display" "yOS Graphics"
             "connected" [("resolution", Str "1920x1080")];
      device "dev-002" "keyboard" "Virtual Keyboard" "yOS Input"
             "connected" [("layout", Str "QWERTY")];
      device "dev-003" "mouse" "Virtual Mouse" "yOS Input" "connected"
             [("buttons", Num 3)];
      device "dev-004" "storage" "Virtual Storage" "yOS Storage"
             "connected"
             [("capacity", Str "10GB"); ("interface", Str "SATA")];
      device "dev-005" "audio" "Virtual Audio" "yOS Multimedia"
             "connected"
             [("channels", Num 2); ("sampleRate", Str "44100Hz")] ] in
  let real :=
    if truthy (mediaDevices nav) then
      [ device "dev-006" "camera" "Web Camera" "Browser" "available" [];
        device "dev-007" "microphone" "Web Microphone" "Browser"
               "available" [] ]
    else [] in
  {| hardware := hardware k; memory := memory k; cpuInfo := cpuInfo k;
     devices := (virtual ++ real)%list |}.

(** [s.includes(sub)] *)
Definition includes (s sub : string) : bool :=
  match String.index 0 sub s with
  | Some _ => true
  | None => false
  end.

(** [this.devices.find(d => d.type === type_)], as a condition *)
Definition has_device (k : t) (type_ : string) : bool :=
  List.existsb (fun d => match prop d "type" with
                         | Str s => String.eqb s type_
                         | _ => false
                         end) (devices k).

(** [this.memory.available < 512 * 1024 * 1024]; on the empty object of
    the constructor the comparison is with [undefined], and false *)
Definition memory_low (k : t) : bool :=
  match memory k with
  | Some m => (available m <? 512 * 1024 * 1024)%Z
  | None => false
  end.

(** [compatibleBrowsers.some(browser => userAgent.includes(browser))] *)
Definition compatible (nav : Navigator) : bool :=
  List.existsb (includes (userAgent nav))
               ["Chrome"; "Firefox"; "Safari"; "Edge"].

Record IntegrityCheck : Type := {
  passed : bool;
  checks : list string;
  errors : list string;
  warnings : list string;
  timestamp : Z
}.

(** what reading [.includes] off the missing [features] raises *)
Definition NoFeatures : error :=
  TypeError "Cannot read properties of undefined (reading 'includes')".

(** The five checks; the errors are the issues of the findings. *)
Definition integrity_findings (nav : Navigator) (features : list string)
    (k : t) : Findings.t :=
  let f := Findings.empty in
  let f := if memory_low k then Findings.issue "Memoria insuficiente" f
           else Findings.check "Memoria: OK" f in
  let f := if negb (bool_decide ("MMU" ∈ features))
           then Findings.issue "CPU no compatible (MMU requerido)" f
           else Findings.check "CPU: OK" f in
  let f := if negb (has_device k "display")
           then Findings.warning "No se detectó display" f
           else Findings.check "Display: OK" f in
  let f := if negb (has_device k "storage")
           then Findings.issue "No hay dispositivo de almacenamiento" f
           else Findings.check "Storage: OK" f in
  if negb (compatible nav)
  then Findings.warning "Navegador no probado completamente" f
  else Findings.check "Navegador: OK" f.

(** [checkSystemIntegrity()]; [now] is the reading of [Date.now()].  The
    method assigns no field. *)
Definition checkSystemIntegrity (nav : Navigator) (now : Z) (k : t)
  : completion IntegrityCheck :=
  match cpuInfo k with
  | None => Throw NoFeatures
  | Some cpu =>
      let f := integrity_findings nav (features cpu) k in
      Return {| passed := Findings.no_issues f;
                checks := Findings.checks f;
                errors := Findings.issues f;
                warnings := Findings.warnings f;
                timestamp := now |}
  end.

(** What [execute()] returns. *)
Inductive ExecResult : Type :=
| Success (hardware : value) (memory : option Memory)
          (cpu : option CpuInfo) (devices : list value)
          (integrity : IntegrityCheck)
| Failure (error : string) (stage : string).

(** [execute()], in a browser ([navigator], [window] and [Intl] are
    there): [prepareEnvironment] only reads them and registers two event
    handlers on [window]; it assigns no field and does not throw. *)
Definition execute (nav : Navigator) (now : Z) (k : t) : ExecResult * t :=
  let k := detectHardware nav k in
  let k := initializeMemory k in
  let k := configureCPU k in
  let k := scanDevices nav k in
  match checkSystemIntegrity nav now k with
  | Throw e => (Failure (message e) "stage1-bios", k)
  | Return integrityCheck =>
      if negb (passed integrityCheck) then
        (Failure ("Fallo en verificación de integridad: "
                  +:+ String.concat ", " (errors integrityCheck))
                 "stage1-bios", k)
      else
        (Success (hardware k) (memory k) (cpuInfo k) (devices k)
                 integrityCheck, k)
  end.

End Stage1BIOS.

(* ===================================================================== *)
(** * KernelInitializer: the interrupt handlers and [initialize()] *)
(* ===================================================================== *)

Module KernelInterrupts.

Import Js KernelInitializer.

(** The methods of the class whose name starts with [handle]. *)
Definition defined_handlers : list string :=
  [ "handleDivideError"; "handleDebugException"; "handleNMI";
    "handleBreakpoint"; "handleOverflow"; "handleBoundsCheck";
    "handleInvalidOpcode"; "handleDeviceNotAvailable"; "handleDoubleFault";
    "handleCoprocessorOverrun"; "handleInvalidTSS";
    "handleSegmentNotPresent"; "handleStackFault";
    "handleGeneralProtection"; "handlePageFault"; "handleTimerInterrupt";
    "handleKeyboardInterrupt" ].

(** what reading [.bind] off a method that is not there raises *)
Definition NoBind : error :=
  TypeError "Cannot read properties of undefined (reading 'bind')".

(** [this.method.bind(this)], for a name that starts with [handle]: the
    bound function (told here by the name of its method), or the error
    when the class has no such method. *)
Definition bind_method (method : string) : completion value :=
  if bool_decide (method ∈ defined_handlers) then Return (Str method)
  else Throw NoBind.

(** an entry of the three arrays: vector, name, and the method whose
    bound function is the handler *)
Definition Descriptor : Type := (Z * string * string)%type.

Definition exceptions : list Descriptor :=
  [ (0, "Divide Error", "handleDivideError");
    (1, "Debug", "handleDebugException");
    (2, "NMI", "handleNMI");
    (3, "Breakpoint", "handleBreakpoint");
    (4, "Overflow", "handleOverflow");
    (5, "Bounds Check", "handleBoundsCheck");
    (6, "Invalid Opcode", "handleInvalidOpcode");
    (7, "Device Not Available", "handleDeviceNotAvailable");
    (8, "Double Fault", "handleDoubleFault");
    (9, "Coprocessor Segment Overrun", "handleCoprocessorOverrun");
    (10, "Invalid TSS", "handleInvalidTSS");
    (11, "Segment Not Present", "handleSegmentNotPresent");
    (12, "Stack Fault", "handleStackFault");
    (13, "General Protection", "handleGeneralProtection");
    (14, "Page Fault", "handlePageFault") ]%Z.

Definition irqs : list Descriptor :=
  [ (32, "Timer", "handleTimerInterrupt");
    (33, "Keyboard", "handleKeyboardInterrupt");
    (34, "Cascade", "handleCascadeInterrupt");
    (35, "COM2", "handleCOM2Interrupt");
    (36, "COM1", "handleCOM1Interrupt");
    (37, "LPT2", "handleLPT2Interrupt");
    (38, "Floppy", "handleFloppyInterrupt");
    (39, "LPT1", "handleLPT1Interrupt");
    (40, "RTC", "handleRTCInterrupt");
    (41, "Reserved1", "handleReserved1");
    (42, "Reserved2", "handleReserved2");
    (43, "PS/2 Mouse", "handlePS2Mouse");
    (44, "FPU", "handleFPUInterrupt");
    (45, "ATA Primary", "handleATAPrimary");
    (46, "ATA Secondary", "handleATASecondary") ]%Z.

Definition ipis : list Descriptor :=
  [ (200, "Reschedule", "handleRescheduleIPI");
    (201, "TLB Shootdown", "handleTLBShootdown");
    (202, "Function Call", "handleFunctionCallIPI");
    (203, "Stop CPU", "handleStopCPU") ]%Z.

(** One of the three array literals: its elements are evaluated in order,
    and the first handler that is not there stops the evaluation. *)
Fixpoint build (l : list Descriptor)
  : completion (list (Z * string * value)) :=
  match l with
  | [] => Return []
  | (vector, name, method) :: rest =>
      match bind_method method with
      | Throw e => Throw e
      | Return handler =>
          match build rest with
          | Throw e => Throw e
          | Return ints => Return ((vector, name, handler) :: ints)
          end
      end
  end.

(** the [forEach] that registers the handlers *)
Definition register (ints : list (Z * string * value))
    (handlers : gmap Z value) : gmap Z value :=
  fold_left
    (fun handlers int =>
       let '(vector, name, handler) := int in
       <[vector := Obj [ ("name", Str name); ("handler", handler);
                         ("registered", Bool true) ]]> handlers)
    ints handlers.

Definition with_interruptHandlers (h : gmap Z value) (k : t) : t :=
  {| kernelModules := kernelModules k; systemTables := systemTables k;
     deviceTree := deviceTree k; interruptHandlers := h;
     kernelHeap := kernelHeap k; bootParams := bootParams k |}.

(** [setupInterruptHandlers()]; [configureInterruptControllers] and
    [enableInterrupts] only write to the console. *)
Definition setupInterruptHandlers (k : t) : completion (gmap Z value) * t :=
  match build exceptions with
  | Throw e => (Throw e, k)
  | Return es =>
      match build irqs with
      | Throw e => (Throw e, k)
      | Return qs =>
          match build ipis with
          | Throw e => (Throw e, k)
          | Return ps =>
              let k := with_interruptHandlers
                         (register (es ++ qs ++ ps)%list
                                   (interruptHandlers k)) k in
              (Return (interruptHandlers k), k)
          end
      end
  end.

(** What [initialize()] returns: the success result, or the failure. *)
Inductive InitResult : Type :=
| Initialized (kernelModules systemTables devices interruptVectors
                 : list string) (kernelStatus : IntegrityReport)
| Failure (error : string) (stage : string).

Definition failed (e : error) (k : t) : InitResult * t :=
  (Failure (message e) "kernel-init", k).

(** [initialize()] up to its third step.  The two steps before
    ([setupBootParameters], [initializeKernelDataStructures]) and what
    follows the third step inside the [try] (the steps 4 to 10 and the
    building of the result) are left open: the properties below hold
    whatever they do. *)
Section Initialize.

Context (setupBootParameters initializeKernelDataStructures
           : t -> completion unit * t)
        (remaining_steps : t -> InitResult * t).

Definition initialize (k : t) : InitResult * t :=
  match setupBootParameters k with
  | (Throw e, k) => failed e k
  | (Return _, k) =>
      match initializeKernelDataStructures k with
      | (Throw e, k) => failed e k
      | (Return _, k) =>
          match setupInterruptHandlers k with
          | (Throw e, k) => failed e k
          | (Return _, k) => remaining_steps k
          end
      end
  end.

End Initialize.

End KernelInterrupts.

(** ** The stages [loadStage] knows *)

Module BuiltinBoot.

Import Js BootLoader.

(** the keys of the table inside [loadStage] *)
Definition stage_names : list string :=
  ["stage1-bios"; "stage2-kernel-loader"; "stage3-init"].

Definition known (stageName : string) : bool :=
  bool_decide (stageName ∈ stage_names).

(** the message of the error a stage name outside the table ends in: the
    one [loadStage] throws, or, for a name every object inherits a member
    for, the one calling [stage.execute] raises *)
Definition unknown_stage_message (stageName : string) : string :=
  if inherited stageName then "stage.execute is not a function"
  else "Etapa de boot no encontrada: " +:+ stageName.

End BuiltinBoot.

(* ===================================================================== *)
(** * Properties of ordered objects *)
(* ===================================================================== *)

(** A closed decidable statement, settled by evaluating its decision
    procedure. *)
Ltac by_evaluation := apply (bool_decide_unpack _); vm_compute; exact I.

Module JsObjFacts.

Import JsObj.
#[local] Open Scope list_scope.

Lemma get_Some_keys {A} (o : obj A) k v : get o k = Some v -> k ∈ keys o.
Proof.
  induction o as [|[k' v'] o IH]; simpl; [done|].
  destruct (String.eqb_spec k' k) as [->|Hne].
  - intros _. by left.
  - intros H. right. by apply IH.
Qed.

Lemma get_None_keys {A} (o : obj A) k : get o k = None <-> k ∉ keys o.
Proof.
  induction o as [|[k' v'] o IH]; simpl.
  - split; [intros _; apply not_elem_of_nil | done].
  - destruct (String.eqb_spec k' k) as [->|Hne].
    + split; [done|]. intros H. exfalso. apply H. by left.
    + rewrite IH, not_elem_of_cons. intuition congruence.
Qed.

Lemma keys_set {A} (o : obj A) k v x :
  x ∈ keys (set o k v) <-> x ∈ keys o \/ x = k.
Proof.
  induction o as [|[k' v'] o IH]; simpl.
  - rewrite list_elem_of_singleton. split; [by right|].
    intros [H| ->]; [|done]. by apply not_elem_of_nil in H.
  - destruct (String.eqb_spec k' k) as [->|Hne]; simpl.
    + rewrite !elem_of_cons. intuition congruence.
    + rewrite !elem_of_cons, IH. intuition congruence.
Qed.

Lemma keys_assign {A} (o : obj A) k v x :
  x ∈ keys (assign o k v) -> x ∈ keys o \/ x = k.
Proof.
  unfold assign. destruct (String.eqb k "__proto__"); [by left|].
  apply keys_set.
Qed.

Lemma get_set_eq {A} (o : obj A) k v : get (set o k v) k = Some v.
Proof.
  induction o as [|[k' v'] o IH]; simpl.
  - by rewrite String.eqb_refl.
  - destruct (String.eqb_spec k' k) as [->|Hne]; simpl.
    + by rewrite String.eqb_refl.
    + destruct (String.eqb_spec k' k); [done | exact IH].
Qed.

Lemma get_set_ne {A} (o : obj A) k v x :
  x <> k -> get (set o k v) x = get o x.
Proof.
  intros Hne. induction o as [|[k' v'] o IH]; simpl.
  - destruct (String.eqb_spec k x); [by subst | done].
  - destruct (String.eqb_spec k' k) as [->|Hne']; simpl.
    + destruct (String.eqb_spec k x); [by subst | done].
    + destruct (String.eqb_spec k' x); [done | exact IH].
Qed.

(** an ordinary name reads as truthy only for an own property *)
Lemma has_ordinary {A} (o : obj A) k :
  ordinary k -> has o k = true -> k ∈ keys o.
Proof.
  unfold has, ordinary. intros Hk.
  destruct (get o k) as [v|] eqn:Hget.
  - intros _. by eapply get_Some_keys.
  - by rewrite Hk.
Qed.

Lemma has_absent {A} (o : obj A) k :
  ordinary k -> get o k = None -> has o k = false.
Proof. unfold has, ordinary. by intros -> ->. Qed.

End JsObjFacts.

(* ===================================================================== *)
(** * Properties of the BootLoader *)
(* ===================================================================== *)

Module BootLoaderFacts.

Import Js BootLoader Probe.
#[local] Open Scope list_scope.

Lemma get_observed {W} (tbl : JsObj.obj (@Stage W)) (k : string) :
  JsObj.get (observed tbl) k = observe <$> JsObj.get tbl k.
Proof.
  induction tbl as [|[k' s] tbl IH]; simpl; [done|].
  destruct (String.eqb k' k); [done | exact IH].
Qed.

(** The loop assigns [currentStage] and the two tables only. *)
Lemma run_stages_bootStatus {W} (tbl : JsObj.obj (@Stage W)) rest :
  forall i bl w,
    bootStatus (run_stages tbl i rest bl w).1.2 = bootStatus bl.
Proof.
  induction rest as [|s rest IH]; intros i bl w; simpl; [done|].
  destruct (loadStage tbl s) as [stage|e]; simpl; [|done].
  destruct (execute stage _ w) as [[r|e] w']; simpl; [|done].
  destruct (success r); simpl; [|done].
  by rewrite IH.
Qed.

Lemma run_stages_stages {W} (tbl : JsObj.obj (@Stage W)) rest :
  forall i bl w, stages (run_stages tbl i rest bl w).1.2 = stages bl.
Proof.
  induction rest as [|s rest IH]; intros i bl w; simpl; [done|].
  destruct (loadStage tbl s) as [stage|e]; simpl; [|done].
  destruct (execute stage _ w) as [[r|e] w']; simpl; [|done].
  destruct (success r); simpl; [|done].
  by rewrite IH.
Qed.

(** Every loader an observed stage is invoked on has the [bootStatus]
    the loop was entered with. *)
Lemma run_stages_seen {W} (tbl : JsObj.obj (@Stage W)) rest :
  forall i bl w seen,
    exists seen',
      (run_stages (observed tbl) i rest bl (w, seen)).2.2 = seen ++ seen'
      /\ Forall (fun b => bootStatus b = bootStatus bl) seen'.
Proof.
  induction rest as [|s rest IH]; intros i bl w seen; simpl.
  { exists []. by rewrite app_nil_r. }
  unfold loadStage. rewrite get_observed.
  destruct (JsObj.get tbl s) as [a|]; simpl.
  - unfold observe at 1; simpl.
    destruct (a _ w) as [[r|e] w']; simpl.
    + destruct (success r); simpl.
      * destruct (IH (i + 1)
                    (with_tables
                       (JsObj.spread (kernelModules bl)
                          (default [] (res_kernelModules r)))
                       (JsObj.spread (systemServices bl)
                          (default [] (res_services r)))
                       (with_currentStage (i + 1) bl))
                    w' (seen ++ [with_currentStage (i + 1) bl]))
          as (seen' & -> & Hall).
        exists (with_currentStage (i + 1) bl :: seen').
        split; [by rewrite <- app_assoc|].
        constructor; [done | exact Hall].
      * exists [with_currentStage (i + 1) bl]. split; [done|].
        by constructor.
    + exists [with_currentStage (i + 1) bl]. split; [done|].
      by constructor.
  - destruct (inherited s); simpl; exists []; by rewrite app_nil_r.
Qed.

(** Observing the stages changes nothing else of the run. *)
Lemma run_stages_observed {W} (tbl : JsObj.obj (@Stage W)) rest :
  forall i bl w seen,
    (run_stages (observed tbl) i rest bl (w, seen)).1
      = (run_stages tbl i rest bl w).1
    /\ (run_stages (observed tbl) i rest bl (w, seen)).2.1
      = (run_stages tbl i rest bl w).2.
Proof.
  induction rest as [|s rest IH]; intros i bl w seen; simpl; [done|].
  unfold loadStage. rewrite get_observed.
  destruct (JsObj.get tbl s) as [a|]; simpl.
  - unfold observe; simpl.
    destruct (a _ w) as [[r|e] w']; simpl; [|done].
    destruct (success r); simpl; [|done]. apply IH.
  - by destruct (inherited s).
Qed.

Lemma start_observed {W} (tbl : JsObj.obj (@Stage W)) t0 t1 bl w :
  (start (observed tbl) t0 t1 bl (w, [])).1 = (start tbl t0 t1 bl w).1
  /\ (start (observed tbl) t0 t1 bl (w, [])).2.1
     = (start tbl t0 t1 bl w).2.
Proof.
  unfold start.
  set (bl0 := with_bootStatus _ bl).
  destruct (run_stages_observed tbl (stages bl0) 0 bl0 w []) as [H1 H2].
  destruct (run_stages (observed tbl) 0 (stages bl0) bl0 (w, []))
    as [[c b] [w1 seen]].
  destruct (run_stages tbl 0 (stages bl0) bl0 w) as [[c' b'] w1'].
  simpl in H1, H2. injection H1 as -> ->. subst w1'.
  by destruct c'.
Qed.

(** What a run does to [endTime]. *)
Lemma start_endTime {W} (tbl : JsObj.obj (@Stage W)) t0 t1 bl w :
  endTime (bootStatus (start tbl t0 t1 bl w).1.2)
  = if boot_success (start tbl t0 t1 bl w).1.1 then Some t1
    else endTime (bootStatus bl).
Proof.
  unfold start.
  set (bl0 := with_bootStatus _ bl).
  pose proof (run_stages_bootStatus tbl (stages bl0) 0 bl0 w) as Hst.
  destruct (run_stages tbl 0 (stages bl0) bl0 w) as [[[[]|e] b] w1];
    simpl in *; [done|].
  by rewrite Hst.
Qed.

Lemma start_seen {W} (tbl : JsObj.obj (@Stage W)) t0 t1 bl w :
  Forall (fun b => bootStatus b = set_startTime t0 (bootStatus bl))
         (start (observed tbl) t0 t1 bl (w, [])).2.2.
Proof.
  unfold start.
  set (bl0 := with_bootStatus _ bl).
  destruct (run_stages_seen tbl (stages bl0) 0 bl0 w []) as (seen & Hs & Hall).
  destruct (run_stages (observed tbl) 0 (stages bl0) bl0 (w, []))
    as [[c b] [w1 seen1]].
  simpl in Hs. subst seen1.
  by destruct c.
Qed.

(** The first stage of a run is invoked on the loader [start] was given,
    with [startTime] set and [currentStage] at 1. *)
Lemma start_first_seen {W} (tbl : JsObj.obj (@Stage W)) t0 t1 bl w s rest a :
  stages bl = s :: rest ->
  JsObj.get tbl s = Some a ->
  head (start (observed tbl) t0 t1 bl (w, [])).2.2
  = Some (with_currentStage 1
            (with_bootStatus (set_startTime t0 (bootStatus bl)) bl)).
Proof.
  intros Hst Hget. unfold start.
  set (bl0 := with_bootStatus _ bl).
  replace (stages bl0) with (s :: rest) by done.
  simpl. unfold loadStage. rewrite get_observed, Hget. simpl.
  unfold observe at 1. simpl.
  destruct (a _ w) as [[r|e] w']; simpl; [|done].
  destruct (success r); simpl; [|done].
  match goal with
  | |- context [run_stages (observed tbl) ?i rest ?b (w', ?sn)] =>
      destruct (run_stages_seen tbl rest i b w' sn) as (seen' & Hs & _);
      destruct (run_stages (observed tbl) i rest b (w', sn))
        as [[c b'] [w1 seen1]]
  end.
  simpl in Hs. subst seen1. by destruct c.
Qed.

(** C3, as the code has it: over three distinct stages where the first
    succeeds and the second fails, the run returns the failure result,
    with the message naming the second stage pushed on [errors]; the
    recorded [currentStage] is 2, the 1-based number of the failing stage
    (its 0-based index plus one); the counting collaborator sees the
    first two stages only, so the third stage's action is never invoked,
    whatever it would return. *)
Theorem second_stage_failure_stops_the_run
    (bl : t) (t0 t1 : Z) (s1 s2 s3 : string) (r1 r2 r3 : StageResult)
    (calls : list string) :
  stages bl = [s1; s2; s3] ->
  NoDup [s1; s2; s3] ->
  success r1 = true ->
  success r2 = false ->
  let run := start [(s1, counted s1 r1); (s2, counted s2 r2);
                    (s3, counted s3 r3)] t0 t1 bl calls in
  let msg := "Fallo en etapa " +:+ s2 +:+ ": " +:+ error r2 in
  run.1.1 = BootFailed msg 2 (Some s2)
  /\ st_currentStage (getBootStatus run.1.2) = 2
  /\ st_errors (getBootStatus run.1.2) = errors (bootStatus bl) ++ [msg]
  /\ st_endTime (getBootStatus run.1.2) = endTime (bootStatus bl)
  /\ run.2 = calls ++ [s1; s2]
  /\ (s3 ∉ calls -> s3 ∉ run.2).
Proof.
  intros Hst Hnd Hr1 Hr2 run msg.
  assert (Hne12 : String.eqb s1 s2 = false).
  { apply String.eqb_neq. intros ->.
    apply NoDup_cons in Hnd as [Hin _]. apply Hin. by left. }
  assert (Hrun : run = (BootFailed msg 2 (Some s2),
                        with_bootStatus
                          (push_error msg
                             (set_startTime t0 (bootStatus bl)))
                          (with_currentStage 2
                             (with_tables
                                (JsObj.spread (kernelModules bl)
                                   (default [] (res_kernelModules r1)))
                                (JsObj.spread (systemServices bl)
                                   (default [] (res_services r1)))
                                (with_bootStatus
                                   (set_startTime t0 (bootStatus bl)) bl))),
                        calls ++ [s1; s2])).
  { subst run. unfold start. simpl. rewrite Hst. simpl.
    unfold loadStage. simpl. rewrite String.eqb_refl. simpl.
    rewrite Hr1. simpl.
    rewrite Hne12, String.eqb_refl. simpl. rewrite Hr2. simpl.
    unfold current_stage_name. simpl. rewrite Hst. simpl.
    by rewrite <- app_assoc. }
  rewrite Hrun. simpl. repeat split; try done.
  intros Hnot Hin. apply elem_of_app in Hin as [Hin|Hin]; [done|].
  apply NoDup_cons in Hnd as [Hn1 Hnd].
  apply NoDup_cons in Hnd as [Hn2 _].
  apply elem_of_cons in Hin as [->|Hin].
  - apply Hn1. right. by left.
  - apply list_elem_of_singleton in Hin as ->. apply Hn2. by left.
Qed.

Lemma second_stage_failure_witness :
  let run := start [("stage1-bios", counted "stage1-bios" ok);
                    ("stage2-kernel-loader",
                       counted "stage2-kernel-loader" (failing "boom"));
                    ("stage3-init", counted "stage3-init" ok)]
               1000 1500 new [] in
  run.1.1 = BootFailed "Fallo en etapa stage2-kernel-loader: boom" 2
                       (Some "stage2-kernel-loader")
  /\ st_currentStage (getBootStatus run.1.2) = 2
  /\ run.2 = ["stage1-bios"; "stage2-kernel-loader"].
Proof.
  destruct (second_stage_failure_stops_the_run new 1000 1500
              "stage1-bios" "stage2-kernel-loader" "stage3-init"
              ok (failing "boom") ok [])
    as (H1 & H2 & _ & _ & H5 & _).
  - reflexivity.
  - by_evaluation.
  - reflexivity.
  - reflexivity.
  - split; [exact H1|]. split; [exact H2 | exact H5].
Defined.

(** C3 as stated fails: the stage recorded after the second of three
    stages failed is 2, not the 0-based index 1. *)
Lemma failed_stage_index_is_not_zero_based :
  let run := start [("stage1-bios", counted "stage1-bios" ok);
                    ("stage2-kernel-loader",
                       counted "stage2-kernel-loader" (failing "boom"));
                    ("stage3-init", counted "stage3-init" ok)]
               1000 1500 new [] in
  ~ (boot_success run.1.1 = false
     /\ st_currentStage (getBootStatus run.1.2) = 1
     /\ "stage3-init" ∉ run.2).
Proof.
  vm_compute. intros (_ & H & _). discriminate H.
Qed.

(** C4, as the code has it: [endTime] is assigned exactly when the run
    completes, with the reading taken then; a run that fails leaves
    [endTime] as it was before the run, and so does the run in progress:
    observing the stages (which changes nothing of the run) shows that
    value at every invocation of a stage. *)
Theorem endTime_is_set_by_a_completed_run_only
    {W} (tbl : JsObj.obj (@Stage W)) (t0 t1 : Z) (bl : t) (w : W) :
  let run := start tbl t0 t1 bl w in
  let seen := (start (observed tbl) t0 t1 bl (w, [])).2.2 in
  endTime (bootStatus run.1.2)
    = (if boot_success run.1.1 then Some t1 else endTime (bootStatus bl))
  /\ (start (observed tbl) t0 t1 bl (w, [])).1 = run.1
  /\ Forall (fun b => st_endTime (getBootStatus b) = endTime (bootStatus bl))
            seen.
Proof.
  split; [apply start_endTime|]. split; [apply start_observed|].
  eapply Forall_impl; [apply start_seen|].
  intros b Hb. simpl. by rewrite Hb.
Qed.

(** C4 as stated fails: a new loader whose second stage fails ends the
    run without [endTime]. *)
Lemma failed_run_has_no_endTime :
  let run := start [("stage1-bios", counted "stage1-bios" ok);
                    ("stage2-kernel-loader",
                       counted "stage2-kernel-loader" (failing "boom"));
                    ("stage3-init", counted "stage3-init" ok)]
               1000 1500 new [] in
  boot_success run.1.1 = false
  /\ ~ is_Some (st_endTime (getBootStatus run.1.2)).
Proof.
  vm_compute. split; [reflexivity|]. intros [x Hx]. discriminate Hx.
Qed.

(** C7, as the code has it: [reboot()] puts [currentStage] back to 0,
    [initialized] to false and both tables to empty, then runs [start]:
    the status query counts no module and no service after the clearing,
    and none when the first stage of the new run is invoked. *)
Theorem reboot_empties_the_tables
    {W} (tbl : JsObj.obj (@Stage W)) (t0 t1 : Z) (bl : t) (w : W)
    (s : string) (rest : list string) (a : @Stage W) :
  stages bl = s :: rest ->
  JsObj.get tbl s = Some a ->
  let cleared := getBootStatus (clear_state bl) in
  let seen := (reboot (observed tbl) t0 t1 bl (w, [])).2.2 in
  (st_kernelModules cleared = 0 /\ st_systemServices cleared = 0
   /\ st_currentStage cleared = 0 /\ st_initialized cleared = false)
  /\ exists first,
       head seen = Some first
       /\ st_kernelModules (getBootStatus first) = 0
       /\ st_systemServices (getBootStatus first) = 0
       /\ st_currentStage (getBootStatus first) = 1.
Proof.
  intros Hst Hget cleared seen. split; [done|].
  subst seen. unfold reboot.
  erewrite start_first_seen; [|exact Hst|exact Hget].
  eexists. split; [reflexivity|]. done.
Qed.

Lemma reboot_empties_the_tables_witness :
  let seen := (reboot (observed (@builtin_stages unit)) 2000 2600
                 completed_loader (tt, [])).2.2 in
  st_kernelModules (getBootStatus completed_loader) = 3
  /\ st_systemServices (getBootStatus completed_loader) = 3
  /\ exists first,
       head seen = Some first
       /\ st_kernelModules (getBootStatus first) = 0
       /\ st_systemServices (getBootStatus first) = 0.
Proof.
  split; [reflexivity|]. split; [reflexivity|].
  destruct (reboot_empties_the_tables (@builtin_stages unit) 2000 2600
              completed_loader tt "stage1-bios"
              ["stage2-kernel-loader"; "stage3-init"]
              (fun _ w => (Return ok, w)))
    as (_ & first & H1 & H2 & H3 & _).
  - reflexivity.
  - reflexivity.
  - exists first. split; [exact H1|]. split; [exact H2 | exact H3].
Defined.

(** C7 as stated fails: the [endTime] of the completed run is still
    there when the first stage of the rebooted run is invoked. *)
Lemma reboot_keeps_the_previous_endTime :
  let seen := (reboot (observed (@builtin_stages unit)) 2000 2600
                 completed_loader (tt, [])).2.2 in
  ~ (forall first, head seen = Some first ->
       st_kernelModules (getBootStatus first) = 0
       /\ st_systemServices (getBootStatus first) = 0
       /\ st_errors (getBootStatus first) = []
       /\ st_warnings (getBootStatus first) = []
       /\ st_endTime (getBootStatus first) = None).
Proof.
  intros seen H.
  assert (Hhd : exists first, head seen = Some first
                              /\ st_endTime (getBootStatus first)
                                 = Some 1500%Z).
  { eexists. split; vm_compute; reflexivity. }
  destruct Hhd as (first & Hhd & Hend).
  destruct (H first Hhd) as (_ & _ & _ & _ & Hnone).
  rewrite Hend in Hnone. discriminate Hnone.
Qed.

End BootLoaderFacts.

(* ===================================================================== *)
(** * Properties of the status checks *)
(* ===================================================================== *)

Module StatusFacts.

Import Js StatusSpec.

(** C6, as the code has it: two calls of a status check on unchanged
    fields leave the fields as they are and return reports that agree on
    the verdict, on the three lists and on the counts; [timestamp] (and
    [uptime], when [startTime] is set) carry the clock readings of each
    call, so the reports are equal when the readings are. *)
Theorem status_checks_repeat_up_to_the_clock
    (k : KernelInitializer.t) (s : Stage3Init.t) (a1 a2 b1 b2 c1 c2 : Z) :
  let v1 := KernelInitializer.verifyKernelIntegrity a1 k in
  let v2 := KernelInitializer.verifyKernelIntegrity a2 v1.2 in
  let s1 := Stage3Init.checkSystemStatus b1 c1 s in
  let s2 := Stage3Init.checkSystemStatus b2 c2 s1.2 in
  (v1.2 = k /\ v2.2 = k
   /\ KernelInitializer.healthy v1.1 = KernelInitializer.healthy v2.1
   /\ KernelInitializer.checks v1.1 = KernelInitializer.checks v2.1
   /\ KernelInitializer.issues v1.1 = KernelInitializer.issues v2.1
   /\ KernelInitializer.warnings v1.1 = KernelInitializer.warnings v2.1
   /\ KernelInitializer.tables v1.1 = KernelInitializer.tables v2.1
   /\ KernelInitializer.interrupts v1.1 = KernelInitializer.interrupts v2.1
   /\ KernelInitializer.modules v1.1 = KernelInitializer.modules v2.1
   /\ KernelInitializer.timestamp v1.1 = a1
   /\ KernelInitializer.timestamp v2.1 = a2
   /\ (a1 = a2 -> v1.1 = v2.1))
  /\ (s1.2 = s /\ s2.2 = s
      /\ Stage3Init.ready s1.1 = Stage3Init.ready s2.1
      /\ Stage3Init.checks s1.1 = Stage3Init.checks s2.1
      /\ Stage3Init.issues s1.1 = Stage3Init.issues s2.1
      /\ Stage3Init.warnings s1.1 = Stage3Init.warnings s2.1
      /\ Stage3Init.st_runlevel s1.1 = Stage3Init.st_runlevel s2.1
      /\ Stage3Init.servicesRunning s1.1 = Stage3Init.servicesRunning s2.1
      /\ Stage3Init.timestamp s1.1 = c1
      /\ Stage3Init.timestamp s2.1 = c2
      /\ (b1 = b2 -> c1 = c2 -> s1.1 = s2.1)).
Proof.
  simpl. split.
  - repeat split. by intros ->.
  - repeat split. by intros -> ->.
Qed.

(** C6 as stated fails: the second of two calls on the same fields, 70
    milliseconds after the first, returns a different report. *)
Lemma integrity_reports_differ_in_timestamp :
  let v1 := KernelInitializer.verifyKernelIntegrity 1000 initialized_kernel in
  let v2 := KernelInitializer.verifyKernelIntegrity 1070 v1.2 in
  v1.2 = initialized_kernel /\ v1.1 <> v2.1.
Proof.
  split; [reflexivity|].
  intros H. apply (f_equal KernelInitializer.timestamp) in H.
  discriminate H.
Qed.

Example initialized_kernel_is_healthy :
  KernelInitializer.healthy
    (KernelInitializer.verifyKernelIntegrity 1000 initialized_kernel).1
  = true
  /\ KernelInitializer.checks
       (KernelInitializer.verifyKernelIntegrity 1000 initialized_kernel).1
     = ["GDT: OK"; "IDT: OK"; "TSS: OK"; "PML4: OK";
        "Interrupt 0: OK"; "Interrupt 8: OK"; "Interrupt 13: OK";
        "Interrupt 14: OK"; "Interrupt 32: OK";
        "Módulo scheduler: OK"; "Módulo memory: OK"; "Módulo time: OK";
        "Módulo ipc: OK"; "Heap del kernel: OK";
        "Árbol de dispositivos: OK"; "Parámetros de boot: OK"].
Proof. split; vm_compute; reflexivity. Qed.

Example new_kernel_is_not_healthy :
  KernelInitializer.healthy
    (KernelInitializer.verifyKernelIntegrity 0 KernelInitializer.new).1
  = false
  /\ KernelInitializer.warnings
       (KernelInitializer.verifyKernelIntegrity 0 KernelInitializer.new).1
     = ["Árbol de dispositivos incompleto";
        "Parámetros de boot no configurados"].
Proof. split; vm_compute; reflexivity. Qed.

End StatusFacts.

(* ===================================================================== *)
(** * Properties of the kernel loader *)
(* ===================================================================== *)

Module Stage2Facts.

Import Js Stage2KernelLoader Stage2Spec JsObjFacts.
#[local] Open Scope list_scope.

(** ** Sorting *)

Lemma insert_by_priority_perm d l : insert_by_priority d l ≡ₚ d :: l.
Proof.
  induction l as [|x l IH]; simpl; [done|].
  destruct (priority d <=? priority x)%Z; [done|].
  rewrite IH. apply Permutation_swap.
Qed.

Lemma sort_by_priority_perm l : sort_by_priority l ≡ₚ l.
Proof.
  induction l as [|d l IH]; simpl; [done|].
  by rewrite insert_by_priority_perm, IH.
Qed.

Example essentialModules_sorted :
  name <$> sort_by_priority essentialModules
  = ["syscalls"; "scheduler"; "memory-manager"; "process-manager";
     "ipc-system"].
Proof. reflexivity. Qed.

(** ** [loadModule] *)

Lemma loadModule_state moduleDef k : (loadModule moduleDef k).2 = k.
Proof.
  unfold loadModule.
  destruct (lookup_template _); [|done].
  by destruct (List.find _ _).
Qed.

Lemma loadModule_Return moduleDef k module :
  (loadModule moduleDef k).1 = Return module ->
  forall dep, dep ∈ dependencies moduleDef ->
              JsObj.has (modules k) dep = true.
Proof.
  unfold loadModule.
  destruct (lookup_template _); [|done].
  destruct (List.find _ _) eqn:Hfind; [done|].
  intros _ dep Hdep.
  apply list_elem_of_In in Hdep.
  apply (List.find_none _ _ Hfind) in Hdep.
  by apply negb_false_iff in Hdep.
Qed.

(** [List.find] returns the first element that passes the test. *)
Lemma find_first {A} (f : A -> bool) (l : list A) (x : A) :
  List.find f l = Some x ->
  exists pre post,
    l = pre ++ x :: post /\ Forall (fun y => f y = false) pre /\ f x = true.
Proof.
  induction l as [|y l IH]; simpl; [done|].
  destruct (f y) eqn:Hy.
  - intros [= ->]. by exists [], l.
  - intros H. destruct (IH H) as (pre & post & -> & Hpre & Hx).
    exists (y :: pre), post. split; [done|]. split; [|done].
    by constructor.
Qed.

(** The first dependency that does not read as loaded is the one the
    error names. *)
Lemma find_missing (o : JsObj.obj ModuleInstance) deps dep :
  dep ∈ deps -> JsObj.has o dep = false ->
  exists dep' pre post,
    List.find (fun d => negb (JsObj.has o d)) deps = Some dep'
    /\ deps = pre ++ dep' :: post
    /\ Forall (fun d => JsObj.has o d = true) pre
    /\ JsObj.has o dep' = false.
Proof.
  intros Hin Hdep.
  destruct (List.find _ deps) as [dep'|] eqn:Hfind.
  - destruct (find_first _ _ _ Hfind) as (pre & post & -> & Hpre & Hneg).
    exists dep', pre, post. split; [done|]. split; [done|]. split.
    + eapply Forall_impl; [exact Hpre|]. intros d Hd.
      by apply negb_false_iff.
    + by apply negb_true_iff.
  - apply list_elem_of_In in Hin.
    apply (List.find_none _ _ Hfind) in Hin.
    by rewrite Hdep in Hin.
Qed.

(** ** The loop *)

Lemma registerExports_modules moduleDef k :
  modules (registerExports moduleDef k) = modules k.
Proof.
  unfold registerExports. generalize (exports moduleDef). intros l.
  revert k. induction l as [|e l IH]; intros k; simpl; [done|].
  by rewrite IH.
Qed.

Lemma load_each_Throw l : forall k e k',
  load_each l k = (Throw e, k') ->
  exists m, m ∈ l /\ e = EssentialModuleFailed (name m).
Proof.
  induction l as [|m l IH]; intros k e k'; simpl; [done|].
  destruct (loadModule m k) as [[module|e'] k1].
  - intros H. apply IH in H as (m' & Hin & ->).
    exists m'. split; [by right | done].
  - intros [= <- <-]. exists m. split; [by left | done].
Qed.

(** When the loop gets through, every ordinary dependency of a module
    was loaded before the loop or is the name of an earlier module. *)
Lemma load_each_Return l : forall k k',
  load_each l k = (Return tt, k') ->
  forall pre m post d,
    l = pre ++ m :: post -> d ∈ dependencies m -> ordinary d ->
    d ∈ JsObj.keys (modules k) \/ d ∈ name <$> pre.
Proof.
  induction l as [|m0 l IH]; intros k k' Hrun pre m post d Hl Hd Hord.
  { by destruct pre. }
  simpl in Hrun.
  pose proof (loadModule_state m0 k) as Hst.
  pose proof (loadModule_Return m0 k) as Hdeps.
  destruct (loadModule m0 k) as [[module|e] k1]; [|done].
  simpl in Hst, Hdeps. subst k1.
  destruct pre as [|m1 pre]; simpl in Hl; injection Hl as -> ->.
  - left. apply has_ordinary; [done|]. by eapply Hdeps.
  - edestruct (IH _ _ Hrun pre m post d) as [Hin|Hin]; [done..| |].
    + rewrite registerExports_modules in Hin. simpl in Hin.
      apply keys_assign in Hin as [Hin| ->]; [by left|].
      right. by left.
    + right. by right.
Qed.

(** ** Load order and cycles *)

Lemma before_tc names (R : relation string) :
  NoDup names ->
  (forall a b, R a b -> before names a b) ->
  forall a b, tc R a b -> before names a b.
Proof.
  intros Hnd HR a b Htc. induction Htc as [a b H|a b c H _ IH].
  - by apply HR.
  - apply HR in H as (i & j & Hlt & Hi & Hj).
    destruct IH as (i' & j' & Hlt' & Hi' & Hj').
    assert (i' = j) as -> by (by eapply NoDup_lookup).
    exists i, j'. split; [lia | done].
Qed.

Lemma before_irrefl names a : NoDup names -> ~ before names a a.
Proof.
  intros Hnd (i & j & Hlt & Hi & Hj).
  assert (i = j) by (by eapply NoDup_lookup). lia.
Qed.

(** A run of the loop on a new loader that gets through has loaded every
    module after the modules of the list it depends on. *)
Lemma load_each_before l k k' :
  modules k = [] ->
  Forall ordinary (name <$> l) ->
  load_each l k = (Return tt, k') ->
  forall a b, depends_on l a b -> before (name <$> l) a b.
Proof.
  intros Hnew Hord Hrun a b (m & Hm & <- & Hb & Hbn).
  apply list_elem_of_split in Hm as (pre & post & ->).
  destruct (load_each_Return _ _ _ Hrun pre m post b eq_refl Hb) as [Hin|Hin].
  - rewrite Forall_forall in Hord. by apply Hord.
  - rewrite Hnew in Hin. by apply not_elem_of_nil in Hin.
  - apply list_elem_of_lookup in Hin as [j Hj].
    exists (length pre), j. split; [|split].
    + apply lookup_lt_Some in Hj. by rewrite length_fmap in Hj.
    + rewrite fmap_app, lookup_app_r; rewrite length_fmap; [|done].
      by rewrite Nat.sub_diag.
    + rewrite fmap_app, lookup_app_l; [done|].
      by apply lookup_lt_Some in Hj.
Qed.

Lemma depends_on_perm l l' a b :
  l ≡ₚ l' -> depends_on l a b -> depends_on l' a b.
Proof.
  intros Hp (m & Hm & Ha & Hb & Hbn).
  exists m. by rewrite <- Hp.
Qed.

Lemma tc_depends_on_perm l l' a b :
  l ≡ₚ l' -> tc (depends_on l) a b -> tc (depends_on l') a b.
Proof.
  intros Hp Htc. induction Htc as [a b H|a b c H _ IH].
  - apply tc_once. by eapply depends_on_perm.
  - eapply tc_l; [|exact IH]. by eapply depends_on_perm.
Qed.

(** C5, as the code has it: on a new loader, a set of definitions with
    distinct, ordinary names that contains a dependency cycle (a module
    depending on itself included) is never loaded: the loading stops at
    one of its modules with the error every failed load raises, which
    names that module only. *)
Theorem cyclic_definitions_are_not_loaded
    (defs : list ModuleDefinition) (k : t) :
  modules k = [] ->
  NoDup (name <$> defs) ->
  Forall ordinary (name <$> defs) ->
  cyclic defs ->
  exists m k',
    m ∈ defs
    /\ loadEssentialModulesFrom defs k
       = (Throw (EssentialModuleFailed (name m)), k').
Proof.
  intros Hnew Hnd Hord [a Hcyc].
  pose proof (sort_by_priority_perm defs) as Hp.
  unfold loadEssentialModulesFrom.
  destruct (load_each (sort_by_priority defs) k) as [[[]|e] k'] eqn:Hrun.
  - exfalso.
    apply (before_irrefl (name <$> sort_by_priority defs) a).
    { by rewrite Hp. }
    eapply before_tc; [by rewrite Hp| |].
    + eapply load_each_before; [done| |done]. by rewrite Hp.
    + eapply tc_depends_on_perm; [|exact Hcyc]. done.
  - apply load_each_Throw in Hrun as (m & Hm & ->).
    exists m, k'. split; [by rewrite <- Hp | done].
Qed.

Lemma mutual_cycle_is_cyclic : cyclic mutual_cycle.
Proof.
  exists "scheduler".
  eapply tc_l; [|apply tc_once].
  - eexists. split; [by left|]. split; [reflexivity|].
    split; [by left|]. right. by left.
  - eexists. split; [right; by left|]. split; [reflexivity|].
    split; by left.
Qed.

Lemma cyclic_definitions_witness :
  exists m k',
    m ∈ mutual_cycle
    /\ loadEssentialModulesFrom mutual_cycle new
       = (Throw (EssentialModuleFailed (name m)), k').
Proof.
  apply cyclic_definitions_are_not_loaded.
  - reflexivity.
  - by_evaluation.
  - by_evaluation.
  - exact mutual_cycle_is_cyclic.
Defined.

(** C5 as stated fails: the error raised for two modules that depend on
    each other names the first of them and not the other: it does not
    report the cycle. *)
Lemma cycle_is_not_reported :
  cyclic mutual_cycle
  /\ (loadEssentialModulesFrom mutual_cycle new).1
     = Throw (EssentialModuleFailed "scheduler")
  /\ ~ (forall e, (loadEssentialModulesFrom mutual_cycle new).1 = Throw e ->
          mentions e "scheduler" = true
          /\ mentions e "process-manager" = true).
Proof.
  split; [exact mutual_cycle_is_cyclic|]. split; [reflexivity|].
  intros H. destruct (H _ eq_refl) as [_ H2]. vm_compute in H2.
  discriminate H2.
Qed.

(** ** The built-in list *)

Lemma essentialModules_acyclic : ~ cyclic essentialModules.
Proof.
  intros [a Hcyc].
  assert (Hnd : NoDup (name <$> essentialModules))
    by by_evaluation.
  apply (before_irrefl (name <$> essentialModules) a Hnd).
  eapply before_tc; [done| |exact Hcyc].
  destruct (load_each essentialModules new) as [[[]|e] k'] eqn:Hrun;
    [|by vm_compute in Hrun].
  apply (load_each_before essentialModules new k'); [reflexivity| |exact Hrun].
  by_evaluation.
Qed.

(** C1 fails on the code: the built-in list is a valid set without
    cycle (loaded in the order it is written in, every load goes
    through), but [loadEssentialModules] sorts it by priority only;
    "syscalls", of priority 0, comes first, its dependency
    "process-manager" is not loaded yet, and the loading stops there
    without any module loaded. *)
Theorem essential_modules_are_not_loaded :
  NoDup (name <$> essentialModules)
  /\ Forall (fun m => Forall (fun d => d ∈ name <$> essentialModules)
                             (dependencies m)) essentialModules
  /\ ~ cyclic essentialModules
  /\ succeeded (load_each essentialModules new).1 = true
  /\ (loadModule (entry "syscalls") new).1
     = Throw (UnsatisfiedDependency "process-manager" "syscalls")
  /\ loadEssentialModules new
     = (Throw (EssentialModuleFailed "syscalls"), new).
Proof.
  split; [by_evaluation|].
  split; [by_evaluation|].
  split; [exact essentialModules_acyclic|].
  repeat split; vm_compute; reflexivity.
Qed.


(** Conversely, the loop gets through a list whose modules have templates
    and whose order already puts every dependency first: what stops a load
    is a missing template or the order, nothing else. *)
Lemma load_each_gets_through l : forall k,
  Forall (fun m => is_Some (lookup_template (name m))
                   /\ name m <> "__proto__") l ->
  (forall i m d, l !! i = Some m -> d ∈ dependencies m ->
                 d ∈ JsObj.keys (modules k)
                 \/ exists j, j < i /\ name <$> l !! j = Some d) ->
  succeeded (load_each l k).1 = true.
Proof.
  induction l as [|m0 l IH]; intros k Hall Hdeps; simpl; [done|].
  apply Forall_cons in Hall as [[[tpl Htpl] Hproto] Hall].
  unfold loadModule. rewrite Htpl.
  destruct (List.find _ (dependencies m0)) as [dep|] eqn:Hfind.
  { exfalso. apply List.find_some in Hfind as [Hin Hneg].
    apply list_elem_of_In in Hin.
    destruct (Hdeps 0 m0 dep eq_refl Hin) as [Hk|(j & Hj & _)]; [|lia].
    apply negb_true_iff in Hneg. unfold JsObj.has in Hneg.
    destruct (JsObj.get (modules k) dep) eqn:Hget; [done|].
    by apply get_None_keys in Hget. }
  apply IH; [done|].
  intros i m d Hi Hd. rewrite registerExports_modules. simpl.
  unfold JsObj.assign.
  destruct (String.eqb_spec (name m0) "__proto__") as [|_]; [done|].
  destruct (Hdeps (S i) m d Hi Hd) as [Hk|(j & Hj & Hname)].
  - left. apply keys_set. by left.
  - destruct j as [|j]; simpl in Hname.
    + left. apply keys_set. right. by injection Hname.
    + right. exists j. split; [lia | done].
Qed.

(** X10: A list whose modules have templates and whose priority order puts
    every dependency first loads, on any loader: what stops a load is a
    missing template or the order, nothing else. *)
Lemma dependencies_first_loads (defs : list ModuleDefinition) (k : t) :
  Forall (fun m => is_Some (lookup_template (name m))
                   /\ name m <> "__proto__") defs ->
  dependencies_first (sort_by_priority defs) ->
  succeeded (loadEssentialModulesFrom defs k).1 = true.
Proof.
  intros Hall Hfirst.
  pose proof (sort_by_priority_perm defs) as Hp.
  unfold loadEssentialModulesFrom.
  pose proof (load_each_gets_through (sort_by_priority defs) k) as Hrun.
  destruct (load_each (sort_by_priority defs) k) as [[[]|e] k']; [done|].
  apply Hrun.
  - by rewrite Hp.
  - intros i m d Hi Hd. right. by eapply Hfirst.
Qed.

Example priority_order_of_a_loadable_list :
  let defs := [entry "process-manager"; entry "memory-manager";
               entry "scheduler"] in
  succeeded (loadEssentialModulesFrom defs new).1 = false
  /\ succeeded (loadEssentialModulesFrom (rev defs) new).1 = true
  /\ name <$> sort_by_priority (rev defs)
     = ["scheduler"; "memory-manager"; "process-manager"].
Proof. repeat split; vm_compute; reflexivity. Qed.

(** ** A dependency that is not loaded *)

(** C9, as the code has it: when a dependency of the definition has an
    ordinary name and is absent from the loaded modules, [loadModule]
    fails and leaves the fields as they are.  When the definition's name
    has a template, the error is the unsatisfied dependency error; it
    names an absent dependency, the first of the list that does not read
    as loaded.  A name without template is rejected first, with the
    template error. *)
Theorem missing_dependency_fails_the_load
    (moduleDef : ModuleDefinition) (k : t) (dep : string) :
  dep ∈ dependencies moduleDef ->
  ordinary dep ->
  JsObj.get (modules k) dep = None ->
  match lookup_template (name moduleDef) with
  | Some _ =>
      exists dep' pre post,
        dependencies moduleDef = pre ++ dep' :: post
        /\ Forall (fun d => JsObj.has (modules k) d = true) pre
        /\ JsObj.get (modules k) dep' = None
        /\ loadModule moduleDef k
           = (Throw (UnsatisfiedDependency dep' (name moduleDef)), k)
  | None =>
      loadModule moduleDef k
      = (Throw (TemplateNotFound (name moduleDef)), k)
  end.
Proof.
  intros Hin Hord Hget. unfold loadModule.
  destruct (lookup_template (name moduleDef)) as [tpl|]; [|done].
  destruct (find_missing (modules k) _ dep Hin)
    as (dep' & pre & post & -> & Hdeps & Hpre & Hno).
  { by apply has_absent. }
  exists dep', pre, post. split; [done|]. split; [done|]. split; [|done].
  unfold JsObj.has in Hno. by destruct (JsObj.get _ dep').
Qed.

Lemma missing_dependency_witness :
  exists dep',
    dep' ∈ dependencies (entry "syscalls")
    /\ JsObj.get (modules new) dep' = None
    /\ loadModule (entry "syscalls") new
       = (Throw (UnsatisfiedDependency dep' "syscalls"), new).
Proof.
  destruct (missing_dependency_fails_the_load (entry "syscalls") new
              "memory-manager")
    as (dep' & pre & post & Hdeps & Hpre & Hget & Hload).
  - right. by left.
  - reflexivity.
  - reflexivity.
  - exists dep'. split; [|split; [exact Hget | exact Hload]].
    rewrite Hdeps. apply elem_of_app. right. by left.
Defined.

(** C9 as stated fails: a definition without template fails with the
    template error, whatever its dependencies. *)
Lemma missing_template_comes_first :
  "scheduler" ∈ dependencies network_stack
  /\ JsObj.get (modules new) "scheduler" = None
  /\ ~ (exists dep, (loadModule network_stack new).1
                    = Throw (UnsatisfiedDependency dep "network-stack")).
Proof.
  split; [by left|]. split; [reflexivity|].
  intros [dep H]. vm_compute in H. discriminate H.
Qed.

(** ** Exported symbols *)

Lemma sym_assign_other s x v e :
  e <> x -> sym_assign s x v !! e = s !! e.
Proof.
  intros Hne. unfold sym_assign.
  destruct (String.eqb x "__proto__"); [done|].
  by rewrite lookup_insert_ne.
Qed.

Lemma sym_assign_same s e v :
  e <> "__proto__" -> sym_assign s e v !! e = Some v.
Proof.
  intros Hne. unfold sym_assign.
  destruct (String.eqb_spec e "__proto__"); [done|].
  by rewrite lookup_insert_eq.
Qed.

Lemma registerExports_symbols moduleDef e : forall l k,
  e <> "__proto__" ->
  (e ∈ l \/ owned_by (name moduleDef) e (symbols k)) ->
  owned_by (name moduleDef) e
    (symbols (fold_left
       (fun k exportName =>
          with_symbols
            (sym_assign (symbols k) exportName
               {| sym_module := name moduleDef;
                  address := "kernel+0x" +:+
                             toString16 (kernelBase k
                                         + N.of_nat (size (symbols k)) * 8);
                  sym_type := None |})
            k) l k)).
Proof.
  induction l as [|x l IH]; intros k Hne Hcase; simpl.
  { destruct Hcase as [Hin|Hown]; [|done]. by apply not_elem_of_nil in Hin. }
  apply IH; [done|].
  destruct (decide (e = x)) as [<-|Hx].
  - right. eexists. simpl. by rewrite sym_assign_same.
  - destruct Hcase as [Hin|[a Hown]].
    + apply elem_of_cons in Hin as [?|Hin]; [done | by left].
    + right. exists a. simpl. by rewrite sym_assign_other.
Qed.

Lemma registerExports_other moduleDef e k :
  e ∉ exports moduleDef ->
  symbols (registerExports moduleDef k) !! e = symbols k !! e.
Proof.
  unfold registerExports. generalize (exports moduleDef). intros l.
  revert k. induction l as [|x l IH]; intros k Hnot; simpl; [done|].
  apply not_elem_of_cons in Hnot as [Hne Hnot].
  rewrite IH; [|done]. simpl. by apply sym_assign_other.
Qed.

(** C2, as the code has it: registering the exports of a module that
    loads never fails; a name the module exports gets the entry of that
    module, whatever the table held for it before, so an entry another
    module registered earlier is overwritten; there is one entry for the
    name, and the entries of the names the module does not export are
    left as they are. *)
Theorem exported_symbol_is_overwritten
    (moduleDef : ModuleDefinition) (k : t) (module : ModuleInstance)
    (e : string) :
  loadModule moduleDef k = (Return module, k) ->
  e ∈ exports moduleDef ->
  e <> "__proto__" ->
  exists k',
    load_each [moduleDef] k = (Return tt, k')
    /\ owned_by (name moduleDef) e (symbols k')
    /\ (forall x, x ∉ exports moduleDef ->
                  symbols k' !! x = symbols k !! x).
Proof.
  intros Hload He Hne. simpl. rewrite Hload.
  eexists. split; [reflexivity|]. split.
  - apply registerExports_symbols; [done | by left].
  - intros x Hx. by rewrite registerExports_other.
Qed.

Lemma exported_symbol_witness :
  owned_by "scheduler" "createProcess" (symbols two_loaded)
  /\ exists k',
       load_each [entry "process-manager"] two_loaded = (Return tt, k')
       /\ owned_by "process-manager" "createProcess" (symbols k').
Proof.
  split; [eexists; vm_compute; reflexivity|].
  destruct (exported_symbol_is_overwritten (entry "process-manager")
              two_loaded
              (instantiate
                 (OwnTemplate
                    (default
                       {| tpl_name := ""; version := ""; type_ := "";
                          initialize := None; api := [] |}
                       (JsObj.get moduleTemplates "process-manager")))
                 (entry "process-manager"))
              "createProcess")
    as (k' & H1 & H2 & _).
  - vm_compute. reflexivity.
  - by left.
  - discriminate.
  - exists k'. split; [exact H1 | exact H2].
Defined.

(** C2 as stated fails: "createProcess", registered for "scheduler", is
    exported again by "process-manager"; that registration raises no
    error and the entry of "scheduler" is gone. *)
Lemma second_registration_overwrites :
  let after := load_each [entry "process-manager"] two_loaded in
  sym_module <$> symbols two_loaded !! "createProcess" = Some "scheduler"
  /\ succeeded after.1 = true
  /\ sym_module <$> symbols after.2 !! "createProcess"
     = Some "process-manager"
  /\ ~ (succeeded after.1 = false
        /\ sym_module <$> symbols after.2 !! "createProcess"
           = Some "scheduler").
Proof.
  split; [vm_compute; reflexivity|].
  split; [vm_compute; reflexivity|].
  split; [vm_compute; reflexivity|].
  intros [H _]. vm_compute in H. discriminate H.
Qed.

Example overwritten_symbol :
  let after := load_each [entry "process-manager"] two_loaded in
  symbols two_loaded !! "createProcess"
  = Some {| sym_module := "scheduler"; address := "kernel+0x100008";
            sym_type := None |}
  /\ symbols after.2 !! "createProcess"
     = Some {| sym_module := "process-manager";
               address := "kernel+0x100050"; sym_type := None |}
  /\ size (symbols after.2) = 13.
Proof. repeat split; vm_compute; reflexivity. Qed.

(** [resolveSymbols] overwrites in the same way: of two loaded modules
    with a function of the same name, the later one owns the symbol. *)
Example resolved_symbol :
  let after := (load_each [entry "process-manager"] two_loaded).2 in
  sym_module <$>
    (resolveSymbols (fun _ => "0x7f3a9c21.8") after).2.(symbols)
      !! "createProcess"
  = Some "process-manager".
Proof. vm_compute. reflexivity. Qed.

End Stage2Facts.

(* ===================================================================== *)
(** * Properties of the init system *)
(* ===================================================================== *)

Module Stage3Facts.

Import Js Stage3Init Stage3Spec JsObjFacts.
#[local] Open Scope list_scope.
#[local] Arguments startService : simpl never.
#[local] Arguments start_error : simpl never.

(** Every built-in template has a [start]. *)
Lemma templates_have_start serviceName template :
  JsObj.get serviceTemplates serviceName = Some template ->
  is_Some (start template).
Proof.
  assert (Hall : Forall (fun entry => is_Some (start (snd entry)))
                        serviceTemplates).
  { unfold serviceTemplates. repeat constructor; simpl; by eexists. }
  revert Hall. generalize serviceTemplates.
  induction o as [|[k' v] o IH]; simpl; [done|].
  intros Hall. apply Forall_cons in Hall as [Hv Hall].
  destruct (String.eqb k' serviceName); [|by apply IH].
  by intros [= <-].
Qed.

Lemma startService_Throw now serviceName runlevel k e :
  start_error serviceName runlevel = Some e ->
  startService now serviceName runlevel k = (Throw e, k).
Proof.
  unfold start_error, startService.
  destruct (JsObj.get serviceTemplates serviceName) as [template|].
  - destruct (includes _ _); simpl; [done|]. by intros [= <-].
  - destruct (inherited serviceName); by intros [= <-].
Qed.

Lemma startService_Return now serviceName runlevel k :
  start_error serviceName runlevel = None ->
  exists template info k',
    JsObj.get serviceTemplates serviceName = Some template
    /\ startService now serviceName runlevel k = (Return info, k')
    /\ running_instance template runlevel (Some (Instance info))
    /\ startedAt info = now
    /\ services k' = services k
    /\ exists added,
         daemons k' = daemons k ++ added
         /\ Forall (fun d => daemon_name d = serviceName) added.
Proof.
  unfold start_error, startService.
  destruct (JsObj.get serviceTemplates serviceName) as [template|] eqn:Hget;
    [|done].
  destruct (includes _ _); simpl; [|done]. intros _.
  destruct (templates_have_start _ _ Hget) as [startResult Hstart].
  rewrite Hstart.
  exists template. eexists. eexists. split; [done|].
  split; [reflexivity|].
  split; [eexists; by rewrite Hstart|]. split; [done|].
  destruct (String.eqb (type_ template) "daemon"); simpl.
  - split; [done|]. eexists. split; [reflexivity|]. by repeat constructor.
  - split; [done|]. exists []. by rewrite app_nil_r.
Qed.

Lemma startService_succeeded now serviceName runlevel k :
  succeeded (startService now serviceName runlevel k).1
  = bool_decide (start_error serviceName runlevel = None).
Proof.
  destruct (start_error serviceName runlevel) as [e|] eqn:Herr.
  - by erewrite startService_Throw.
  - destruct (startService_Return now serviceName runlevel k Herr)
      as (? & ? & ? & _ & -> & _). done.
Qed.

(** The lines the loop writes: one for each service of the batch that
    failed, in the order of the batch. *)
Lemma start_each_lines clock runlevel names : forall i k,
  (start_each clock runlevel i names k).2
  = omap (fun serviceName =>
            error_line serviceName <$> start_error serviceName runlevel)
         names.
Proof.
  induction names as [|s names IH]; intros i k; simpl; [done|].
  destruct (start_error s runlevel) as [e|] eqn:Herr; simpl.
  - erewrite startService_Throw; [|done].
    specialize (IH (S i) k).
    destruct (start_each clock runlevel (S i) names k) as [k' lines].
    simpl in *. by rewrite IH.
  - destruct (startService_Return (clock i) s runlevel k Herr)
      as (? & ? & ? & _ & -> & _).
    apply IH.
Qed.

(** A service of the batch that passes the checks has a running instance
    once the loop is through. *)
Lemma start_each_started clock runlevel serviceName template names :
  JsObj.get serviceTemplates serviceName = Some template ->
  includes (runlevels template) runlevel = true ->
  forall i k,
    serviceName ∈ names
    \/ running_instance template runlevel
         (JsObj.get (services k) serviceName) ->
    running_instance template runlevel
      (JsObj.get (services (start_each clock runlevel i names k).1)
                 serviceName).
Proof.
  intros Hget Hinc.
  induction names as [|s names IH]; intros i k Hcase; simpl.
  { destruct Hcase as [Hin|H]; [|done]. by apply not_elem_of_nil in Hin. }
  destruct (start_error s runlevel) as [e|] eqn:Herr.
  - erewrite startService_Throw; [|done].
    specialize (IH (S i) k).
    destruct (start_each clock runlevel (S i) names k) as [k' lines].
    simpl in IH |- *. apply IH.
    destruct Hcase as [Hin|H]; [|by right].
    apply elem_of_cons in Hin as [->|Hin]; [|by left].
    unfold start_error in Herr. rewrite Hget, Hinc in Herr. done.
  - destruct (startService_Return (clock i) s runlevel k Herr)
      as (tpl & info & k' & Hget' & -> & Hrun & _ & Hsv & _).
    apply IH. simpl.
    destruct (decide (serviceName = s)) as [->|Hne].
    + right. rewrite get_set_eq.
      rewrite Hget in Hget'. by injection Hget' as <-.
    + destruct Hcase as [Hin|H].
      * apply elem_of_cons in Hin as [?|Hin]; [done | by left].
      * right. rewrite get_set_ne; [|done]. by rewrite Hsv.
Qed.

Lemma filter_other_daemons (s serviceName : string) (added : list Daemon) :
  Forall (fun d => daemon_name d = s) added ->
  serviceName <> s ->
  filter (fun d => daemon_name d = serviceName) added = [].
Proof.
  intros Hall Hne. induction Hall as [|d added Hd _ IH]; [done|].
  rewrite filter_cons. destruct (decide _) as [Heq|_]; [congruence|done].
Qed.

(** A service that fails the checks leaves no trace of the loop. *)
Lemma start_each_failed clock runlevel serviceName e names :
  start_error serviceName runlevel = Some e ->
  forall i k,
    JsObj.get (services (start_each clock runlevel i names k).1) serviceName
    = JsObj.get (services k) serviceName
    /\ filter (fun d => daemon_name d = serviceName)
              (daemons (start_each clock runlevel i names k).1)
       = filter (fun d => daemon_name d = serviceName) (daemons k).
Proof.
  intros Hfail.
  induction names as [|s names IH]; intros i k; simpl; [done|].
  destruct (start_error s runlevel) as [e'|] eqn:Herr.
  - erewrite startService_Throw; [|done].
    specialize (IH (S i) k).
    by destruct (start_each clock runlevel (S i) names k) as [k' lines].
  - destruct (startService_Return (clock i) s runlevel k Herr)
      as (tpl & info & k' & _ & -> & _ & _ & Hsv & added & Hd & Hadded).
    destruct (IH (S i)
                (with_services
                   (JsObj.set (services k') s (Instance info)) k'))
      as [-> ->].
    simpl.
    assert (Hne : serviceName <> s) by (intros ->; congruence).
    split.
    + rewrite get_set_ne; [|done]. by rewrite Hsv.
    + rewrite Hd, filter_app.
      replace (filter _ added) with (@nil Daemon);
        [by rewrite app_nil_r|].
      symmetry. by eapply filter_other_daemons.
Qed.

Lemma enterRunlevel_unfold clock runlevel k tbl :
  serviceTable k = Some tbl ->
  enterRunlevel clock runlevel k
  = (Return tt,
     (start_each clock runlevel 0 (default [] (tbl !! runlevel)) k).1,
     (start_each clock runlevel 0 (default [] (tbl !! runlevel)) k).2).
Proof.
  intros Htbl. unfold enterRunlevel. rewrite Htbl.
  by destruct (start_each _ _ _ _ _).
Qed.

(** C8: [enterRunlevel(n)] starts the services its table lists for [n]
    one after the other and always returns.  A listed service whose
    runlevels do not contain [n] fails with the runlevel error, written
    to the console under its own name, and is given no instance; the batch
    goes on: the console holds one line for each listed service that
    failed, in order, and every listed service whose runlevels contain
    [n] has a running instance afterwards. *)
Theorem mismatched_service_fails_alone
    (clock : nat -> Z) (n : Z) (k : t) (tbl : gmap Z (list string))
    (names : list string) :
  serviceTable k = Some tbl ->
  tbl !! n = Some names ->
  let run := enterRunlevel clock n k in
  run.1.1 = Return tt
  /\ run.2 = omap (fun s => error_line s <$> start_error s n) names
  /\ forall serviceName template,
       serviceName ∈ names ->
       JsObj.get serviceTemplates serviceName = Some template ->
       if includes (runlevels template) n then
         running_instance template n
           (JsObj.get (services run.1.2) serviceName)
       else
         start_error serviceName n
           = Some (RunlevelMismatch serviceName n)
         /\ error_line serviceName (RunlevelMismatch serviceName n) ∈ run.2
         /\ JsObj.get (services run.1.2) serviceName
            = JsObj.get (services k) serviceName.
Proof.
  intros Htbl Hn run. subst run.
  rewrite (enterRunlevel_unfold _ _ _ _ Htbl), Hn.
  change (default [] (Some names)) with names. cbn [fst snd].
  split; [done|]. split; [apply start_each_lines|].
  intros serviceName template Hin Hget.
  destruct (includes (runlevels template) n) eqn:Hinc.
  - apply start_each_started; [done..| by left].
  - assert (Herr : start_error serviceName n
                   = Some (RunlevelMismatch serviceName n)).
    { unfold start_error. by rewrite Hget, Hinc. }
    split; [done|]. split.
    + rewrite start_each_lines. apply list_elem_of_omap.
      exists serviceName. split; [done|]. by rewrite Herr.
    + by eapply start_each_failed.
Qed.

Lemma mismatched_service_witness :
  let run := enterRunlevel (fun _ => 5000%Z) 3 mixed_batch in
  run.1.1 = Return tt
  /\ run.2 = [ ("      ❌ Error iniciando display-manager:",
                "Servicio display-manager no disponible en runlevel 3") ]
  /\ JsObj.keys (services run.1.2) = ["cron"]
  /\ (exists info,
        JsObj.get (services run.1.2) "cron" = Some (Instance info)
        /\ status info = Some "running")
  /\ JsObj.get (services run.1.2) "display-manager" = None.
Proof.
  destruct (mismatched_service_fails_alone (fun _ => 5000%Z) 3 mixed_batch
              {[ 3%Z := ["cron"; "display-manager"] ]}
              ["cron"; "display-manager"])
    as (H1 & H2 & H3).
  - reflexivity.
  - reflexivity.
  - split; [exact H1|]. split; [rewrite H2; reflexivity|].
    split; [vm_compute; reflexivity|]. split.
    + destruct (JsObj.get serviceTemplates "cron") as [template|] eqn:Hget;
        [|discriminate Hget].
      pose proof (H3 "cron" template) as Hcron.
      injection Hget as <-. simpl in Hcron.
      destruct Hcron as (info & Hinfo & _ & _ & Hst & _);
        [by left | reflexivity |].
      exists info. split; [exact Hinfo | exact Hst].
    + vm_compute. reflexivity.
Defined.

(** C10: a service whose start fails (no template for the name, or a
    template whose runlevels do not contain the runlevel) leaves the
    fields as they are; and whatever else [enterRunlevel] starts in the
    batch, the entry of [this.services] under that name and the entries
    of [this.daemons] with that name are the ones from before the call:
    entries are only added for a service whose start went through. *)
Theorem failed_start_adds_nothing
    (clock : nat -> Z) (now : Z) (n : Z) (k : t) (serviceName : string) :
  succeeded (startService now serviceName n k).1 = false ->
  (startService now serviceName n k).2 = k
  /\ let after := (enterRunlevel clock n k).1.2 in
     JsObj.get (services after) serviceName
     = JsObj.get (services k) serviceName
     /\ filter (fun d => daemon_name d = serviceName) (daemons after)
        = filter (fun d => daemon_name d = serviceName) (daemons k).
Proof.
  rewrite startService_succeeded. intros Hfail.
  apply bool_decide_eq_false in Hfail.
  destruct (start_error serviceName n) as [e|] eqn:Herr; [|done].
  split; [by erewrite startService_Throw|].
  unfold enterRunlevel.
  destruct (serviceTable k) as [tbl|]; [|done].
  pose proof (start_each_failed clock n serviceName e
                (default [] (tbl !! n)) Herr 0 k) as H.
  by destruct (start_each _ _ _ _ _).
Qed.

Lemma failed_start_witness :
  let k := with_serviceTable default_serviceTable new in
  let after := (enterRunlevel (fun _ => 5000%Z) 2 k).1.2 in
  (startService 5000 "display-manager" 2 k).2 = k
  /\ JsObj.keys (services after) = ["cron"; "syslog"; "dbus";
                                    "network-manager"]
  /\ JsObj.get (services after) "display-manager" = None
  /\ filter (fun d => daemon_name d = "display-manager") (daemons after)
     = [].
Proof.
  destruct (failed_start_adds_nothing (fun _ => 5000%Z) 5000 2
              (with_serviceTable default_serviceTable new)
              "display-manager")
    as (H1 & H2 & H3).
  - reflexivity.
  - split; [exact H1|]. split; [vm_compute; reflexivity|].
    split; [rewrite H2; reflexivity | rewrite H3; reflexivity].
Defined.

(** Runlevel 3 of the built-in table lists four services without
    template: none of them is started. *)
Example runlevel_3_starts_nothing :
  let k := with_serviceTable default_serviceTable new in
  let run := enterRunlevel (fun _ => 5000%Z) 3 k in
  run.1.2 = k
  /\ snd <$> run.2 = [ "Servicio no encontrado: ssh";
                       "Servicio no encontrado: web-server";
                       "Servicio no encontrado: database";
                       "Servicio no encontrado: print-spooler" ].
Proof. split; vm_compute; reflexivity. Qed.

End Stage3Facts.

(* ===================================================================== *)
(** * More on the BootLoader: what every run guarantees *)
(* ===================================================================== *)

Module BootLoaderContract.

Import Js BootLoader Probe JsObjFacts.
#[local] Open Scope list_scope.

Lemma keys_spread {A} (b : JsObj.obj A) : forall (a : JsObj.obj A) x,
  x ∈ JsObj.keys a -> x ∈ JsObj.keys (JsObj.spread a b).
Proof.
  unfold JsObj.spread.
  induction b as [|[k v] b IH]; intros a x Hx; simpl; [done|].
  apply IH. apply keys_set. by left.
Qed.

(** Where the loop stands when it is left. *)
Lemma run_stages_position {W} (tbl : JsObj.obj (@Stage W)) rest :
  forall i bl w,
    let r := run_stages tbl i rest bl w in
    match r.1.1 with
    | Return _ =>
        currentStage r.1.2
        = match rest with [] => currentStage bl | _ => i + length rest end
    | Throw _ =>
        exists j s, rest !! j = Some s /\ currentStage r.1.2 = i + j + 1
    end.
Proof.
  induction rest as [|s rest IH]; intros i bl w; simpl; [done|].
  destruct (loadStage tbl s) as [stage|e]; simpl;
    [|exists 0, s; split; [done | lia]].
  destruct (execute stage _ w) as [[r|e] w']; simpl;
    [|exists 0, s; split; [done | lia]].
  destruct (success r); simpl; [|exists 0, s; split; [done | lia]].
  match goal with
  | |- context [run_stages tbl ?i' rest ?b ?w0] =>
      specialize (IH i' b w0); simpl in IH;
      destruct (run_stages tbl i' rest b w0) as [[[[]|e] b'] w1]
  end; simpl in *.
  - rewrite IH. destruct rest; simpl; lia.
  - destruct IH as (j & s' & Hj & Hc). exists (S j), s'.
    split; [done | lia].
Qed.

(** The loop only adds to the two tables. *)
Lemma run_stages_keeps_keys {W} (tbl : JsObj.obj (@Stage W)) rest :
  forall i bl w x,
    let r := run_stages tbl i rest bl w in
    (x ∈ JsObj.keys (kernelModules bl) ->
     x ∈ JsObj.keys (kernelModules r.1.2))
    /\ (x ∈ JsObj.keys (systemServices bl) ->
        x ∈ JsObj.keys (systemServices r.1.2)).
Proof.
  induction rest as [|s rest IH]; intros i bl w x; simpl; [done|].
  destruct (loadStage tbl s) as [stage|e]; simpl; [|done].
  destruct (execute stage _ w) as [[r|e] w']; simpl; [|done].
  destruct (success r); simpl; [|done].
  match goal with
  | |- context [run_stages tbl ?i' rest ?b ?w0] =>
      destruct (IH i' b w0 x) as [H1 H2]
  end.
  simpl in H1, H2.
  split; intros Hx; [apply H1 | apply H2]; by apply keys_spread.
Qed.

(** X1: What [start()] guarantees, whatever the stages do.  It always returns
    a result, with [startTime] set.  A completed run has [initialized] and
    [endTime] set, leaves [errors] alone and ends with [currentStage] at
    the number of stages (untouched when there is no stage); the lists of
    the result are the keys of the two tables.  A failed run has pushed
    its message on [errors]; the stage number of the result is between 1
    and the number of stages and the stage name of the result is the name
    at that position, never [undefined].  No run removes a key from the
    tables. *)
Theorem start_guarantees
    {W} (tbl : JsObj.obj (@Stage W)) (t0 t1 : Z) (bl : t) (w : W) :
  let run := start tbl t0 t1 bl w in
  let after := run.1.2 in
  stages after = stages bl
  /\ startTime (bootStatus after) = Some t0
  /\ warnings (bootStatus after) = warnings (bootStatus bl)
  /\ (forall x, x ∈ JsObj.keys (kernelModules bl) ->
                x ∈ JsObj.keys (kernelModules after))
  /\ (forall x, x ∈ JsObj.keys (systemServices bl) ->
                x ∈ JsObj.keys (systemServices after))
  /\ match run.1.1 with
     | BootOk bootTime modules services =>
         bootTime = QArith_base.Qmake (t1 - t0) 1000
         /\ modules = JsObj.keys (kernelModules after)
         /\ services = JsObj.keys (systemServices after)
         /\ initialized (bootStatus after) = true
         /\ endTime (bootStatus after) = Some t1
         /\ errors (bootStatus after) = errors (bootStatus bl)
         /\ currentStage after
            = match stages bl with
              | [] => currentStage bl
              | _ => length (stages bl)
              end
     | BootFailed msg stage stageName =>
         errors (bootStatus after) = errors (bootStatus bl) ++ [msg]
         /\ initialized (bootStatus after) = initialized (bootStatus bl)
         /\ endTime (bootStatus after) = endTime (bootStatus bl)
         /\ currentStage after = stage
         /\ 1 <= stage <= length (stages bl)
         /\ is_Some stageName
         /\ stageName = stages bl !! (stage - 1)
     end.
Proof.
  unfold start.
  set (bl0 := with_bootStatus (set_startTime t0 (bootStatus bl)) bl).
  pose proof (BootLoaderFacts.run_stages_bootStatus tbl (stages bl0) 0 bl0 w)
    as Hbs.
  pose proof (BootLoaderFacts.run_stages_stages tbl (stages bl0) 0 bl0 w)
    as Hst.
  pose proof (run_stages_position tbl (stages bl0) 0 bl0 w) as Hpos.
  pose proof (fun x => run_stages_keeps_keys tbl (stages bl0) 0 bl0 w x)
    as Hkeys.
  destruct (run_stages tbl 0 (stages bl0) bl0 w) as [[[[]|e] b] w1];
    simpl in *.
  - rewrite Hbs. simpl. repeat split; try done; try apply Hkeys.
  - rewrite Hbs. simpl.
    destruct Hpos as (j & s & Hj & Hc).
    assert (Hname : current_stage_name
                      (with_bootStatus
                         (push_error (message e)
                            (set_startTime t0 (bootStatus bl))) b)
                    = Some s).
    { unfold current_stage_name. simpl. rewrite Hc, Hst.
      by replace (j + 1) with (S j) by lia. }
    pose proof (lookup_lt_Some _ _ _ Hj) as Hlt.
    rewrite Hname.
    repeat split; try done; try apply Hkeys; try lia.
    rewrite Hc. replace (j + 1 - 1) with j by lia. done.
Qed.

End BootLoaderContract.

Module BootLoaderReboot.

Import Js BootLoader BootSpec.
#[local] Open Scope list_scope.

(** Two loaders with the same tables and stage counter go through the
    loop alike when the stages do not look at the loader. *)
Lemma run_stages_alike {W} (tbl : JsObj.obj (@Stage W)) rest :
  loader_independent tbl ->
  forall i b1 b2 w,
    kernelModules b1 = kernelModules b2 ->
    systemServices b1 = systemServices b2 ->
    currentStage b1 = currentStage b2 ->
    let r1 := run_stages tbl i rest b1 w in
    let r2 := run_stages tbl i rest b2 w in
    r1.1.1 = r2.1.1 /\ r1.2 = r2.2
    /\ kernelModules r1.1.2 = kernelModules r2.1.2
    /\ systemServices r1.1.2 = systemServices r2.1.2
    /\ currentStage r1.1.2 = currentStage r2.1.2.
Proof.
  intros Hind.
  induction rest as [|s rest IH]; intros i b1 b2 w Hk Hs Hc; simpl; [done|].
  unfold loadStage.
  destruct (JsObj.get tbl s) as [a|] eqn:Hget; simpl.
  - rewrite (Hind s a (with_currentStage (i + 1) b1)
                      (with_currentStage (i + 1) b2) w Hget).
    destruct (a _ w) as [[r|e] w']; simpl; [|done].
    destruct (success r); simpl; [|done].
    apply IH; simpl; by rewrite ?Hk, ?Hs.
  - by destruct (inherited s).
Qed.

(** X2: Rebooting is a cold start, as far as the stages, the tables and the
    result go: with stages that do not look at the loader, [reboot()] from
    any state returns what [start()] returns on a brand-new loader, with
    the same tables and the same stage counter. *)
Theorem reboot_is_a_cold_start
    {W} (tbl : JsObj.obj (@Stage W)) (t0 t1 : Z) (bl : t) (w : W) :
  loader_independent tbl ->
  let warm := reboot tbl t0 t1 bl w in
  let cold := start tbl t0 t1 (cold_loader bl) w in
  warm.1.1 = cold.1.1
  /\ warm.2 = cold.2
  /\ kernelModules warm.1.2 = kernelModules cold.1.2
  /\ systemServices warm.1.2 = systemServices cold.1.2
  /\ currentStage warm.1.2 = currentStage cold.1.2.
Proof.
  intros Hind. unfold reboot, start. simpl.
  set (b1 := with_bootStatus _ (clear_state bl)).
  set (b2 := with_bootStatus _ (cold_loader bl)).
  pose proof (run_stages_alike tbl (stages bl) Hind 0 b1 b2 w
                eq_refl eq_refl eq_refl) as H.
  pose proof (BootLoaderFacts.run_stages_stages tbl (stages bl) 0 b1 w) as H1.
  pose proof (BootLoaderFacts.run_stages_stages tbl (stages bl) 0 b2 w) as H2.
  change (stages b1) with (stages bl).
  change (stages b2) with (stages bl).
  destruct (run_stages tbl 0 (stages bl) b1 w) as [[c1 r1] w1].
  destruct (run_stages tbl 0 (stages bl) b2 w) as [[c2 r2] w2].
  simpl in *. destruct H as (-> & -> & Hk & Hs & Hc).
  destruct c2 as [[]|e]; simpl.
  - by rewrite Hk, Hs, Hc.
  - unfold current_stage_name. simpl. by rewrite Hk, Hs, Hc, H1, H2.
Qed.

Lemma get_elem_of {A} (o : JsObj.obj A) k v :
  JsObj.get o k = Some v -> (k, v) ∈ o.
Proof.
  induction o as [|[k' v'] o IH]; simpl; [done|].
  destruct (String.eqb_spec k' k) as [->|_].
  - intros [= ->]. by left.
  - intros H. right. by apply IH.
Qed.

Lemma builtin_stages_loader_independent :
  loader_independent (@builtin_stages unit).
Proof.
  intros stageName s b1 b2 w Hget.
  apply get_elem_of in Hget. unfold builtin_stages in Hget.
  repeat (apply elem_of_cons in Hget as [[= -> ->]|Hget]; [done|]).
  by apply not_elem_of_nil in Hget.
Qed.

Lemma reboot_is_a_cold_start_witness :
  (reboot (@builtin_stages unit) 2000 2600 Probe.completed_loader tt).1.1
  = BootOk (QArith_base.Qmake 600 1000)
           ["scheduler"; "memory-manager"; "process-manager"]
           ["auth"; "vfs"; "network"].
Proof.
  destruct (reboot_is_a_cold_start (@builtin_stages unit) 2000 2600
              Probe.completed_loader tt builtin_stages_loader_independent)
    as (H & _).
  rewrite H. vm_compute. reflexivity.
Defined.

End BootLoaderReboot.

(* ===================================================================== *)
(** * More on the status checks: what decides the verdict *)
(* ===================================================================== *)

Module VerdictFacts.

Import Js.
#[local] Open Scope list_scope.

(** What the loop over required items adds to the three arrays. *)
Lemma require_adds {A} (xs : list A) (present : A -> bool) (ok bad : A -> string) :
  forall f,
    Findings.checks (Findings.require xs present ok bad f)
      = Findings.checks f ++ map ok (List.filter present xs)
    /\ Findings.issues (Findings.require xs present ok bad f)
      = Findings.issues f
        ++ map bad (List.filter (fun x => negb (present x)) xs)
    /\ Findings.warnings (Findings.require xs present ok bad f)
      = Findings.warnings f.
Proof.
  unfold Findings.require.
  induction xs as [|x xs IH]; intros f; simpl.
  { by rewrite !app_nil_r. }
  destruct (present x); simpl;
    destruct (IH (if present x then Findings.check (ok x) f
                  else Findings.issue (bad x) f)) as (_ & _ & _);
    match goal with
    | |- context [fold_left ?g xs ?f0] =>
        destruct (IH f0) as (-> & -> & ->)
    end; simpl; by rewrite <- ?app_assoc.
Qed.

Lemma filter_split_length {A} (p : A -> bool) (xs : list A) :
  length (List.filter p xs) + length (List.filter (fun x => negb (p x)) xs)
  = length xs.
Proof.
  induction xs as [|x xs IH]; simpl; [done|].
  destruct (p x); simpl; lia.
Qed.

Lemma filter_negb_nil {A} (p : A -> bool) (xs : list A) :
  List.filter (fun x => negb (p x)) xs = [] <-> forallb p xs = true.
Proof.
  induction xs as [|x xs IH]; simpl; [done|].
  destruct (p x); simpl; [exact IH | done].
Qed.

(** The loop leaves no issue exactly when there was none and every item
    is present. *)
Lemma require_no_issues {A} (xs : list A) (present : A -> bool)
    (ok bad : A -> string) (f : Findings.t) :
  Findings.no_issues (Findings.require xs present ok bad f)
  = Findings.no_issues f && forallb present xs.
Proof.
  destruct (require_adds xs present ok bad f) as (_ & Hi & _).
  unfold Findings.no_issues. rewrite Hi.
  destruct (Findings.issues f); simpl; [|done].
  pose proof (filter_negb_nil present xs) as He.
  destruct (List.filter _ xs); simpl.
  - symmetry. by apply He.
  - destruct (forallb present xs); [|done].
    by destruct He as [_ He]; specialize (He eq_refl).
Qed.

Lemma no_issues_check s f :
  Findings.no_issues (Findings.check s f) = Findings.no_issues f.
Proof. done. Qed.

Lemma no_issues_warning s f :
  Findings.no_issues (Findings.warning s f) = Findings.no_issues f.
Proof. done. Qed.

Lemma no_issues_issue s f :
  Findings.no_issues (Findings.issue s f) = false.
Proof. unfold Findings.no_issues. simpl. by destruct (Findings.issues f). Qed.

(** X3: The verdict of [verifyKernelIntegrity]: the kernel is healthy exactly
    when the four tables, the five critical handlers, the four modules
    and the heap are there.  The device tree and the boot parameters only
    give warnings.  Each of the sixteen requirements gives one entry, in
    one of the three lists. *)
Theorem integrity_verdict (now : Z) (k : KernelInitializer.t) :
  let report := (KernelInitializer.verifyKernelIntegrity now k).1 in
  KernelInitializer.healthy report
    = forallb (KernelInitializer.present (KernelInitializer.systemTables k))
              ["gdt"; "idt"; "tss"; "pml4"]
      && forallb (KernelInitializer.present
                    (KernelInitializer.interruptHandlers k))
                 [0; 8; 13; 14; 32]%Z
      && forallb (KernelInitializer.present
                    (KernelInitializer.kernelModules k))
                 ["scheduler"; "memory"; "time"; "ipc"]
      && truthy (KernelInitializer.kernelHeap k)
  /\ length (KernelInitializer.checks report)
     + length (KernelInitializer.issues report)
     + length (KernelInitializer.warnings report) = 16
  /\ length (KernelInitializer.warnings report) <= 2.
Proof.
  unfold KernelInitializer.verifyKernelIntegrity. cbn [fst].
  cbn [KernelInitializer.healthy KernelInitializer.checks
       KernelInitializer.issues KernelInitializer.warnings].
  unfold KernelInitializer.integrity_findings.
  set (p1 := KernelInitializer.present (KernelInitializer.systemTables k)).
  set (p2 := KernelInitializer.present
               (KernelInitializer.interruptHandlers k)).
  set (p3 := KernelInitializer.present (KernelInitializer.kernelModules k)).
  set (l1 := ["gdt"; "idt"; "tss"; "pml4"]).
  set (l2 := [0; 8; 13; 14; 32]%Z).
  set (l3 := ["scheduler"; "memory"; "time"; "ipc"]).
  set (f1 := Findings.require l1 p1 _ _ Findings.empty).
  set (f2 := Findings.require l2 p2 _ _ f1).
  set (f3 := Findings.require l3 p3 _ _ f2).
  destruct (require_adds l1 p1
              (fun table => toUpperCase table +:+ ": OK")
              (fun table => "Tabla " +:+ table +:+ " no inicializada")
              Findings.empty) as (Hc1 & Hi1 & Hw1).
  destruct (require_adds l2 p2
              (fun vector => "Interrupt " +:+ num_to_string vector +:+ ": OK")
              (fun vector => "Manejador de interrupción "
                             +:+ num_to_string vector +:+ " faltante")
              f1) as (Hc2 & Hi2 & Hw2).
  destruct (require_adds l3 p3
              (fun module => "Módulo " +:+ module +:+ ": OK")
              (fun module => "Módulo " +:+ module +:+ " no inicializado")
              f2) as (Hc3 & Hi3 & Hw3).
  fold f1 in Hc1, Hi1, Hw1, Hc2, Hi2, Hw2.
  fold f2 in Hc2, Hi2, Hw2, Hc3, Hi3, Hw3.
  fold f3 in Hc3, Hi3, Hw3.
  pose proof (filter_split_length p1 l1) as Hn1.
  pose proof (filter_split_length p2 l2) as Hn2.
  pose proof (filter_split_length p3 l3) as Hn3.
  pose proof (filter_negb_nil p1 l1) as He1.
  pose proof (filter_negb_nil p2 l2) as He2.
  pose proof (filter_negb_nil p3 l3) as He3.
  assert (Hissues : Findings.no_issues f3
                    = forallb p1 l1 && forallb p2 l2 && forallb p3 l3).
  { unfold f3, f2, f1. by rewrite !require_no_issues. }
  assert (Hlen : length (Findings.checks f3) + length (Findings.issues f3)
                 = 13 /\ Findings.warnings f3 = []).
  { rewrite Hc3, Hi3, Hc2, Hi2, Hc1, Hi1, Hw3, Hw2, Hw1.
    cbn [Findings.empty Findings.checks Findings.issues Findings.warnings
         app].
    rewrite !length_app, !length_map.
    assert (length l1 = 4 /\ length l2 = 5 /\ length l3 = 4)
      as (E1 & E2 & E3) by done.
    rewrite E1 in Hn1. rewrite E2 in Hn2. rewrite E3 in Hn3.
    split; [lia | done]. }
  destruct Hlen as [Hlen Hw].
  rewrite <- Hissues.
  destruct (truthy (KernelInitializer.kernelHeap k));
    destruct (has_truthy_prop (KernelInitializer.deviceTree k) "root");
    destruct (has_truthy_prop (KernelInitializer.bootParams k)
                              "kernelVersion");
    repeat (rewrite no_issues_check || rewrite no_issues_warning
            || rewrite no_issues_issue);
    rewrite ?andb_true_r, ?andb_false_r;
    cbn [Findings.check Findings.issue Findings.warning
         Findings.checks Findings.issues Findings.warnings];
    rewrite ?Hw, ?length_app; cbn [length app];
    (split; [done | split; lia]).
Qed.

(** X4: The verdict of [checkSystemStatus]: the system is ready exactly when
    the three critical services are running and, at runlevel 5, the
    display manager and the window manager have an entry.  The only
    warning it can give is the one about user sessions: the memory
    warning is out of reach, the free memory being the fixed 3 GB. *)
Theorem system_status_verdict (now1 now2 : Z) (k : Stage3Init.t) :
  let report := (Stage3Init.checkSystemStatus now1 now2 k).1 in
  Stage3Init.ready report
    = forallb (Stage3Init.service_running k)
              ["basic-network"; "syslog"; "display-manager"]
      && (if (Stage3Init.current_runlevel k =? 5)%Z
          then JsObj.has (Stage3Init.services k) "display-manager"
               && JsObj.has (Stage3Init.services k) "window-manager"
          else true)
  /\ Stage3Init.warnings report
     = (if (0 <? length (Stage3Init.userSessions k))%nat then []
        else ["No hay sesiones de usuario activas"])
  /\ length (Stage3Init.issues report) <= 4.
Proof.
  unfold Stage3Init.checkSystemStatus. cbn [fst].
  cbn [Stage3Init.ready Stage3Init.issues Stage3Init.warnings].
  unfold Stage3Init.status_findings.
  set (p := Stage3Init.service_running k).
  set (l := ["basic-network"; "syslog"; "display-manager"]).
  set (f1 := Findings.require l p _ _ Findings.empty).
  destruct (require_adds l p
              (fun serviceName => serviceName +:+ ": OK")
              (fun serviceName => serviceName +:+ " no está ejecutándose")
              Findings.empty) as (_ & Hi & Hw).
  fold f1 in Hi, Hw.
  assert (Hno : Findings.no_issues f1 = forallb p l).
  { unfold f1. by rewrite require_no_issues. }
  assert (Hlen : length (Findings.issues f1) <= 3).
  { rewrite Hi. cbn [Findings.empty Findings.issues app].
    rewrite length_map. pose proof (filter_split_length p l) as Hn.
    assert (length l = 3) as E by done. rewrite E in Hn. lia. }
  cbn [fold_left].
  change (Stage3Init.memory_free <? 100 * 1024 * 1024)%Z with false.
  rewrite <- Hno.
  destruct (0 <? length (Stage3Init.userSessions k))%nat;
    destruct (Stage3Init.current_runlevel k =? 5)%Z;
    try destruct (JsObj.has (Stage3Init.services k) "display-manager"
                  && JsObj.has (Stage3Init.services k) "window-manager");
    repeat (rewrite no_issues_check || rewrite no_issues_warning
            || rewrite no_issues_issue);
    rewrite ?andb_true_r, ?andb_false_r;
    cbn [Findings.check Findings.issue Findings.warning
         Findings.checks Findings.issues Findings.warnings];
    rewrite ?Hw, ?length_app; cbn [length app Findings.empty
                                   Findings.warnings];
    (split; [done | split; [done | lia]]).
Qed.

End VerdictFacts.

(* ===================================================================== *)
(** * More on the init system: invariants of the service tables *)
(* ===================================================================== *)

Module Stage3More.

Import Js Stage3Init Stage3Spec Stage3Invariant Stage3Boot JsObjFacts.
#[local] Open Scope list_scope.
#[local] Arguments startService : simpl never.
#[local] Arguments start_error : simpl never.
#[local] Arguments daemon_for : simpl never.

Lemma keys_set_NoDup {A} (o : JsObj.obj A) k v :
  NoDup (JsObj.keys o) -> NoDup (JsObj.keys (JsObj.set o k v)).
Proof.
  induction o as [|[k' v'] o IH]; simpl.
  { intros _. apply NoDup_singleton. }
  intros Hnd. apply NoDup_cons in Hnd as [Hnot Hnd].
  destruct (String.eqb_spec k' k) as [->|Hne]; simpl.
  - by apply NoDup_cons.
  - apply NoDup_cons. split; [|by apply IH].
    intros Hin. apply keys_set in Hin as [Hin|Hin]; [done | congruence].
Qed.

(** What one call of [startService] does to the two tables. *)
Lemma startService_tables now serviceName runlevel k :
  let k' := (startService now serviceName runlevel k).2 in
  services k' = services k
  /\ daemons k' = daemons k
                  ++ option_list (daemon_for now runlevel serviceName)
  /\ current_runlevel k' = current_runlevel k
  /\ userSessions k' = userSessions k
  /\ serviceTable k' = serviceTable k
  /\ startTime k' = startTime k.
Proof.
  unfold startService, daemon_for.
  destruct (JsObj.get serviceTemplates serviceName) as [template|].
  - destruct (includes (runlevels template) runlevel); simpl.
    + destruct (start template) as [startResult|]; simpl.
      * destruct (String.eqb (type_ template) "daemon"); simpl;
          by rewrite ?app_nil_r.
      * destruct (String.eqb (type_ template) "daemon"); simpl;
          by rewrite ?app_nil_r.
    + by rewrite app_nil_r.
  - destruct (inherited serviceName); simpl; by rewrite app_nil_r.
Qed.

(** The loop keeps the table of services well formed: one entry for a
    name, and each stored instance started at a runlevel of its
    template. *)
Lemma start_each_services_ok clock runlevel names : forall i k,
  services_ok k -> services_ok (start_each clock runlevel i names k).1.
Proof.
  induction names as [|s names IH]; intros i k Hok; simpl; [done|].
  destruct (start_error s runlevel) as [e|] eqn:Herr.
  - erewrite Stage3Facts.startService_Throw; [|done].
    specialize (IH (S i) k Hok).
    by destruct (start_each clock runlevel (S i) names k) as [k' lines].
  - destruct (Stage3Facts.startService_Return (clock i) s runlevel k Herr)
      as (tpl & info & k' & Hget & -> & Hrun & _ & Hsv & _).
    apply IH. destruct Hok as [Hnd Hok]. split; simpl.
    + rewrite Hsv. by apply keys_set_NoDup.
    + intros name sv. rewrite Hsv.
      destruct (decide (name = s)) as [->|Hne].
      * rewrite get_set_eq. intros [= <-]. simpl.
        destruct Hrun as (info' & [= <-] & Ht & Hr & Hst & _).
        rewrite Ht, Hr. split; [done|]. split; [|done].
        unfold start_error in Herr. rewrite Hget in Herr.
        by destruct (includes (runlevels tpl) runlevel).
      * rewrite get_set_ne; [|done]. apply Hok.
Qed.

Lemma start_each_frame clock runlevel names : forall i k,
  let k' := (start_each clock runlevel i names k).1 in
  current_runlevel k' = current_runlevel k
  /\ userSessions k' = userSessions k
  /\ serviceTable k' = serviceTable k
  /\ startTime k' = startTime k.
Proof.
  induction names as [|s names IH]; intros i k; simpl; [done|].
  pose proof (startService_tables (clock i) s runlevel k)
    as (_ & _ & H1 & H2 & H3 & H4).
  destruct (startService (clock i) s runlevel k) as [[info|e] k1];
    simpl in *.
  - destruct (IH (S i)
               (with_services (JsObj.set (services k1) s (Instance info))
                              k1)) as (-> & -> & -> & ->).
    done.
  - specialize (IH (S i) k1).
    destruct (start_each clock runlevel (S i) names k1) as [k' lines].
    simpl in *. destruct IH as (-> & -> & -> & ->). done.
Qed.

(** The entries the loop pushes on [this.daemons]: one for each start of
    a daemon that went through, in the order of the batch. *)
Lemma start_each_daemons clock runlevel names : forall i k,
  daemons (start_each clock runlevel i names k).1
  = daemons k
    ++ omap id (imap (fun j serviceName =>
                        daemon_for (clock (i + j)) runlevel serviceName)
                     names).
Proof.
  induction names as [|s names IH]; intros i k; simpl.
  { by rewrite app_nil_r. }
  pose proof (startService_tables (clock i) s runlevel k)
    as (_ & Hd & _).
  rewrite Nat.add_0_r.
  assert (Hext : imap ((fun j serviceName =>
                          daemon_for (clock (i + j)) runlevel serviceName)
                       ∘ S) names
                 = imap (fun j serviceName =>
                           daemon_for (clock (S i + j)) runlevel serviceName)
                        names).
  { apply imap_ext. intros j x _. simpl. by rewrite Nat.add_succ_r. }
  rewrite Hext.
  destruct (startService (clock i) s runlevel k) as [[info|e] k1];
    simpl in *.
  - rewrite IH. simpl. rewrite Hd.
    destruct (daemon_for (clock i) runlevel s); simpl;
      by rewrite <- ?app_assoc, ?app_nil_r.
  - specialize (IH (S i) k1).
    destruct (start_each clock runlevel (S i) names k1) as [k' lines].
    simpl in *. rewrite IH, Hd.
    destruct (daemon_for (clock i) runlevel s); simpl;
      by rewrite <- ?app_assoc, ?app_nil_r.
Qed.

(** X5: [enterRunlevel] keeps the table of services well formed (the
    invariant of the init system): a name has one entry, and every
    instance it stores belongs to the template of its name, is running,
    and was started at a runlevel that template declares. *)
Theorem enterRunlevel_keeps_services_ok
    (clock : nat -> Z) (n : Z) (k : Stage3Init.t) :
  services_ok k ->
  services_ok (enterRunlevel clock n k).1.2.
Proof.
  intros Hok. unfold enterRunlevel.
  destruct (serviceTable k) as [tbl|]; [|done].
  pose proof (start_each_services_ok clock n (default [] (tbl !! n)) 0 k Hok).
  by destruct (start_each _ _ _ _ _).
Qed.

Lemma enterRunlevel_keeps_services_ok_witness :
  services_ok
    (enterRunlevel (fun _ => 5000%Z) 2
       (with_serviceTable default_serviceTable Stage3Init.new)).1.2.
Proof.
  apply enterRunlevel_keeps_services_ok.
  split; [apply NoDup_nil_2 | intros name s H; discriminate H].
Defined.

(** X6: The daemon list after [enterRunlevel(n)]: the list from before,
    followed by one entry for each listed service that is a daemon and
    whose start went through, in the order of the batch, stamped with the
    reading taken for it.  Nothing is removed or replaced: a daemon that is
    started again is listed again. *)
Theorem enterRunlevel_daemons
    (clock : nat -> Z) (n : Z) (k : Stage3Init.t) (tbl : gmap Z (list string)) :
  serviceTable k = Some tbl ->
  daemons (enterRunlevel clock n k).1.2
  = daemons k
    ++ omap id (imap (fun j serviceName =>
                        daemon_for (clock j) n serviceName)
                     (default [] (tbl !! n))).
Proof.
  intros Htbl. unfold enterRunlevel. rewrite Htbl.
  pose proof (start_each_daemons clock n (default [] (tbl !! n)) 0 k) as H.
  by destruct (start_each _ _ _ _ _).
Qed.

Lemma enterRunlevel_daemons_witness :
  let k := with_serviceTable {[ 2%Z := ["cron"; "basic-network"; "cron"] ]}
             Stage3Init.new in
  let after := (enterRunlevel (fun j => 5000 + Z.of_nat j)%Z 2 k).1.2 in
  (daemon_name <$> daemons after = ["cron"; "cron"]
   /\ since <$> daemons after = [5000; 5002]%Z)
  /\ JsObj.keys (services after) = ["cron"; "basic-network"].
Proof.
  split; [|vm_compute; reflexivity].
  rewrite (enterRunlevel_daemons (fun j => 5000 + Z.of_nat j)%Z 2 _
             {[ 2%Z := ["cron"; "basic-network"; "cron"] ]}).
  - split; vm_compute; reflexivity.
  - reflexivity.
Defined.

Lemma default_last_cons (a b z : Z) (l : list Z) :
  default a (last (z :: l)) = default b (last (z :: l)).
Proof.
  revert z. induction l as [|y l IH]; intros z; [done|].
  change (last (z :: y :: l)) with (last (y :: l)). apply IH.
Qed.

(** The loop over the runlevels, once the service table is there. *)
Lemma enter_each_outcome clock levels : forall (c : Stage3Init.t) tbl,
  serviceTable c = Some tbl ->
  exists c' lines,
    enter_each clock levels c = (Return tt, c', lines)
    /\ serviceTable c' = Some tbl
    /\ userSessions c' = userSessions c
    /\ current_runlevel c' = default (current_runlevel c) (last levels)
    /\ (services_ok c -> services_ok c').
Proof.
  induction levels as [|rl levels IH]; intros c tbl Htbl; simpl.
  { by exists c, []. }
  set (c1 := {| current_runlevel := rl; services := services c;
                daemons := daemons c; userSessions := userSessions c;
                serviceTable := serviceTable c;
                startTime := startTime c |}).
  assert (Htbl1 : serviceTable c1 = Some tbl) by done.
  rewrite (Stage3Facts.enterRunlevel_unfold (clock rl) rl c1 tbl Htbl1).
  pose proof (start_each_frame (clock rl) rl (default [] (tbl !! rl)) 0 c1)
    as (Hrl & Hus & Hst & _).
  pose proof (start_each_services_ok (clock rl) rl
                (default [] (tbl !! rl)) 0 c1) as Hok.
  set (c2 := (start_each (clock rl) rl 0 (default [] (tbl !! rl)) c1).1) in *.
  destruct (IH c2 tbl) as (c' & lines & -> & Ht & Hu & Hr & Hk).
  { by rewrite Hst. }
  eexists _, _. split; [reflexivity|].
  split; [done|]. split; [by rewrite Hu, Hus|]. split.
  - rewrite Hr, Hrl. destruct levels as [|z levels]; [done|].
    exact (default_last_cons _ _ z levels).
  - intros H. apply Hk, Hok. exact H.
Qed.


(** Stage 3 goes through in every browser, whatever the clock and the
    random numbers give: [execute()] on a new [Stage3Init] returns the
    success result in runlevel 5 with 15 services, 7 daemons and one user
    session; the system is ready without issue or warning; the only
    errors written are those of the four services of runlevel 3, which
    have no template. *)
Example new_init_system_goes_through (r : Readings) :
  exists status,
    (execute r Stage3Boot.new).1.1 = Success 5 15 7 1 status
    /\ ready status = true
    /\ Stage3Init.issues status = []
    /\ Stage3Init.warnings status = []
    /\ servicesRunning status = 15
    /\ systemReady (execute r Stage3Boot.new).1.2 = true
    /\ JsObj.keys (services (core (execute r Stage3Boot.new).1.2))
       = [ "emergency-shell"; "basic-network"; "minimal-fs"; "cron";
           "syslog"; "dbus"; "network-manager"; "display-manager";
           "desktop-environment"; "window-manager"; "udev"; "random";
           "sysctl"; "hostname"; "modules" ]
    /\ daemon_name <$> daemons (core (execute r Stage3Boot.new).1.2)
       = [ "emergency-shell"; "cron"; "syslog"; "dbus"; "network-manager";
           "display-manager"; "window-manager" ]
    /\ snd <$> (execute r Stage3Boot.new).2
       = [ "Servicio no encontrado: ssh";
           "Servicio no encontrado: web-server";
           "Servicio no encontrado: database";
           "Servicio no encontrado: print-spooler" ].
Proof.
  let v := eval vm_compute in (execute r Stage3Boot.new) in
  assert (Hrun : execute r Stage3Boot.new = v)
    by (vm_compute; reflexivity).
  rewrite Hrun. eexists. repeat split; reflexivity.
Qed.

(** ** The whole stage, from any state *)

Lemma service_running_set (k : Stage3Init.t) n s v :
  service_running (with_services (JsObj.set (services k) s v) k) n
  = if decide (n = s) then is_running v else service_running k n.
Proof.
  unfold service_running. simpl. destruct (decide (n = s)) as [->|Hne].
  - by rewrite get_set_eq.
  - by rewrite get_set_ne.
Qed.

(** A service that is running stays so through the loop, and a service of
    the batch that passes the checks is running after it. *)
Lemma start_each_running clock runlevel n names : forall i k,
  (n ∈ names /\ start_error n runlevel = None)
  \/ service_running k n = true ->
  service_running (start_each clock runlevel i names k).1 n = true.
Proof.
  induction names as [|s names IH]; intros i k Hcase; simpl.
  { destruct Hcase as [[Hin _]|H]; [|done]. by apply not_elem_of_nil in Hin. }
  destruct (start_error s runlevel) as [e|] eqn:Herr.
  - erewrite Stage3Facts.startService_Throw; [|done].
    specialize (IH (S i) k).
    destruct (start_each clock runlevel (S i) names k) as [k' lines].
    simpl in IH |- *. apply IH.
    destruct Hcase as [[Hin Hn]|H]; [|by right].
    apply elem_of_cons in Hin as [->|Hin]; [congruence | by left].
  - destruct (Stage3Facts.startService_Return (clock i) s runlevel k Herr)
      as (tpl & info & k' & _ & -> & Hrun & _ & Hsv & _).
    apply IH. rewrite service_running_set.
    destruct (decide (n = s)) as [->|Hne].
    + right. destruct Hrun as (info' & [= <-] & _ & _ & Hst & _).
      unfold is_running. simpl. by rewrite Hst.
    + destruct Hcase as [[Hin Hn]|H].
      * apply elem_of_cons in Hin as [?|Hin]; [done | by left].
      * right. unfold service_running in H |- *. by rewrite Hsv.
Qed.

(** The same through the runlevels. *)
Lemma enter_each_running clock n levels : forall (c : Stage3Init.t) tbl,
  serviceTable c = Some tbl ->
  (exists rl names, rl ∈ levels /\ tbl !! rl = Some names
                    /\ n ∈ names /\ start_error n rl = None)
  \/ service_running c n = true ->
  service_running (enter_each clock levels c).1.2 n = true.
Proof.
  induction levels as [|rl levels IH]; intros c tbl Htbl Hcase.
  { destruct Hcase as [(rl & names & Hin & _)|H]; [|done].
    by apply not_elem_of_nil in Hin. }
  cbn [enter_each].
  set (c1 := {| current_runlevel := rl; services := services c;
                daemons := daemons c; userSessions := userSessions c;
                serviceTable := serviceTable c;
                startTime := startTime c |}).
  assert (Htbl1 : serviceTable c1 = Some tbl) by done.
  rewrite (Stage3Facts.enterRunlevel_unfold (clock rl) rl c1 tbl Htbl1).
  pose proof (start_each_frame (clock rl) rl (default [] (tbl !! rl)) 0 c1)
    as (_ & _ & Hst & _).
  pose proof (start_each_running (clock rl) rl n
                (default [] (tbl !! rl)) 0 c1) as Hrun.
  set (c2 := (start_each (clock rl) rl 0 (default [] (tbl !! rl)) c1).1) in *.
  specialize (IH c2 tbl).
  destruct (enter_each clock levels c2) as [[res c3] lines'].
  cbn [fst snd] in IH |- *. apply IH; [by rewrite Hst|].
  destruct Hcase as [(rl' & names & Hin & Hnames & Hn & Herr)|H].
  - apply elem_of_cons in Hin as [->|Hin].
    + right. apply Hrun. left. by rewrite Hnames.
    + left. by exists rl', names.
  - right. apply Hrun. by right.
Qed.

(** What the runlevels add to the daemon list and write to the console
    does not depend on the state they start from. *)
Lemma enter_each_output clock levels : forall (c : Stage3Init.t) tbl,
  serviceTable c = Some tbl ->
  daemons (enter_each clock levels c).1.2
  = daemons c
    ++ mjoin ((fun rl =>
                 omap id (imap (fun j serviceName =>
                                  daemon_for (clock rl j) rl serviceName)
                               (default [] (tbl !! rl)))) <$> levels)
  /\ (enter_each clock levels c).2
     = mjoin ((fun rl =>
                 omap (fun serviceName =>
                         error_line serviceName
                           <$> start_error serviceName rl)
                      (default [] (tbl !! rl))) <$> levels).
Proof.
  induction levels as [|rl levels IH]; intros c tbl Htbl.
  { simpl. by rewrite app_nil_r. }
  cbn [enter_each].
  set (c1 := {| current_runlevel := rl; services := services c;
                daemons := daemons c; userSessions := userSessions c;
                serviceTable := serviceTable c;
                startTime := startTime c |}).
  assert (Htbl1 : serviceTable c1 = Some tbl) by done.
  rewrite (Stage3Facts.enterRunlevel_unfold (clock rl) rl c1 tbl Htbl1).
  pose proof (start_each_frame (clock rl) rl (default [] (tbl !! rl)) 0 c1)
    as (_ & _ & Hst & _).
  pose proof (start_each_daemons (clock rl) rl (default [] (tbl !! rl)) 0 c1)
    as Hd.
  pose proof (Stage3Facts.start_each_lines (clock rl) rl
                (default [] (tbl !! rl)) 0 c1) as Hl.
  set (c2 := (start_each (clock rl) rl 0 (default [] (tbl !! rl)) c1).1) in *.
  destruct (IH c2 tbl) as [IHd IHl]; [by rewrite Hst|].
  destruct (enter_each clock levels c2) as [[res c3] lines'].
  cbn [fst snd] in IHd, IHl |- *.
  rewrite IHd, IHl, Hd, Hl. rewrite fmap_cons. cbn [mjoin list_join].
  by rewrite app_assoc.
Qed.

(** The loop of [startSystemServices] starts what it is given and stops
    nothing. *)
Lemma start_system_each_running clock pids n names : forall i c,
  n ∈ names \/ service_running c n = true ->
  service_running (start_system_each clock pids i names c) n = true.
Proof.
  induction names as [|s names IH]; intros i c Hcase; simpl.
  { destruct Hcase as [Hin|H]; [|done]. by apply not_elem_of_nil in Hin. }
  apply IH. rewrite service_running_set.
  destruct (decide (n = s)) as [->|Hne]; [by right|].
  destruct Hcase as [Hin|H]; [|by right].
  apply elem_of_cons in Hin as [?|Hin]; [done | by left].
Qed.

Lemma start_system_each_frame clock pids names : forall i c,
  let c' := start_system_each clock pids i names c in
  current_runlevel c' = current_runlevel c
  /\ daemons c' = daemons c
  /\ userSessions c' = userSessions c.
Proof.
  induction names as [|s names IH]; intros i c; simpl; [done|].
  destruct (IH (S i) (with_services
                        (JsObj.set (services c) s
                           (SystemService s "running" (clock i) (pids i)))
                        c)) as (-> & -> & ->).
  done.
Qed.

Lemma service_running_has (c : Stage3Init.t) n :
  service_running c n = true -> JsObj.has (services c) n = true.
Proof.
  unfold service_running, JsObj.has.
  by destruct (JsObj.get (services c) n).
Qed.

(** The status check finds nothing once the three critical services and
    the two graphical ones are running and a user is logged in. *)
Lemma status_findings_clean (c : Stage3Init.t) :
  Forall (fun n => service_running c n = true)
         ["basic-network"; "syslog"; "display-manager"; "window-manager"] ->
  (0 < length (userSessions c))%nat ->
  Findings.issues (status_findings c) = []
  /\ Findings.warnings (status_findings c) = [].
Proof.
  intros Hrun Hses.
  apply Forall_cons in Hrun as [H1 Hrun].
  apply Forall_cons in Hrun as [H2 Hrun].
  apply Forall_cons in Hrun as [H3 Hrun].
  apply Forall_cons in Hrun as [H4 _].
  unfold status_findings, Findings.require. cbn [fold_left].
  rewrite H1, H2, H3.
  rewrite (service_running_has c _ H3), (service_running_has c _ H4).
  apply Nat.ltb_lt in Hses. rewrite Hses.
  change (memory_free <? 100 * 1024 * 1024)%Z with false.
  by destruct (current_runlevel c =? 5)%Z.
Qed.

(** X8: Stage 3 cannot fail.  In a browser, whatever state the object is in
    and whatever the clock and the random numbers give, [execute()]
    returns the success result: it installs the service table again, goes
    through the five runlevels and ends in runlevel 5; the ten services
    that have a template and the five system services are running; the
    daemon list has grown by seven entries and the user sessions by one;
    the status has no issue and no warning; and the four services of
    runlevel 3, which have no template, are the only errors written. *)
Theorem stage3_always_goes_through (r : Readings) (k : Stage3Boot.t) :
  let after := (execute r k).1.2 in
  exists status,
    (execute r k).1.1
    = Success 5 (length (JsObj.keys (services (core after))))
              (length (daemons (core k)) + 7)
              (length (userSessions (core k)) + 1) status
    /\ ready status = true
    /\ Stage3Init.issues status = []
    /\ Stage3Init.warnings status = []
    /\ st_runlevel status = 5%Z
    /\ systemReady after = true
    /\ Forall (fun n => service_running (core after) n = true)
         [ "emergency-shell"; "basic-network"; "minimal-fs"; "cron";
           "syslog"; "dbus"; "network-manager"; "display-manager";
           "desktop-environment"; "window-manager"; "udev"; "random";
           "sysctl"; "hostname"; "modules" ]
    /\ snd <$> (execute r k).2
       = [ "Servicio no encontrado: ssh";
           "Servicio no encontrado: web-server";
           "Servicio no encontrado: database";
           "Servicio no encontrado: print-spooler" ].
Proof.
  set (c0 := initInitSystem (core k)).
  assert (Htbl : serviceTable c0 = Some default_serviceTable) by done.
  destruct (enter_each_outcome (service_clock r) [1; 2; 3; 4; 5]%Z c0
              default_serviceTable Htbl)
    as (c1 & lines & Hrun & _ & Hus & Hrl & _).
  change (default (current_runlevel c0) (last [1; 2; 3; 4; 5]%Z))
    with 5%Z in Hrl.
  destruct (enter_each_output (service_clock r) [1; 2; 3; 4; 5]%Z c0
              default_serviceTable Htbl) as [Hd Hl].
  rewrite Hrun in Hd, Hl. cbn [fst snd] in Hd, Hl.
  assert (Hstarted : forall n,
            n ∈ [ "emergency-shell"; "basic-network"; "minimal-fs"; "cron";
                  "syslog"; "dbus"; "network-manager"; "display-manager";
                  "desktop-environment"; "window-manager" ] ->
            service_running c1 n = true).
  { intros n Hn.
    pose proof (enter_each_running (service_clock r) n [1; 2; 3; 4; 5]%Z
                  c0 default_serviceTable Htbl) as H.
    rewrite Hrun in H. apply H. left.
    repeat (apply elem_of_cons in Hn as [->|Hn]).
    11: destruct (not_elem_of_nil n Hn).
    8-10: exists 5%Z, ["display-manager"; "desktop-environment";
                       "window-manager"].
    4-7: exists 2%Z, ["cron"; "syslog"; "dbus"; "network-manager"].
    1-3: exists 1%Z, ["emergency-shell"; "basic-network"; "minimal-fs"].
    all: split; [by_evaluation|]; split; [vm_compute; reflexivity|];
      split; [by_evaluation | vm_compute; reflexivity]. }
  set (c2 := startSystemServices (system_clock r) (system_pid r) c1).
  pose proof (start_system_each_frame (system_clock r) (system_pid r)
                ["udev"; "random"; "sysctl"; "hostname"; "modules"] 0 c1)
    as (Hrl2 & Hd2 & Hus2).
  fold (startSystemServices (system_clock r) (system_pid r) c1) in Hrl2, Hd2, Hus2.
  fold c2 in Hrl2, Hd2, Hus2.
  set (c3 := startUserSessions (login_time r) c2).
  assert (Hall : Forall (fun n => service_running c3 n = true)
            [ "emergency-shell"; "basic-network"; "minimal-fs"; "cron";
              "syslog"; "dbus"; "network-manager"; "display-manager";
              "desktop-environment"; "window-manager"; "udev"; "random";
              "sysctl"; "hostname"; "modules" ]).
  { apply Forall_forall. intros n Hn.
    change (service_running c3 n) with (service_running c2 n).
    apply start_system_each_running.
    destruct (decide (n ∈ ["udev"; "random"; "sysctl"; "hostname";
                           "modules"])) as [Hs|Hs]; [by left|].
    right. apply Hstarted.
    repeat (apply elem_of_cons in Hn as [->|Hn]);
      try (by_evaluation); try (exfalso; apply Hs; by_evaluation).
    destruct (not_elem_of_nil n Hn). }
  assert (Hses : (0 < length (userSessions c3))%nat).
  { unfold c3, startUserSessions. cbn [userSessions].
    rewrite length_app. simpl. lia. }
  destruct (status_findings_clean c3) as [Hi Hw]; [|done|].
  { rewrite Forall_forall in Hall |- *. intros n Hn. apply Hall.
    repeat (apply elem_of_cons in Hn as [->|Hn]); try by_evaluation.
    destruct (not_elem_of_nil n Hn). }
  assert (Hexec : execute r k
            = (Success 5 (length (JsObj.keys (services c3)))
                 (length (daemons c3)) (length (userSessions c3))
                 (checkSystemStatus (uptime_now r) (stamp_now r) c3).1,
               {| core := c3; systemReady := true;
                  startupScripts := ["/etc/rc.local"; "/etc/profile";
                                     "/etc/bash.bashrc";
                                     "/etc/environment"] |},
               lines)).
  { unfold execute, executeRunlevels. fold c0. rewrite Hrun.
    unfold launchGraphicalEnvironment, runStartupScripts, with_core.
    cbn [core systemReady startupScripts].
    fold c2. fold c3.
    assert (Hrl3 : current_runlevel c3 = 5%Z)
      by (change (current_runlevel c3) with (current_runlevel c2);
          by rewrite Hrl2).
    rewrite Hrl3. cbn [Z.eqb Pos.eqb negb core systemReady startupScripts].
    unfold checkSystemStatus. cbn [ready issues]. unfold Findings.no_issues.
    rewrite Hi. cbn [negb core systemReady startupScripts].
    by rewrite Hrl3. }
  rewrite Hexec. cbn [fst snd core systemReady].
  eexists. split.
  { f_equal.
    - change (daemons c3) with (daemons c2). rewrite Hd2, Hd.
      rewrite length_app. f_equal.
    - unfold c3, startUserSessions. cbn [userSessions].
      rewrite length_app, Hus2, Hus. reflexivity. }
  unfold checkSystemStatus.
  cbn [fst ready Stage3Init.issues Stage3Init.warnings st_runlevel].
  unfold Findings.no_issues. rewrite Hi, Hw.
  split; [reflexivity|]. split; [reflexivity|]. split; [reflexivity|].
  split.
  { change (current_runlevel c3) with (current_runlevel c2).
    rewrite Hrl2. exact Hrl. }
  split; [reflexivity|]. split; [exact Hall|].
  rewrite Hl. vm_compute. reflexivity.
Qed.

End Stage3More.

(* ===================================================================== *)
(** * More on the kernel loader: what loading guarantees *)
(* ===================================================================== *)

Module Stage2More.

Import Js Stage2KernelLoader Stage2Spec Stage2Invariant JsObjFacts.
#[local] Open Scope list_scope.

Lemma elem_of_set {A} (o : JsObj.obj A) k v n x :
  (n, x) ∈ JsObj.set o k v -> (n, x) ∈ o \/ (n = k /\ x = v).
Proof.
  induction o as [|[k' v'] o IH]; simpl.
  { intros H. apply list_elem_of_singleton in H as [= -> ->]. by right. }
  destruct (String.eqb_spec k' k) as [->|Hne]; intros H;
    apply elem_of_cons in H as [[= -> ->]|H].
  - by right.
  - left. by right.
  - left. by left.
  - destruct (IH H) as [Hin|Heq]; [left; by right | by right].
Qed.

Lemma has_set {A} (o : JsObj.obj A) k v d :
  JsObj.has o d = true -> JsObj.has (JsObj.set o k v) d = true.
Proof.
  unfold JsObj.has. destruct (decide (d = k)) as [->|Hne].
  - by rewrite get_set_eq.
  - by rewrite get_set_ne.
Qed.

Lemma has_set_eq {A} (o : JsObj.obj A) k v :
  JsObj.has (JsObj.set o k v) k = true.
Proof. unfold JsObj.has. by rewrite get_set_eq. Qed.

(** One more stored module keeps the dependencies closed when its own are
    loaded. *)
Lemma deps_closed_assign (k : t) moduleName module :
  deps_closed k ->
  (forall dep, dep ∈ inst_dependencies module ->
               JsObj.has (modules k) dep = true) ->
  deps_closed
    (with_modules (JsObj.assign (modules k) moduleName module) k).
Proof.
  intros Hk Hm n m dep. unfold JsObj.assign. simpl.
  destruct (String.eqb moduleName "__proto__"); [apply Hk|].
  intros Hin Hdep. apply has_set.
  apply elem_of_set in Hin as [Hin|[_ ->]]; [by eapply Hk | by apply Hm].
Qed.

Lemma instantiate_dependencies tpl moduleDef :
  inst_dependencies (instantiate tpl moduleDef) = dependencies moduleDef.
Proof.
  destruct tpl as [tpl|]; simpl; [|done]. by destruct (initialize tpl).
Qed.

Lemma loadModule_instance moduleDef k module :
  (loadModule moduleDef k).1 = Return module ->
  exists tpl, lookup_template (name moduleDef) = Some tpl
              /\ module = instantiate tpl moduleDef.
Proof.
  unfold loadModule.
  destruct (lookup_template _) as [tpl|]; [|done].
  destruct (List.find _ _); [done|]. simpl. intros [= <-]. by exists tpl.
Qed.

Lemma registerExports_deps_closed moduleDef k :
  deps_closed k -> deps_closed (registerExports moduleDef k).
Proof.
  unfold deps_closed. by rewrite Stage2Facts.registerExports_modules.
Qed.

Lemma load_each_deps_closed l : forall k,
  deps_closed k -> deps_closed (load_each l k).2.
Proof.
  induction l as [|m l IH]; intros k Hk; simpl; [done|].
  pose proof (Stage2Facts.loadModule_state m k) as Hst.
  pose proof (Stage2Facts.loadModule_Return m k) as Hdeps.
  pose proof (loadModule_instance m k) as Hinst.
  destruct (loadModule m k) as [[module|e] k1]; simpl in Hst; subst k1;
    [|done].
  apply IH, registerExports_deps_closed, deps_closed_assign; [done|].
  destruct (Hinst module eq_refl) as (tpl & _ & ->).
  rewrite instantiate_dependencies. by apply (Hdeps (instantiate tpl m)).
Qed.

Lemma check_dependencies_closed (k : t) entries :
  (forall moduleName module dep,
     (moduleName, module) ∈ entries -> dep ∈ inst_dependencies module ->
     JsObj.has (modules k) dep = true) ->
  check_dependencies entries k = Return tt.
Proof.
  induction entries as [|[n m] entries IH]; intros H; simpl; [done|].
  destruct (List.find _ _) as [dep|] eqn:Hfind.
  - apply List.find_some in Hfind as [Hin Hneg].
    apply list_elem_of_In in Hin.
    rewrite (H n m dep) in Hneg; [done | by left | done].
  - apply IH. intros n' m' dep Hin. apply (H n' m' dep). by right.
Qed.

(** X11: Loading keeps the dependencies of the stored modules closed, so that
    the second check of the dependencies, the one [resolveSymbols] makes,
    cannot fail on what [loadEssentialModules] left behind: it returns
    (whether the loading went through or stopped at a module), having
    put the functions of the stored modules into the symbol table. *)
Theorem loading_keeps_dependencies_closed
    (defs : list ModuleDefinition) (rnd : nat -> string) (k : t) :
  deps_closed k ->
  let k' := (loadEssentialModulesFrom defs k).2 in
  deps_closed k'
  /\ resolveSymbols rnd k'
     = (Return (global_symbols rnd (modules k') ∪ symbols k'),
        with_symbols (global_symbols rnd (modules k') ∪ symbols k') k').
Proof.
  intros Hk.
  assert (Hk' : deps_closed (loadEssentialModulesFrom defs k).2).
  { unfold loadEssentialModulesFrom.
    pose proof (load_each_deps_closed (sort_by_priority defs) k Hk) as H.
    by destruct (load_each (sort_by_priority defs) k) as [[[]|e] k1]. }
  split; [exact Hk'|].
  unfold resolveSymbols. by rewrite check_dependencies_closed.
Qed.

Lemma loading_keeps_dependencies_closed_witness :
  let k' := (loadEssentialModulesFrom
               [entry "scheduler"; network_stack;
                entry "memory-manager"; entry "process-manager"] new).2 in
  JsObj.keys (modules k')
  = ["scheduler"; "memory-manager"; "process-manager"]
  /\ deps_closed k'
  /\ succeeded (resolveSymbols (fun _ => "0x00000000") k').1 = true.
Proof.
  split; [vm_compute; reflexivity|].
  destruct (loading_keeps_dependencies_closed
              [entry "scheduler"; network_stack;
               entry "memory-manager"; entry "process-manager"]
              (fun _ => "0x00000000") new) as [Hc Hr].
  - intros n m dep Hin. by apply not_elem_of_nil in Hin.
  - split; [exact Hc|]. by rewrite Hr.
Defined.

Lemma loadEssentialModulesFrom_state defs k :
  (loadEssentialModulesFrom defs k).2 = (load_each (sort_by_priority defs) k).2.
Proof.
  unfold loadEssentialModulesFrom.
  by destruct (load_each (sort_by_priority defs) k) as [[[]|e] k1].
Qed.

Lemma load_each_modules l : forall k n,
  JsObj.get (modules (load_each l k).2) n = JsObj.get (modules k) n
  \/ exists module,
       JsObj.get (modules (load_each l k).2) n = Some module
       /\ built_from l n module.
Proof.
  induction l as [|m l IH]; intros k n; simpl; [by left|].
  pose proof (Stage2Facts.loadModule_state m k) as Hst.
  pose proof (loadModule_instance m k) as Hinst.
  destruct (loadModule m k) as [[module|e] k1]; simpl in Hst; subst k1;
    [|by left].
  destruct (Hinst module eq_refl) as (tpl & Htpl & ->).
  set (k1 := registerExports m _).
  assert (Hk1 : modules k1 = JsObj.assign (modules k) (name m)
                               (instantiate tpl m))
    by apply Stage2Facts.registerExports_modules.
  destruct (IH k1 n) as [Hsame|(module & Hget & d & tpl' & Hd & Hn & Ht & ->)].
  - rewrite Hsame, Hk1. unfold JsObj.assign.
    destruct (String.eqb (name m) "__proto__"); [by left|].
    destruct (decide (n = name m)) as [->|Hne].
    + right. rewrite get_set_eq. eexists. split; [done|].
      exists m, tpl. split; [by left | done].
    + left. by rewrite get_set_ne.
  - right. exists (instantiate tpl' d). split; [done|].
    exists d, tpl'. split; [by right | done].
Qed.

(** X12: What loading can store.  Whatever the list of definitions, a module
    found under a name after [loadEssentialModules] is the one that was
    there before, or the instance [loadModule] builds from a definition
    of that name and the template of that name.  A name without template
    is never stored under; so no list makes the loader store a module
    under [process_manager] or [memory_manager], the names (with an
    underscore) that [initProcessManagement] and [initMemoryManagement]
    ask for. *)
Theorem loaded_modules_come_from_templates
    (defs : list ModuleDefinition) (k : t) :
  let k' := (loadEssentialModulesFrom defs k).2 in
  (forall n,
     JsObj.get (modules k') n = JsObj.get (modules k) n
     \/ exists module,
          JsObj.get (modules k') n = Some module
          /\ built_from defs n module)
  /\ (forall n, lookup_template n = None ->
                JsObj.get (modules k') n = JsObj.get (modules k) n)
  /\ JsObj.get (modules k') "process_manager"
     = JsObj.get (modules k) "process_manager"
  /\ JsObj.get (modules k') "memory_manager"
     = JsObj.get (modules k) "memory_manager".
Proof.
  cbv zeta. rewrite loadEssentialModulesFrom_state.
  assert (Hall : forall n,
            JsObj.get (modules (load_each (sort_by_priority defs) k).2) n
            = JsObj.get (modules k) n
            \/ exists module,
                 JsObj.get (modules (load_each (sort_by_priority defs) k).2)
                           n = Some module
                 /\ built_from defs n module).
  { intros n.
    destruct (load_each_modules (sort_by_priority defs) k n)
      as [H|(module & Hget & d & tpl & Hd & Hrest)]; [by left|].
    right. exists module. split; [done|]. exists d, tpl.
    split; [|done]. by rewrite <- (Stage2Facts.sort_by_priority_perm defs). }
  assert (Hnone : forall n, lookup_template n = None ->
            JsObj.get (modules (load_each (sort_by_priority defs) k).2) n
            = JsObj.get (modules k) n).
  { intros n Hn.
    destruct (Hall n) as [H|(module & _ & d & tpl & _ & _ & Ht & _)];
      [done | congruence]. }
  split; [exact Hall|]. split; [exact Hnone|].
  split; apply Hnone; vm_compute; reflexivity.
Qed.

(** ** The addresses of the exported symbols *)

#[local] Abbreviation step n :=
  (fun k exportName =>
     with_symbols
       (sym_assign (symbols k) exportName
          {| sym_module := n;
             address := "kernel+0x" +:+
                        toString16 (kernelBase k
                                    + N.of_nat (size (symbols k)) * 8);
             sym_type := None |})
       k).

Lemma sym_assign_insert (s : gmap string Symbol) e v :
  e <> "__proto__" -> sym_assign s e v = <[e := v]> s.
Proof.
  intros Hne. unfold sym_assign.
  by destruct (String.eqb_spec e "__proto__").
Qed.

Lemma register_other n l : forall k e,
  e ∉ l -> symbols (fold_left (step n) l k) !! e = symbols k !! e.
Proof.
  induction l as [|x l IH]; intros k e Hnot; simpl; [done|].
  apply not_elem_of_cons in Hnot as [Hne Hnot].
  rewrite IH; [|done]. simpl. by apply Stage2Facts.sym_assign_other.
Qed.

Lemma register_kernelBase n l : forall k,
  kernelBase (fold_left (step n) l k) = kernelBase k.
Proof.
  induction l as [|x l IH]; intros k; simpl; [done|]. by rewrite IH.
Qed.

Lemma register_present n l : forall k e,
  e <> "__proto__" ->
  e ∈ l \/ is_Some (symbols k !! e) ->
  is_Some (symbols (fold_left (step n) l k) !! e).
Proof.
  induction l as [|x l IH]; intros k e Hne Hcase; simpl.
  { destruct Hcase as [Hin|H]; [|done]. by apply not_elem_of_nil in Hin. }
  apply IH; [done|]. simpl.
  destruct (decide (e = x)) as [<-|Hx].
  - right. by rewrite Stage2Facts.sym_assign_same.
  - destruct Hcase as [Hin|H].
    + apply elem_of_cons in Hin as [?|Hin]; [done | by left].
    + right. by rewrite Stage2Facts.sym_assign_other.
Qed.




(** X14: The addresses are not unique.  The address of a symbol is computed
    from the size of the table, and registering a name that is in the
    table already does not change the size; so when a module exports such
    a name, the export that follows it gets the same address (whether it
    is new or not), and the two names end up with the same entry. *)
Theorem reexport_shares_address
    (moduleDef : ModuleDefinition) (k : t)
    (pre post : list string) (e1 e2 : string) :
  exports moduleDef = pre ++ e1 :: e2 :: post ->
  e1 ∈ pre \/ is_Some (symbols k !! e1) ->
  e1 <> "__proto__" -> e2 <> "__proto__" ->
  e1 <> e2 -> e1 ∉ post -> e2 ∉ post ->
  let k' := registerExports moduleDef k in
  exists entry,
    symbols k' !! e1 = Some entry /\ symbols k' !! e2 = Some entry
    /\ sym_module entry = name moduleDef.
Proof.
  intros Hexp Hpresent Hp1 Hp2 Hne H1 H2. cbv zeta.
  unfold registerExports. rewrite Hexp, fold_left_app. cbn [fold_left].
  set (kp := fold_left (step (name moduleDef)) pre k).
  pose proof (register_present (name moduleDef) pre k e1 Hp1 Hpresent)
    as Hin.
  fold kp in Hin.
  set (entry1 := {| sym_module := name moduleDef;
                    address := "kernel+0x" +:+
                               toString16 (kernelBase kp
                                           + N.of_nat (size (symbols kp)) * 8);
                    sym_type := None |}).
  set (k1 := with_symbols (sym_assign (symbols kp) e1 entry1) kp).
  assert (Hs1 : symbols k1 = <[e1 := entry1]> (symbols kp))
    by (by apply sym_assign_insert).
  assert (Hsize : size (symbols k1) = size (symbols kp))
    by (rewrite Hs1; by apply map_size_insert_Some).
  set (k2 := with_symbols (sym_assign (symbols k1) e2 _) k1).
  assert (Hs2 : symbols k2 = <[e2 := entry1]> (symbols k1)).
  { unfold k2, with_symbols at 1. cbn [symbols].
    rewrite sym_assign_insert; [|done]. rewrite Hsize. reflexivity. }
  exists entry1.
  rewrite !register_other by done.
  rewrite Hs2, Hs1. split; [|split; [|done]].
  - rewrite lookup_insert_ne; [|done]. by rewrite lookup_insert_eq.
  - by rewrite lookup_insert_eq.
Qed.

Lemma reexport_shares_address_witness :
  let k' := registerExports (entry "process-manager") two_loaded in
  exists entry,
    symbols k' !! "createProcess" = Some entry
    /\ symbols k' !! "terminateProcess" = Some entry
    /\ sym_module entry = "process-manager".
Proof.
  apply (reexport_shares_address (entry "process-manager") two_loaded []
           ["getProcessById"; "getAllProcesses"; "sendSignal"]
           "createProcess" "terminateProcess").
  - reflexivity.
  - right. by_evaluation.
  - by_evaluation.
  - by_evaluation.
  - by_evaluation.
  - by_evaluation.
  - by_evaluation.
Defined.

(** ** What a load that went through has stored *)

Lemma loadModule_ok moduleDef k tpl :
  lookup_template (name moduleDef) = Some tpl ->
  (forall dep, dep ∈ dependencies moduleDef ->
               JsObj.has (modules k) dep = true) ->
  loadModule moduleDef k = (Return (instantiate tpl moduleDef), k).
Proof.
  intros Htpl Hdeps. unfold loadModule. rewrite Htpl.
  destruct (List.find _ _) as [dep|] eqn:Hfind; [|done].
  apply List.find_some in Hfind as [Hin Hneg].
  apply list_elem_of_In in Hin. by rewrite (Hdeps dep Hin) in Hneg.
Qed.

Lemma load_each_stored l : forall k k',
  load_each l k = (Return tt, k') ->
  NoDup (name <$> l) ->
  forall m tpl,
    m ∈ l -> name m <> "__proto__" ->
    lookup_template (name m) = Some tpl ->
    JsObj.get (modules k') (name m) = Some (instantiate tpl m).
Proof.
  induction l as [|m0 l IH]; intros k k' Hrun Hnd m tpl Hin Hproto Htpl.
  { by apply not_elem_of_nil in Hin. }
  simpl in Hrun. rewrite fmap_cons in Hnd.
  apply NoDup_cons in Hnd as [Hm0 Hnd].
  pose proof (Stage2Facts.loadModule_state m0 k) as Hst.
  pose proof (loadModule_instance m0 k) as Hinst.
  destruct (loadModule m0 k) as [[module|e] k1]; simpl in Hst; subst k1;
    [|done].
  destruct (Hinst module eq_refl) as (tpl0 & Htpl0 & ->).
  apply elem_of_cons in Hin as [->|Hin]; [|by eapply IH].
  rewrite Htpl in Htpl0. injection Htpl0 as <-.
  pose proof (load_each_modules l
                (registerExports m0
                   (with_modules
                      (JsObj.assign (modules k) (name m0)
                                    (instantiate tpl m0)) k))
                (name m0)) as Hcase.
  rewrite Hrun in Hcase. cbn [snd] in Hcase.
  rewrite Stage2Facts.registerExports_modules in Hcase. simpl in Hcase.
  destruct Hcase as [->|(module & _ & d & _ & Hd & Hn & _)].
  - unfold JsObj.assign.
    destruct (String.eqb_spec (name m0) "__proto__"); [done|].
    apply get_set_eq.
  - exfalso. apply Hm0. rewrite <- Hn. by apply list_elem_of_fmap_2.
Qed.

Lemma load_each_present l : forall k k' e,
  load_each l k = (Return tt, k') ->
  e <> "__proto__" ->
  (exists m, m ∈ l /\ e ∈ exports m) \/ is_Some (symbols k !! e) ->
  is_Some (symbols k' !! e).
Proof.
  induction l as [|m0 l IH]; intros k k' e Hrun Hproto Hcase.
  { simpl in Hrun. injection Hrun as <-.
    destruct Hcase as [(m & Hin & _)|H]; [|done].
    by apply not_elem_of_nil in Hin. }
  simpl in Hrun.
  pose proof (Stage2Facts.loadModule_state m0 k) as Hst.
  destruct (loadModule m0 k) as [[module|e'] k1]; simpl in Hst; subst k1;
    [|done].
  apply (IH _ _ e Hrun Hproto).
  destruct (decide (e ∈ exports m0)) as [He|He].
  - right. by apply register_present; [|left].
  - destruct Hcase as [(m & Hin & Hexp)|H].
    + apply elem_of_cons in Hin as [->|Hin]; [done|]. left. by exists m.
    + right. by apply register_present; [|right].
Qed.

(** ** The order of a load, on an example *)


Lemma dependencies_first_loads_witness :
  succeeded
    (loadEssentialModulesFrom
       [entry "scheduler"; entry "memory-manager"; entry "process-manager"]
       new).1 = true.
Proof.
  apply Stage2Facts.dependencies_first_loads.
  - by_evaluation.
  - intros i m d Hi Hd.
    destruct i as [|[|[|i]]]; simpl in Hi; try discriminate Hi;
      injection Hi as <-; apply list_elem_of_In in Hd; vm_compute in Hd.
    + destruct Hd.
    + destruct Hd.
    + destruct Hd as [<-|[<-|[]]]; [exists 0 | exists 1];
        (split; [lia | reflexivity]).
Defined.

End Stage2More.

(* ===================================================================== *)
(** * The kernel loader as a stage *)
(* ===================================================================== *)

Module Stage2BootFacts.

Import Js Stage2KernelLoader Stage2Spec Stage2Invariant Stage2Boot
       Stage2Verdict JsObjFacts.
#[local] Open Scope list_scope.





(** ** The stage as a whole *)

Lemma sorted_essentialModules :
  sort_by_priority essentialModules
  = [ entry "syscalls"; entry "scheduler"; entry "memory-manager";
      entry "process-manager"; entry "ipc-system" ].
Proof. vm_compute. reflexivity. Qed.

(** X17: Stage 2 stops at "syscalls" unless its two dependencies are loaded
    before [execute()] is called: the module comes first in the priority
    order, its load fails, and [execute()] returns the failure of the
    stage with the message of [loadEssentialModules].  All it has done
    then is to lay out the address space; no module is stored and no
    symbol registered.  A new loader is in this case. *)
Theorem stage2_stops_at_syscalls
    (rnd : nat -> string) (now : Z) (k : Stage2Boot.t) :
  JsObj.has (modules (loader k)) "process-manager" = false
  \/ JsObj.has (modules (loader k)) "memory-manager" = false ->
  execute rnd now k
  = (Failure "No se pudo cargar módulo esencial: syscalls"
             "stage2-kernel-loader",
     setupKernelAddressSpace k).
Proof.
  intros Hmissing. unfold execute. cbv zeta.
  change (loader (setupKernelAddressSpace k)) with (loader k).
  unfold loadEssentialModules, loadEssentialModulesFrom.
  rewrite sorted_essentialModules. cbn [load_each].
  assert (Hload : exists e, loadModule (entry "syscalls") (loader k)
                            = (Throw e, loader k)).
  { unfold loadModule.
    change (lookup_template (name (entry "syscalls")))
      with (Some (OwnTemplate
                    {| tpl_name := "syscalls"; version := "1.0.0";
                       type_ := "kernel";
                       initialize := Some (Obj [("status", Str "initialized");
                                                ("table", Obj []);
                                                ("count", Num 0)]);
                       api := [] |})).
    change (dependencies (entry "syscalls"))
      with ["process-manager"; "memory-manager"].
    cbn [List.find].
    destruct Hmissing as [H|H].
    - rewrite H. by eexists.
    - rewrite H. destruct (JsObj.has (modules (loader k)) "process-manager");
        by eexists. }
  destruct Hload as [e ->]. reflexivity.
Qed.

Lemma stage2_stops_at_syscalls_witness :
  execute (fun _ => "0x00000000") 0 Stage2Boot.new
  = (Failure "No se pudo cargar módulo esencial: syscalls"
             "stage2-kernel-loader",
     setupKernelAddressSpace Stage2Boot.new).
Proof.
  apply stage2_stops_at_syscalls. left. reflexivity.
Defined.

#[local] Ltac in_list :=
  repeat (first [apply list_elem_of_here | apply list_elem_of_further]).

Lemma essential_instance_initialized n tpl :
  n ∈ ["syscalls"; "scheduler"; "memory-manager"; "process-manager";
       "ipc-system"] ->
  lookup_template n = Some tpl ->
  initialized (instantiate tpl (entry n)) = true.
Proof.
  intros Hn.
  repeat (apply elem_of_cons in Hn as [->|Hn]);
    try (vm_compute; intros [= <-]; reflexivity).
  destruct (not_elem_of_nil n Hn).
Qed.

(** The built-in list loads on a loader that has the two dependencies of
    "syscalls". *)
Lemma essentialModules_load (l0 : Stage2KernelLoader.t) :
  JsObj.has (modules l0) "process-manager" = true ->
  JsObj.has (modules l0) "memory-manager" = true ->
  exists k1,
    load_each (sort_by_priority essentialModules) l0 = (Return tt, k1).
Proof.
  intros Hpm Hmm.
  pose proof (Stage2Facts.load_each_gets_through
                (sort_by_priority essentialModules) l0) as Hrun.
  destruct (load_each (sort_by_priority essentialModules) l0)
    as [[[]|e] k1]; [by exists k1|].
  exfalso. cbn [fst succeeded] in Hrun.
  assert (false = true) as Habs; [|discriminate Habs].
  apply Hrun; rewrite sorted_essentialModules.
  - by_evaluation.
  - intros i m d Hi Hd.
    destruct i as [|[|[|[|[|i]]]]]; simpl in Hi; try discriminate Hi;
      injection Hi as <-; apply list_elem_of_In in Hd; vm_compute in Hd.
    + left. destruct Hd as [<-|[<-|[]]]; by apply has_ordinary.
    + destruct Hd.
    + destruct Hd.
    + right. destruct Hd as [<-|[<-|[]]];
        [exists 1 | exists 2]; (split; [lia | reflexivity]).
    + right. destruct Hd as [<-|[]]. exists 3. split; [lia | reflexivity].
Qed.

(** X18: Stage 2 goes through once the order is out of the way.  On a loader
    that has the two dependencies of "syscalls" when [execute()] is
    called (and a closed set of modules, none of them under
    [process_manager] or [memory_manager]), the five built-in modules load,
    the symbols resolve, the subsystems start, the 21 system calls are put
    into the state of "syscalls", the status check finds the kernel
    healthy, without issue or warning, and [execute()] returns the success
    result with the modules, the number of symbols and the memory map of
    the loader. *)
Theorem stage2_goes_through_once_preloaded
    (rnd : nat -> string) (now : Z) (k : Stage2Boot.t) :
  preloaded (loader k) ->
  exists report after,
    execute rnd now k
    = (Success (modules (loader after)) (size (symbols (loader after)))
               (memoryMap after) report,
       after)
    /\ healthy report = true
    /\ issues report = []
    /\ warnings report = []
    /\ checks report
       = [ "scheduler: OK"; "memory-manager: OK"; "process-manager: OK";
           "syscalls: OK"; "Símbolo schedule: OK"; "Símbolo kmalloc: OK";
           "Símbolo createProcess: OK"; "Símbolo sendMessage: OK";
           "Memoria del kernel: OK"; "Syscalls: 21 configuradas" ]
    /\ memoryMap after = memoryMap (setupKernelAddressSpace k)
    /\ Forall (fun n => module_initialized (loader after) n = true)
         [ "syscalls"; "scheduler"; "memory-manager"; "process-manager";
           "ipc-system" ].
Proof.
  intros (Hpm & Hmm & Hclosed & Hu1 & Hu2).
  set (l0 := loader k) in *.
  (* loading *)
  destruct (essentialModules_load l0 Hpm Hmm) as [k1 Hload].
  assert (HloadE : loadEssentialModules l0 = (Return (modules k1), k1)).
  { unfold loadEssentialModules, loadEssentialModulesFrom.
    by rewrite Hload. }
  assert (Hstored : forall n tpl,
            n ∈ ["syscalls"; "scheduler"; "memory-manager";
                 "process-manager"; "ipc-system"] ->
            lookup_template n = Some tpl ->
            JsObj.get (modules k1) n = Some (instantiate tpl (entry n))).
  { intros n tpl Hn Htpl.
    assert (Hname : name (entry n) = n).
    { clear -Hn. repeat (apply elem_of_cons in Hn as [->|Hn]);
        try reflexivity. destruct (not_elem_of_nil n Hn). }
    rewrite <- Hname at 1.
    apply (Stage2More.load_each_stored _ _ _ Hload).
    - rewrite sorted_essentialModules. by_evaluation.
    - rewrite sorted_essentialModules. clear -Hn.
      repeat (apply elem_of_cons in Hn as [->|Hn]); try in_list.
      destruct (not_elem_of_nil n Hn).
    - rewrite Hname. clear -Hn.
      repeat (apply elem_of_cons in Hn as [->|Hn]); try by_evaluation.
      destruct (not_elem_of_nil n Hn).
    - by rewrite Hname. }
  assert (Hinit1 : forall n,
            n ∈ ["syscalls"; "scheduler"; "memory-manager";
                 "process-manager"; "ipc-system"] ->
            module_initialized k1 n = true).
  { intros n Hn.
    assert (Htpl : is_Some (lookup_template n)).
    { clear -Hn. repeat (apply elem_of_cons in Hn as [->|Hn]);
        try by_evaluation. destruct (not_elem_of_nil n Hn). }
    destruct Htpl as [tpl Htpl]. unfold module_initialized.
    rewrite (Hstored n tpl Hn Htpl).
    by apply essential_instance_initialized. }
  assert (Hsym1 : forall e,
            e ∈ ["schedule"; "kmalloc"; "createProcess"; "sendMessage"] ->
            is_Some (symbols k1 !! e)).
  { intros e He.
    apply (Stage2More.load_each_present _ _ _ e Hload).
    - clear -He. repeat (apply elem_of_cons in He as [->|He]);
        try by_evaluation. destruct (not_elem_of_nil e He).
    - left. rewrite sorted_essentialModules. clear -He.
      repeat (apply elem_of_cons in He as [->|He]);
        [ exists (entry "scheduler") | exists (entry "memory-manager")
        | exists (entry "scheduler") | exists (entry "ipc-system")
        | destruct (not_elem_of_nil e He) ];
        (split; [in_list | by_evaluation]). }
  assert (Hclosed1 : deps_closed k1).
  { pose proof (Stage2More.load_each_deps_closed
                  (sort_by_priority essentialModules) l0 Hclosed) as H.
    by rewrite Hload in H. }
  assert (Hunder : JsObj.get (modules k1) "process_manager" = None
                   /\ JsObj.get (modules k1) "memory_manager" = None).
  { split.
    - destruct (Stage2More.load_each_modules
                  (sort_by_priority essentialModules) l0 "process_manager")
        as [H|(module & _ & d & tpl & _ & _ & Ht & _)];
        [rewrite Hload in H; cbn [snd] in H; by rewrite H
        | by vm_compute in Ht].
    - destruct (Stage2More.load_each_modules
                  (sort_by_priority essentialModules) l0 "memory_manager")
        as [H|(module & _ & d & tpl & _ & _ & Ht & _)];
        [rewrite Hload in H; cbn [snd] in H; by rewrite H
        | by vm_compute in Ht]. }
  destruct Hunder as [Hu1' Hu2'].
  (* the symbols *)
  set (k2 := with_symbols (global_symbols rnd (modules k1) ∪ symbols k1) k1).
  assert (HC : resolveSymbols rnd k1 = (Return (symbols k2), k2)).
  { unfold resolveSymbols.
    by rewrite (Stage2More.check_dependencies_closed k1 (modules k1) Hclosed1). }
  assert (Hsym2 : forall e,
            e ∈ ["schedule"; "kmalloc"; "createProcess"; "sendMessage"] ->
            symbol_present k2 e = true).
  { intros e He. apply bool_decide_eq_true.
    apply lookup_union_is_Some. right. by apply Hsym1. }
  (* the subsystems *)
  assert (HD : initializeKernelSubsystems k2 = Return tt).
  { unfold initializeKernelSubsystems, initProcessManagement,
      initMemoryManagement.
    change (modules k2) with (modules k1). by rewrite Hu1', Hu2'. }
  (* the system calls *)
  destruct (lookup_template "syscalls") as [tpl|] eqn:Htpl;
    [|by vm_compute in Htpl].
  pose proof (Hstored "syscalls" tpl ltac:(by_evaluation) Htpl) as Hsys.
  vm_compute in Htpl. injection Htpl as <-.
  set (inst := instantiate _ (entry "syscalls")) in Hsys.
  set (st := Obj [ ("status", Str "initialized");
                   ("table", Arr syscallTable);
                   ("count", Num (Z.of_nat (length syscallTable))) ]).
  set (k3 := with_modules
               (JsObj.set (modules k2) "syscalls" (with_state st inst)) k2).
  assert (HE : setupSystemCallTable k2 = (Return syscallTable, k3)).
  { unfold setupSystemCallTable.
    change (modules k2) with (modules k1). rewrite Hsys. reflexivity. }
  assert (Hinit3 : forall n,
            n ∈ ["syscalls"; "scheduler"; "memory-manager";
                 "process-manager"; "ipc-system"] ->
            module_initialized k3 n = true).
  { intros n Hn. unfold module_initialized, k3. cbn [modules with_modules].
    destruct (decide (n = "syscalls")) as [->|Hne].
    - by rewrite get_set_eq.
    - rewrite get_set_ne by done. by apply Hinit1. }
  (* the status *)
  set (after := with_loader k3 (setupKernelAddressSpace k)).
  assert (Hfind : status_findings after
            = {| Findings.checks :=
                   [ "scheduler: OK"; "memory-manager: OK";
                     "process-manager: OK"; "syscalls: OK";
                     "Símbolo schedule: OK"; "Símbolo kmalloc: OK";
                     "Símbolo createProcess: OK";
                     "Símbolo sendMessage: OK"; "Memoria del kernel: OK" ];
                 Findings.issues := [];
                 Findings.warnings := [] |}).
  { unfold status_findings, Findings.require, Findings.advise.
    cbn [fold_left]. change (loader after) with k3.
    rewrite !Hinit3 by by_evaluation.
    change (symbol_present k3) with (symbol_present k2).
    rewrite !Hsym2 by by_evaluation.
    reflexivity. }
  assert (HF : verifyKernelStatus now after
            = Return
                {| healthy := true;
                   checks :=
                     [ "scheduler: OK"; "memory-manager: OK";
                       "process-manager: OK"; "syscalls: OK";
                       "Símbolo schedule: OK"; "Símbolo kmalloc: OK";
                       "Símbolo createProcess: OK";
                       "Símbolo sendMessage: OK"; "Memoria del kernel: OK";
                       "Syscalls: 21 configuradas" ];
                   issues := [];
                   warnings := [];
                   modulesLoaded := length (JsObj.keys (modules k3));
                   symbolsResolved := size (symbols k3);
                   timestamp := now |}).
  { unfold verifyKernelStatus. rewrite Hfind.
    change (modules (loader after)) with (modules k3).
    unfold k3 at 1. cbn [modules with_modules]. rewrite get_set_eq.
    reflexivity. }
  eexists _, after. split.
  { unfold execute. cbv zeta.
    change (loader (setupKernelAddressSpace k)) with l0.
    rewrite HloadE, HC, HD, HE.
    fold after. rewrite HF. reflexivity. }
  split; [reflexivity|]. split; [reflexivity|]. split; [reflexivity|].
  split; [reflexivity|]. split; [reflexivity|].
  apply Forall_forall. exact Hinit3.
Qed.

Lemma stage2_goes_through_once_preloaded_witness :
  exists report after,
    execute (fun _ => "0x00000000") 0 three_loaded
    = (Success (modules (loader after)) (size (symbols (loader after)))
               (memoryMap after) report,
       after)
    /\ healthy report = true
    /\ issues report = []
    /\ warnings report = []
    /\ checks report
       = [ "scheduler: OK"; "memory-manager: OK"; "process-manager: OK";
           "syscalls: OK"; "Símbolo schedule: OK"; "Símbolo kmalloc: OK";
           "Símbolo createProcess: OK"; "Símbolo sendMessage: OK";
           "Memoria del kernel: OK"; "Syscalls: 21 configuradas" ]
    /\ memoryMap after = memoryMap (setupKernelAddressSpace three_loaded)
    /\ Forall (fun n => module_initialized (loader after) n = true)
         [ "syscalls"; "scheduler"; "memory-manager"; "process-manager";
           "ipc-system" ].
Proof.
  apply stage2_goes_through_once_preloaded.
  split; [reflexivity|]. split; [reflexivity|].
  split; [|split; reflexivity].
  intros n m dep Hin Hdep.
  let v := eval vm_compute in (modules (loader three_loaded)) in
  change (modules (loader three_loaded)) with v in Hin |- *.
  repeat (apply elem_of_cons in Hin as [[= -> ->]|Hin]);
    [ | | | destruct (not_elem_of_nil _ Hin) ];
    apply list_elem_of_In in Hdep; vm_compute in Hdep;
    repeat (destruct Hdep as [<-|Hdep]); try destruct Hdep;
    reflexivity.
Defined.

End Stage2BootFacts.

(* ===================================================================== *)
(** * Properties of the emulated BIOS *)
(* ===================================================================== *)

Module Stage1Facts.

Import Js Stage1BIOS.
#[local] Open Scope list_scope.

(** X19: The verdict of [checkSystemIntegrity].  The check raises a
    [TypeError] exactly when the CPU was not configured.  Otherwise it
    passes exactly when the memory is not known to be below 512 MB (which
    includes the case where it was never initialized), the CPU has an MMU
    and there is a storage device; a missing display and an untested
    browser only give warnings.  Each of the five checks gives one entry,
    in one of the three lists. *)
Theorem bios_integrity_verdict (nav : Navigator) (now : Z) (k : Stage1BIOS.t) :
  match checkSystemIntegrity nav now k with
  | Return report =>
      exists cpu,
        cpuInfo k = Some cpu
        /\ passed report
           = negb (memory_low k) && bool_decide ("MMU" ∈ features cpu)
             && has_device k "storage"
        /\ warnings report
           = (if has_device k "display" then []
              else ["No se detectó display"])
             ++ (if compatible nav then []
                 else ["Navegador no probado completamente"])
        /\ length (checks report) + length (errors report)
           + length (warnings report) = 5
        /\ timestamp report = now
  | Throw e => cpuInfo k = None /\ e = NoFeatures
  end.
Proof.
  unfold checkSystemIntegrity.
  destruct (cpuInfo k) as [cpu|]; [|done].
  exists cpu. split; [done|].
  unfold integrity_findings. cbn [passed checks errors warnings timestamp].
  destruct (memory_low k), (bool_decide ("MMU" ∈ features cpu)),
    (has_device k "display"), (has_device k "storage"), (compatible nav);
    done.
Qed.

(** The four steps before the check assign every field: the state they
    leave does not depend on the state before. *)
Lemma prepared_state (nav : Navigator) (k : Stage1BIOS.t) :
  scanDevices nav (configureCPU (initializeMemory (detectHardware nav k)))
  = scanDevices nav
      (configureCPU (initializeMemory (detectHardware nav new))).
Proof. reflexivity. Qed.

Lemma prepared_devices (nav : Navigator) (k : Stage1BIOS.t) type_ :
  type_ ∈ ["display"; "storage"] ->
  has_device (scanDevices nav k) type_ = true.
Proof.
  intros Ht. unfold has_device, scanDevices. cbn [devices].
  rewrite existsb_app.
  repeat (apply elem_of_cons in Ht as [->|Ht]); try reflexivity.
  destruct (not_elem_of_nil type_ Ht).
Qed.

Lemma prepared_integrity (nav : Navigator) (now : Z) (k : Stage1BIOS.t) :
  checkSystemIntegrity nav now
    (scanDevices nav (configureCPU (initializeMemory k)))
  = Return
      {| passed := true;
         checks := ["Memoria: OK"; "CPU: OK"; "Display: OK"; "Storage: OK"]
                   ++ (if compatible nav then ["Navegador: OK"] else []);
         errors := [];
         warnings := (if compatible nav then []
                      else ["Navegador no probado completamente"]);
         timestamp := now |}.
Proof.
  unfold checkSystemIntegrity.
  change (cpuInfo (scanDevices nav (configureCPU (initializeMemory k))))
    with (cpuInfo (configureCPU (initializeMemory k))).
  cbn [cpuInfo configureCPU]. unfold integrity_findings.
  change (memory_low _) with false.
  change (bool_decide ("MMU" ∈ _)) with true.
  rewrite !prepared_devices by by_evaluation.
  by destruct (compatible nav).
Qed.

(** X20: Stage 1 cannot fail in a browser.  Whatever [navigator] reports and
    whatever state the object is in, [execute()] returns the success
    result: every field is assigned anew, so the outcome does not depend
    on the state before; the integrity check passes without error; there
    are five devices, or seven when the browser has media devices; and
    the only warning there can be is the one for a browser that is none
    of Chrome, Firefox, Safari and Edge. *)
Theorem stage1_always_goes_through
    (nav : Navigator) (now : Z) (k : Stage1BIOS.t) :
  exists integrity,
    execute nav now k
    = (Success (hardware (execute nav now new).2)
               (memory (execute nav now new).2)
               (cpuInfo (execute nav now new).2)
               (devices (execute nav now new).2) integrity,
       (execute nav now new).2)
    /\ passed integrity = true
    /\ errors integrity = []
    /\ warnings integrity
       = (if compatible nav then []
          else ["Navegador no probado completamente"])
    /\ checks integrity
       = ["Memoria: OK"; "CPU: OK"; "Display: OK"; "Storage: OK"]
         ++ (if compatible nav then ["Navegador: OK"] else [])
    /\ length (devices (execute nav now new).2)
       = (if truthy (mediaDevices nav) then 7 else 5)
    /\ (available <$> memory (execute nav now new).2)
       = Some 3435973836%Z.
Proof.
  assert (Hexec : forall k0,
            execute nav now k0
            = (Success
                 (hardware (detectHardware nav new))
                 (memory (initializeMemory new))
                 (cpuInfo (configureCPU new))
                 (devices (scanDevices nav new))
                 {| passed := true;
                    checks := ["Memoria: OK"; "CPU: OK"; "Display: OK";
                               "Storage: OK"]
                              ++ (if compatible nav then ["Navegador: OK"]
                                  else []);
                    errors := [];
                    warnings := (if compatible nav then []
                                 else ["Navegador no probado completamente"]);
                    timestamp := now |},
               scanDevices nav
                 (configureCPU (initializeMemory (detectHardware nav new))))).
  { intros k0. unfold execute. cbv zeta.
    rewrite (prepared_state nav k0), prepared_integrity. reflexivity. }
  rewrite (Hexec k), (Hexec new). cbn [snd].
  eexists. split; [reflexivity|].
  cbn [passed errors warnings checks].
  split; [reflexivity|]. split; [reflexivity|]. split; [reflexivity|].
  split; [reflexivity|]. split; [|reflexivity].
  unfold scanDevices. cbn [devices]. rewrite length_app.
  by destruct (truthy (mediaDevices nav)).
Qed.

End Stage1Facts.

(* ===================================================================== *)
(** * The kernel initializer never gets its interrupt handlers *)
(* ===================================================================== *)

Module KernelInterruptsFacts.

Import Js KernelInitializer KernelInterrupts.
#[local] Open Scope list_scope.

(** The first array of [setupInterruptHandlers] is built; the second
    stops at its third entry. *)
Lemma build_stops_at_cascade :
  succeeded (build exceptions) = true
  /\ build (take 2 irqs)
     = Return [ (32%Z, "Timer", Str "handleTimerInterrupt");
                (33%Z, "Keyboard", Str "handleKeyboardInterrupt") ]
  /\ build irqs = Throw NoBind.
Proof. repeat split; vm_compute; reflexivity. Qed.

(** X21: [setupInterruptHandlers()] always fails.  Seventeen of the handlers
    it binds are methods the class does not have, the first of them
    [handleCascadeInterrupt] for vector 34; reading [.bind] off it raises
    a [TypeError] while the arrays are still being built, before any
    handler is registered.  So the method leaves every field as it was,
    in whatever state it is called; [initialize()], whose third step it
    is, can only return a failure (with this error when its first two
    steps go through), whatever its other steps do; and a kernel that
    has no handlers before is found unhealthy by
    [verifyKernelIntegrity] after. *)
Theorem interrupt_handlers_are_never_registered
    (step1 step2 : KernelInitializer.t -> completion unit * KernelInitializer.t)
    (remaining : KernelInitializer.t -> InitResult * KernelInitializer.t)
    (now : Z) (k : KernelInitializer.t) :
  setupInterruptHandlers k = (Throw NoBind, k)
  /\ length (List.filter
               (fun d => negb (bool_decide (d.2 ∈ defined_handlers)))
               (exceptions ++ irqs ++ ipis)) = 17
  /\ (exists msg k',
        initialize step1 step2 remaining k = (Failure msg "kernel-init", k'))
  /\ (forall k1 k2,
        step1 k = (Return tt, k1) -> step2 k1 = (Return tt, k2) ->
        initialize step1 step2 remaining k
        = (Failure "Cannot read properties of undefined (reading 'bind')"
                   "kernel-init", k2))
  /\ (interruptHandlers k = ∅ ->
      healthy (verifyKernelIntegrity now (setupInterruptHandlers k).2).1
      = false).
Proof.
  assert (Hsetup : forall k0, setupInterruptHandlers k0 = (Throw NoBind, k0))
    by reflexivity.
  split; [apply Hsetup|]. split; [vm_compute; reflexivity|].
  split; [|split].
  - unfold initialize.
    destruct (step1 k) as [[[]|e1] k1]; [|by eexists _, _].
    destruct (step2 k1) as [[[]|e2] k2]; [|by eexists _, _].
    rewrite Hsetup. by eexists _, _.
  - intros k1 k2 H1 H2. unfold initialize. by rewrite H1, H2, Hsetup.
  - intros Hempty. rewrite Hsetup. cbn [snd].
    unfold verifyKernelIntegrity. cbn [fst healthy].
    unfold integrity_findings.
    repeat (rewrite VerdictFacts.no_issues_check
            || rewrite VerdictFacts.no_issues_warning
            || rewrite VerdictFacts.no_issues_issue
            || match goal with
               | |- context [if ?b then _ else _] => destruct b
               end);
      try reflexivity;
      rewrite !VerdictFacts.require_no_issues, Hempty;
      by rewrite andb_false_r.
Qed.

End KernelInterruptsFacts.

(* ===================================================================== *)
(** * The boot loader over the stages it has *)
(* ===================================================================== *)

Module BuiltinBootFacts.

Import Js BootLoader BuiltinBoot JsObjFacts.
#[local] Open Scope list_scope.

Lemma keys_spread_iff {A} (b : JsObj.obj A) : forall (a : JsObj.obj A) x,
  x ∈ JsObj.keys (JsObj.spread a b)
  <-> x ∈ JsObj.keys a \/ x ∈ JsObj.keys b.
Proof.
  unfold JsObj.spread.
  induction b as [|[k v] b IH]; intros a x; simpl.
  { split; [by left|]. intros [H|H]; [done|]. by apply not_elem_of_nil in H. }
  rewrite IH, keys_set, elem_of_cons. intuition congruence.
Qed.

Lemma keys_step (x s target : string) (names rest : list string)
    (before after : Prop) :
  (after <-> (before
              \/ x ∈ (if String.eqb s target then names else []))
             \/ (target ∈ rest /\ x ∈ names)) ->
  (after <-> before \/ (target ∈ s :: rest /\ x ∈ names)).
Proof.
  intros ->. rewrite elem_of_cons.
  destruct (String.eqb_spec s target) as [->|Hne].
  - split.
    + intros [[H|H]|[H1 H2]];
        [by left | right; split; [by left | done]
        | right; split; [by right | done]].
    + intros [H|[_ H2]]; [by left; left | left; by right].
  - split.
    + intros [[H|H]|[H1 H2]];
        [by left | by apply not_elem_of_nil in H
        | right; split; [by right | done]].
    + intros [H|[[H1|H1] H2]];
        [by left; left | congruence | right; by split].
Qed.

(** What one of the three stages of the table does to the loop. *)
Lemma known_stage {W} (s : string) (bl : BootLoader.t) (w : W) :
  known s = true ->
  exists result,
    loadStage (@builtin_stages W) s
    = Return (OwnStage (fun _ w => (Return result, w)))
    /\ success result = true
    /\ JsObj.keys (default [] (res_kernelModules result))
       = (if String.eqb s "stage2-kernel-loader"
          then ["scheduler"; "memory-manager"; "process-manager"] else [])
    /\ JsObj.keys (default [] (res_services result))
       = (if String.eqb s "stage3-init"
          then ["auth"; "vfs"; "network"] else []).
Proof.
  intros Hk. apply bool_decide_eq_true in Hk. unfold stage_names in Hk.
  repeat (apply elem_of_cons in Hk as [->|Hk]);
    [ | | | destruct (not_elem_of_nil s Hk) ];
    eexists; (split; [reflexivity|]); repeat split; reflexivity.
Qed.

Lemma unknown_stage {W} (s : string) (bl : BootLoader.t) (w : W) :
  known s = false ->
  match loadStage (@builtin_stages W) s with
  | Return stage =>
      exists e, execute stage bl w = (Throw e, w)
                /\ message e = unknown_stage_message s
  | Throw e => message e = unknown_stage_message s
  end.
Proof.
  intros Hk. apply bool_decide_eq_false in Hk.
  assert (Hget : JsObj.get (@builtin_stages W) s = None)
    by (by apply get_None_keys).
  unfold loadStage, unknown_stage_message. rewrite Hget.
  destruct (inherited s); [|done]. by eexists.
Qed.

Lemma run_builtin_stages {W} (rest : list string) :
  forall i (bl : BootLoader.t) (w : W),
    let r := run_stages (@builtin_stages W) i rest bl w in
    r.2 = w
    /\ stages r.1.2 = stages bl
    /\ bootStatus r.1.2 = bootStatus bl
    /\ match List.find (fun n => negb (known n)) rest with
       | None =>
           r.1.1 = Return tt
           /\ (forall x,
                 x ∈ JsObj.keys (kernelModules r.1.2)
                 <-> x ∈ JsObj.keys (kernelModules bl)
                     \/ ("stage2-kernel-loader" ∈ rest
                         /\ x ∈ ["scheduler"; "memory-manager";
                                 "process-manager"]))
           /\ (forall x,
                 x ∈ JsObj.keys (systemServices r.1.2)
                 <-> x ∈ JsObj.keys (systemServices bl)
                     \/ ("stage3-init" ∈ rest
                         /\ x ∈ ["auth"; "vfs"; "network"]))
       | Some n =>
           exists j e,
             rest !! j = Some n
             /\ Forall (fun m => known m = true) (take j rest)
             /\ r.1.1 = Throw e
             /\ message e = unknown_stage_message n
             /\ currentStage r.1.2 = i + j + 1
       end.
Proof.
  induction rest as [|s rest IH]; intros i bl w.
  { cbn. repeat split; try done.
    - by left.
    - intros [H|[H _]]; [done|]. by apply not_elem_of_nil in H.
    - by left.
    - intros [H|[H _]]; [done|]. by apply not_elem_of_nil in H. }
  cbn [run_stages List.find].
  destruct (known s) eqn:Hk; cbn [negb].
  - destruct (known_stage s (with_currentStage (i + 1) bl) w Hk)
      as (result & -> & Hsucc & Hkm & Hss).
    cbn [execute]. rewrite Hsucc. cbn [negb].
    set (bl1 := with_tables _ _ (with_currentStage (i + 1) bl)).
    destruct (IH (i + 1) bl1 w) as (Hw & Hst & Hbs & Hcase).
    cbv zeta. split; [exact Hw|]. split; [exact Hst|]. split; [exact Hbs|].
    destruct (List.find (fun n => negb (known n)) rest) as [n|].
    + destruct Hcase as (j & e & Hj & Hall & Hr & Hm & Hc).
      exists (S j), e. split; [done|]. split.
      { cbn [take]. by constructor. }
      split; [done|]. split; [done|]. rewrite Hc. lia.
    + destruct Hcase as (Hr & Hkeys1 & Hkeys2).
      split; [done|]. split.
      * intros x. apply (keys_step x s). rewrite Hkeys1. unfold bl1.
        cbn [kernelModules with_tables with_currentStage].
        by rewrite keys_spread_iff, Hkm.
      * intros x. apply (keys_step x s). rewrite Hkeys2. unfold bl1.
        cbn [systemServices with_tables with_currentStage].
        by rewrite keys_spread_iff, Hss.
  - pose proof (unknown_stage s (with_currentStage (i + 1) bl) w Hk) as Hu.
    destruct (loadStage builtin_stages s) as [stage|e].
    + destruct Hu as (e & -> & Hm). cbn.
      repeat split; try done. exists 0, e. cbn. repeat split; try done.
      lia.
    + cbn. repeat split; try done. exists 0, e. cbn.
      repeat split; try done. lia.
Qed.

(** X22: What [start()] does with the stages it has.  The table of
    [loadStage] holds three simulated stages that always succeed, so a
    run fails only on a stage name outside the table: it succeeds exactly
    when every name of [this.stages] is one of the three, and then the
    keys of [kernelModules] are those from before and, if the kernel
    loader stage is listed, "scheduler", "memory-manager" and
    "process-manager"; likewise the services with "auth", "vfs" and
    "network" for the init stage.  Otherwise it stops at the first name
    outside the table: the result carries its position (counted from 1),
    that name, and the error of the missing stage. *)
Theorem boot_over_the_builtin_stages
    {W} (t0 t1 : Z) (bl : BootLoader.t) (w : W) :
  let run := start (@builtin_stages W) t0 t1 bl w in
  run.2 = w
  /\ match List.find (fun n => negb (known n)) (stages bl) with
     | None =>
         run.1.1
         = BootOk (QArith_base.Qmake (t1 - t0) 1000)
                  (JsObj.keys (kernelModules run.1.2))
                  (JsObj.keys (systemServices run.1.2))
         /\ (forall x,
               x ∈ JsObj.keys (kernelModules run.1.2)
               <-> x ∈ JsObj.keys (kernelModules bl)
                   \/ ("stage2-kernel-loader" ∈ stages bl
                       /\ x ∈ ["scheduler"; "memory-manager";
                               "process-manager"]))
         /\ (forall x,
               x ∈ JsObj.keys (systemServices run.1.2)
               <-> x ∈ JsObj.keys (systemServices bl)
                   \/ ("stage3-init" ∈ stages bl
                       /\ x ∈ ["auth"; "vfs"; "network"]))
     | Some n =>
         exists j,
           stages bl !! j = Some n
           /\ Forall (fun m => known m = true) (take j (stages bl))
           /\ run.1.1
              = BootFailed (unknown_stage_message n) (j + 1) (Some n)
     end.
Proof.
  unfold start.
  set (bl0 := with_bootStatus (set_startTime t0 (bootStatus bl)) bl).
  change (stages bl0) with (stages bl).
  pose proof (run_builtin_stages (stages bl) 0 bl0 w) as H.
  cbv zeta in H. destruct H as (Hw & Hst & _ & Hcase).
  destruct (run_stages builtin_stages 0 (stages bl) bl0 w)
    as [[[[]|e] b] w1]; cbn [fst snd] in *.
  - split; [exact Hw|].
    destruct (List.find (fun n => negb (known n)) (stages bl)) as [n|].
    + by destruct Hcase as (j & e & _ & _ & Hr & _).
    + destruct Hcase as (_ & Hk1 & Hk2). split; [reflexivity|].
      split; [exact Hk1 | exact Hk2].
  - split; [exact Hw|].
    destruct (List.find (fun n => negb (known n)) (stages bl)) as [n|].
    + destruct Hcase as (j & e' & Hj & Hall & [= <-] & Hm & Hc).
      exists j. split; [done|]. split; [done|].
      cbn [currentStage with_bootStatus]. unfold current_stage_name.
      cbn [currentStage stages with_bootStatus].
      rewrite Hc, Hm, Hst. cbn [stages]. simpl.
      replace (j + 1) with (S j) by lia. by rewrite Hj.
    + by destruct Hcase as (Hr & _).
Qed.

End BuiltinBootFacts.
